(** * Dashboard.py: the metrics and scoring model of the sacred-books dashboard

    The dashboard class [AdvancedSacredBooksAnalysis] holds a static nested
    dictionary [books_data] (book -> section -> field -> number) and derives
    three families of figures from it:

    - the composite impact score ([create_advanced_metrics_dashboard]),
    - the structural complexity index ([create_structural_analysis], right column),
    - the cross-book normalisation of the radar chart
      ([create_structural_analysis], left column).

    Python numbers are embedded as [pyval]: an [int] is a [Z], a [float] is a
    value of a carrier [F] that comes with the IEEE operations Python uses.
    The carrier has two instances: [float] (binary64, what CPython executes)
    and [Q] (the same expressions without rounding, the arithmetic in which the
    documented formulas are written). *)

From Stdlib Require Import ZArith QArith Qpower Qabs Qround Floats Uint63 Lia Lqa List.
From stdpp Require Import base option gmap strings.
Import ListNotations.

Set Warnings "-inexact-float".
Local Open Scope string_scope.
Local Open Scope Z_scope.
Local Open Scope list_scope.

(** ** Python exceptions and the result of an evaluation *)

Inductive exn : Type :=
| KeyError (key : string)
| ZeroDivisionError
| OverflowError
| ValueError.

Inductive outcome (A : Type) : Type :=
| Ok (a : A)
| Raise (e : exn).
Arguments Ok {A} a.
Arguments Raise {A} e.

#[export] Instance outcome_ret : MRet outcome := fun A a => Ok a.

#[export] Instance outcome_bind : MBind outcome := fun A B k x =>
  match x with
  | Ok a => k a
  | Raise e => Raise e
  end.

Fixpoint omap {A B} (f : A -> outcome B) (l : list A) : outcome (list B) :=
  match l with
  | [] => Ok []
  | a :: l' =>
      b ← f a; bs ← omap f l'; Ok (b :: bs)
  end.

(** ** The arithmetic of Python's [float] *)

Class FloatOps (F : Type) : Type := {
  (** [float(n)] for an [int] [n], rounded to nearest even *)
  fl_of_int : Z -> F;
  (** the correctly rounded quotient [a / b] of two integers, [b <> 0]:
      [int / int], and the value of a decimal literal *)
  fl_quot : Z -> Z -> F;
  fl_add : F -> F -> F;
  fl_sub : F -> F -> F;
  fl_mul : F -> F -> F;
  fl_div : F -> F -> F;
  (** [x == 0.0] *)
  fl_is_zero : F -> bool;
  (** the conversion of an [int] went out of range *)
  fl_is_inf : F -> bool;
  (** [x > y] on floats, and Python's exact comparisons of a float with an int *)
  fl_gtb : F -> F -> bool;
  fl_gtb_int : F -> Z -> bool;
  fl_int_gtb : Z -> F -> bool
}.

(** *** Binary64 *)

Definition Z2SF (n : Z) : spec_float :=
  match n with
  | Z0 => S754_zero false
  | Zpos p => S754_finite false p 0
  | Zneg p => S754_finite true p 0
  end.

Definition f64_of_int (n : Z) : float :=
  SF2Prim (binary_normalize prec emax n 0 false).

Definition f64_quot (a b : Z) : float :=
  SF2Prim (SFdiv prec emax (Z2SF a) (Z2SF b)).

(** The exact comparison of an integer with the value [(-1)^s * m * 2^e]. *)
Definition Z_compare_finite (n : Z) (s : bool) (m : positive) (e : Z) : comparison :=
  let v := cond_Zopp s (Zpos m) in
  if 0 <=? e then n ?= v * 2 ^ e else n * 2 ^ (- e) ?= v.

Definition Z_compare_SF (n : Z) (x : spec_float) : option comparison :=
  match x with
  | S754_nan => None
  | S754_infinity s => Some (if s then Gt else Lt)
  | S754_zero _ => Some (n ?= 0)
  | S754_finite s m e => Some (Z_compare_finite n s m e)
  end.

Definition f64_gtb_int (x : float) (n : Z) : bool :=
  match Z_compare_SF n (Prim2SF x) with
  | Some Lt => true
  | _ => false
  end.

Definition f64_int_gtb (n : Z) (x : float) : bool :=
  match Z_compare_SF n (Prim2SF x) with
  | Some Gt => true
  | _ => false
  end.

#[export] Instance binary64 : FloatOps float := {|
  fl_of_int := f64_of_int;
  fl_quot := f64_quot;
  fl_add := PrimFloat.add;
  fl_sub := PrimFloat.sub;
  fl_mul := PrimFloat.mul;
  fl_div := PrimFloat.div;
  fl_is_zero := PrimFloat.is_zero;
  fl_is_inf := PrimFloat.is_infinity;
  fl_gtb := fun x y => PrimFloat.ltb y x;
  fl_gtb_int := f64_gtb_int;
  fl_int_gtb := f64_int_gtb
|}.

(** *** Exact rationals: the same operations without rounding *)

Definition Q_quot (a b : Z) : Q := (inject_Z a / inject_Z b)%Q.

Definition Q_is_zero (x : Q) : bool := Qeq_bool x 0.

Definition Q_gtb (x y : Q) : bool := negb (Qle_bool x y).

#[export] Instance exact : FloatOps Q := {|
  fl_of_int := inject_Z;
  fl_quot := Q_quot;
  fl_add := Qplus;
  fl_sub := Qminus;
  fl_mul := Qmult;
  fl_div := Qdiv;
  fl_is_zero := Q_is_zero;
  fl_is_inf := fun _ => false;
  fl_gtb := Q_gtb;
  fl_gtb_int := fun x n => Q_gtb x (inject_Z n);
  fl_int_gtb := fun n x => Q_gtb (inject_Z n) x
|}.

(** ** Python numbers *)

Section PyNumbers.
Context {F : Type} `{FloatOps F}.

Inductive pyval : Type :=
| PyInt (n : Z)
| PyFloat (x : F).

(** A decimal literal such as [0.25], read as the nearest float to
    [num / den]. *)
Definition lit (q : Q) : pyval := PyFloat (fl_quot (Qnum q) (Zpos (Qden q))).

(** The implicit conversion of an [int] operand of a mixed operation. *)
Definition to_float (n : Z) : outcome F :=
  let x := fl_of_int n in
  if fl_is_inf x then Raise OverflowError else Ok x.

Definition py_arith (fz : Z -> Z -> Z) (ff : F -> F -> F) (a b : pyval) : outcome pyval :=
  match a, b with
  | PyInt m, PyInt n => Ok (PyInt (fz m n))
  | PyInt m, PyFloat y => (x ← to_float m; Ok (PyFloat (ff x y)))
  | PyFloat x, PyInt n => (y ← to_float n; Ok (PyFloat (ff x y)))
  | PyFloat x, PyFloat y => Ok (PyFloat (ff x y))
  end.

Definition py_add : pyval -> pyval -> outcome pyval := py_arith Z.add fl_add.
Definition py_sub : pyval -> pyval -> outcome pyval := py_arith Z.sub fl_sub.
Definition py_mul : pyval -> pyval -> outcome pyval := py_arith Z.mul fl_mul.

Definition py_is_zero (a : pyval) : bool :=
  match a with
  | PyInt n => n =? 0
  | PyFloat x => fl_is_zero x
  end.

(** [a / b], Python's true division. *)
Definition py_truediv (a b : pyval) : outcome pyval :=
  if py_is_zero b then Raise ZeroDivisionError
  else
    match a, b with
    | PyInt m, PyInt n =>
        let q := fl_quot m n in
        if fl_is_inf q then Raise OverflowError else Ok (PyFloat q)
    | PyInt m, PyFloat y => (x ← to_float m; Ok (PyFloat (fl_div x y)))
    | PyFloat x, PyInt n => (y ← to_float n; Ok (PyFloat (fl_div x y)))
    | PyFloat x, PyFloat y => Ok (PyFloat (fl_div x y))
    end.

(** [a > b] *)
Definition py_gt (a b : pyval) : bool :=
  match a, b with
  | PyInt m, PyInt n => n <? m
  | PyInt m, PyFloat y => fl_int_gtb m y
  | PyFloat x, PyInt n => fl_gtb_int x n
  | PyFloat x, PyFloat y => fl_gtb x y
  end.

(** [max(l)]: the first element that no later element exceeds;
    [ValueError] on the empty list. *)
Definition py_max (l : list pyval) : outcome pyval :=
  match l with
  | [] => Raise ValueError
  | a :: l' => Ok (fold_left (fun m x => if py_gt x m then x else m) l' a)
  end.

End PyNumbers.
Arguments pyval F : clear implicits.

(** The shape of [books_data]: book -> section -> field -> number. *)
Abbreviation dataset F := (gmap string (gmap string (gmap string (pyval F)))) (only parsing).

(** ** The data held by the dashboard object *)

Section Dashboard.
Context {F : Type} `{FloatOps F}.

(** A Python [dict] with string keys; a dict display [{k1: v1, ...}]
    inserts its items from left to right. *)
Definition dict_of {V : Type} (items : list (string * V)) : gmap string V :=
  fold_left (fun d kv => <[kv.1 := kv.2]> d) items ∅.

(** [d[k]] *)
Definition getitem {V : Type} (d : gmap string V) (k : string) : outcome V :=
  match d !! k with
  | Some v => Ok v
  | None => Raise (KeyError k)
  end.

(** One cell of a table: a number or a label. *)
Inductive cell : Type :=
| Num (v : pyval F)
| Str (s : string).

Record AdvancedSacredBooksAnalysis : Type := {
  books_data : gmap string (gmap string (gmap string (pyval F)));
  thematic_data : gmap string (gmap string (list cell));
  linguistic_data : gmap string (gmap string (pyval F));
  historical_data : list (string * list cell)
}.

Definition load_advanced_data : gmap string (gmap string (gmap string (pyval F))) :=
  dict_of [
    ("Coran", dict_of [
      ("structural_analysis", dict_of [
        ("avg_verse_length", lit 25.6);
        ("vocabulary_richness", lit 0.85);
        ("repetition_rate", lit 12.3);
        ("rhythmic_patterns", PyInt 94);
        ("thematic_cohesion", lit 9.2) ]);
      ("linguistic_features", dict_of [
        ("unique_words", PyInt 14870);
        ("root_words", PyInt 1726);
        ("grammatical_complexity", lit 8.7);
        ("semantic_density", lit 9.1);
        ("oral_preservation", lit 99.9) ]);
      ("historical_impact", dict_of [
        ("manuscripts_earliest", PyInt 642);
        ("translations_timeline", PyInt 112);
        ("academic_studies", PyInt 125000);
        ("cultural_references", PyInt 890000);
        ("legal_influence", lit 9.5) ]) ]);
    ("Torah", dict_of [
      ("structural_analysis", dict_of [
        ("avg_verse_length", lit 18.3);
        ("vocabulary_richness", lit 0.78);
        ("repetition_rate", lit 8.7);
        ("rhythmic_patterns", PyInt 45);
        ("thematic_cohesion", lit 8.8) ]);
      ("linguistic_features", dict_of [
        ("unique_words", PyInt 8920);
        ("root_words", PyInt 1850);
        ("grammatical_complexity", lit 7.9);
        ("semantic_density", lit 8.4);
        ("oral_preservation", lit 95.2) ]);
      ("historical_impact", dict_of [
        ("manuscripts_earliest", PyInt (-250));
        ("translations_timeline", PyInt 25);
        ("academic_studies", PyInt 89000);
        ("cultural_references", PyInt 450000);
        ("legal_influence", lit 9.8) ]) ]);
    ("Bible", dict_of [
      ("structural_analysis", dict_of [
        ("avg_verse_length", lit 22.1);
        ("vocabulary_richness", lit 0.92);
        ("repetition_rate", lit 15.8);
        ("rhythmic_patterns", PyInt 67);
        ("thematic_cohesion", lit 8.5) ]);
      ("linguistic_features", dict_of [
        ("unique_words", PyInt 12850);
        ("root_words", PyInt 4200);
        ("grammatical_complexity", lit 8.2);
        ("semantic_density", lit 8.8);
        ("oral_preservation", lit 97.8) ]);
      ("historical_impact", dict_of [
        ("manuscripts_earliest", PyInt 125);
        ("translations_timeline", PyInt 1382);
        ("academic_studies", PyInt 450000);
        ("cultural_references", PyInt 2500000);
        ("legal_influence", lit 9.2) ]) ]) ].

Definition ints (l : list Z) : list cell := map (fun n => Num (PyInt n)) l.
Definition strs (l : list string) : list cell := map Str l.

Definition load_thematic_analysis : gmap string (gmap string (list cell)) :=
  dict_of [
    ("Thèmes Théologiques", dict_of [
      ("Coran", ints [95; 90; 85; 80; 92; 88; 75]);
      ("Torah", ints [90; 85; 95; 75; 90; 70; 60]);
      ("Bible", ints [85; 88; 75; 90; 85; 95; 85]);
      ("Sous-thèmes", strs ["Monothéisme"; "Prophétie"; "Révélation"; "Salut";
                            "Divinité"; "Grâce"; "Jugement"]) ]);
    ("Thèmes Éthiques", dict_of [
      ("Coran", ints [88; 92; 85; 78; 90; 82; 75]);
      ("Torah", ints [85; 90; 92; 80; 88; 75; 70]);
      ("Bible", ints [90; 85; 88; 92; 85; 90; 80]);
      ("Sous-thèmes", strs ["Justice"; "Compassion"; "Honnêteté"; "Pardon";
                            "Humilité"; "Générosité"; "Paix"]) ]);
    ("Thèmes Sociaux", dict_of [
      ("Coran", ints [85; 80; 90; 75; 82; 88; 70]);
      ("Torah", ints [90; 85; 92; 88; 85; 80; 75]);
      ("Bible", ints [80; 85; 78; 90; 82; 85; 88]);
      ("Sous-thèmes", strs ["Famille"; "Communauté"; "Autorité"; "Économie";
                            "Guerre"; "Diplomatie"; "Éducation"]) ]) ].

Definition load_linguistic_analysis : gmap string (gmap string (pyval F)) :=
  dict_of [
    ("Complexité Syntaxique",
      dict_of [("Coran", lit 8.7); ("Torah", lit 7.9); ("Bible", lit 8.2)]);
    ("Densité Sémantique",
      dict_of [("Coran", lit 9.1); ("Torah", lit 8.4); ("Bible", lit 8.8)]);
    ("Richesse Lexicale",
      dict_of [("Coran", lit 0.85); ("Torah", lit 0.78); ("Bible", lit 0.92)]);
    ("Répétition Stylistique",
      dict_of [("Coran", lit 12.3); ("Torah", lit 8.7); ("Bible", lit 15.8)]);
    ("Structure Narrative",
      dict_of [("Coran", lit 7.8); ("Torah", lit 9.2); ("Bible", lit 8.5)]) ].

Definition load_historical_analysis : list (string * list cell) :=
  [ ("Année", ints [-1500; -1000; -500; 0; 500; 1000; 1500; 2000]);
    ("Coran", ints [0; 0; 0; 0; 10; 45; 70; 95]);
    ("Torah", ints [5; 30; 60; 75; 80; 82; 85; 88]);
    ("Bible", ints [0; 5; 20; 40; 65; 80; 90; 98]);
    ("Événement", strs ["Textes anciens"; "Rédaction Torah"; "Canonisation";
                        "Jésus-Christ"; "Expansion islam"; "Schisme"; "Réforme";
                        "Globalisation"]) ].

(** [AdvancedSacredBooksAnalysis()]: what [__init__] stores in [self]. *)
Definition init : AdvancedSacredBooksAnalysis := {|
  books_data := load_advanced_data;
  thematic_data := load_thematic_analysis;
  linguistic_data := load_linguistic_analysis;
  historical_data := load_historical_analysis
|}.

(** The three book keys every loop of the class iterates over. *)
Definition books : list string := ["Coran"; "Torah"; "Bible"].

End Dashboard.
Arguments AdvancedSacredBooksAnalysis F : clear implicits.
Arguments cell F : clear implicits.

(** ** The run of a method: the object, the page rendered so far, exceptions *)

Section Methods.
Context {F : Type} `{FloatOps F}.

(** What a method hands to the rendering layer.  Numbers are kept as
    numbers: the f-string that formats them is the renderer's business. *)
Inductive event : Type :=
| Text (s : string)
| Metric (label : string) (value : cell F)
| Trace (name : string) (r : list (pyval F))
| Annotation (x y text : cell F)
| Chart (title : string).

Record session : Type := {
  self : AdvancedSacredBooksAnalysis F;
  screen : list event
}.

Definition M (A : Type) : Type := session -> outcome A * session.

#[export] Instance M_ret : MRet M := fun A a s => (Ok a, s).

#[export] Instance M_bind : MBind M := fun A B k c s =>
  match c s with
  | (Ok a, s') => k a s'
  | (Raise e, s') => (Raise e, s')
  end.

Definition lift {A} (o : outcome A) : M A := fun s => (o, s).

Definition get_self : M (AdvancedSacredBooksAnalysis F) := fun s => (Ok (self s), s).

Definition emit (e : event) : M unit :=
  fun s => (Ok tt, {| self := self s; screen := screen s ++ [e] |}).

(** [for x in l: body(x)] *)
Fixpoint for_each {A} (l : list A) (body : A -> M unit) : M unit :=
  match l with
  | [] => mret tt
  | a :: l' => _ ← body a; for_each l' body
  end.

(** [[f(x) for x in l]] where [f] reads the object *)
Fixpoint collect {A B} (f : A -> M B) (l : list A) : M (list B) :=
  match l with
  | [] => mret []
  | a :: l' => b ← f a; bs ← collect f l'; mret (b :: bs)
  end.

(** [self.books_data[book][section][field]] *)
Definition field (d : gmap string (gmap string (gmap string (pyval F))))
    (book section name : string) : outcome (pyval F) :=
  b ← getitem d book; s ← getitem b section; getitem s name.

(** [sum(l)]: the additions start from the [int] 0. *)
Definition py_sum (l : list (pyval F)) : outcome (pyval F) :=
  fold_left (fun acc x => a ← acc; py_add a x) l (Ok (PyInt 0)).

(** *** [create_advanced_header] *)

Definition create_advanced_header : M unit :=
  this ← get_self;
  _ ← emit (Text "Analyse Avancée des Livres Sacrés");
  complexities ← lift (omap (fun book =>
      f ← getitem (linguistic_data this) "Complexité Syntaxique"; getitem f book) books);
  total_complexity ← lift (py_sum complexities);
  mean_complexity ← lift (py_truediv total_complexity (PyInt 3));
  _ ← emit (Metric "Complexité Linguistique Moyenne" (Num mean_complexity));
  preservations ← lift (omap (fun book =>
      field (books_data this) book "linguistic_features" "oral_preservation") books);
  total_preservation ← lift (py_sum preservations);
  mean_preservation ← lift (py_truediv total_preservation (PyInt 3));
  _ ← emit (Metric "Préservation Moyenne" (Num mean_preservation));
  influences ← lift (omap (fun book =>
      field (books_data this) book "historical_impact" "legal_influence") books);
  total_influence ← lift (py_sum influences);
  mean_influence ← lift (py_truediv total_influence (PyInt 3));
  _ ← emit (Metric "Influence Juridique Moyenne" (Num mean_influence));
  studies ← lift (omap (fun book =>
      field (books_data this) book "historical_impact" "academic_studies") books);
  total_studies ← lift (py_sum studies);
  kilo_studies ← lift (py_truediv total_studies (PyInt 1000));
  emit (Metric "Études Académiques" (Num kilo_studies)).

(** *** [create_structural_analysis] *)

Definition metrics : list string :=
  ["avg_verse_length"; "vocabulary_richness"; "repetition_rate";
   "rhythmic_patterns"; "thematic_cohesion"].

(** [[self.books_data[book]['structural_analysis'][metric] for metric in metrics]] *)
Definition values (d : gmap string (gmap string (gmap string (pyval F))))
    (book : string) : outcome (list (pyval F)) :=
  omap (fun metric => field d book "structural_analysis" metric) metrics.

(** [[max([self.books_data[b]['structural_analysis'][m] for b in [...]]) for m in metrics]] *)
Definition max_vals (d : gmap string (gmap string (gmap string (pyval F))))
    : outcome (list (pyval F)) :=
  omap (fun m =>
    column ← omap (fun b => field d b "structural_analysis" m) books;
    py_max column) metrics.

(** [[v/max_v * 100 for v, max_v in zip(values, max_vals)]] *)
Definition normalize (vs maxs : list (pyval F)) : outcome (list (pyval F)) :=
  omap (fun '(v, max_v) => q ← py_truediv v max_v; py_mul q (PyInt 100))
       (zip vs maxs).

(** The radar-chart values of one book: the body of the first loop. *)
Definition normalized (d : gmap string (gmap string (gmap string (pyval F))))
    (book : string) : outcome (list (pyval F)) :=
  vs ← values d book;
  maxs ← max_vals d;
  normalize vs maxs.

(** The expression assigned to [complexity_score], over the dict [data]. *)
Definition complexity_score (data : gmap string (pyval F)) : outcome (pyval F) :=
  vr ← getitem data "vocabulary_richness";
  a ← py_mul vr (PyInt 30);
  tc ← getitem data "thematic_cohesion";
  b ← py_mul tc (PyInt 25);
  ab ← py_add a b;
  rr ← getitem data "repetition_rate";
  k ← py_sub (PyInt 100) rr;
  c ← py_mul k (PyInt 20);
  abc ← py_add ab c;
  rp ← getitem data "rhythmic_patterns";
  d ← py_mul rp (lit 0.25);
  total ← py_add abc d;
  py_truediv total (PyInt 100).

Definition patterns_data : list (string * list (pyval F)) :=
  [ ("Coran", map PyInt [85; 78; 92; 88; 75; 65]);
    ("Torah", map PyInt [80; 85; 78; 82; 88; 70]);
    ("Bible", map PyInt [75; 72; 85; 90; 80; 60]) ].

Definition create_structural_analysis : M unit :=
  this ← get_self;
  _ ← emit (Text "Analyse Structurelle Avancée");
  _ ← for_each books (fun book =>
        r ← lift (normalized (books_data this) book);
        emit (Trace book r));
  _ ← emit (Chart "Profil Structurel Comparatif");
  _ ← emit (Text "Indices de Complexité");
  complexity_data ← collect (fun book =>
        b ← lift (getitem (books_data this) book);
        data ← lift (getitem b "structural_analysis");
        score ← lift (complexity_score data);
        mret (book, score)) books;
  _ ← for_each complexity_data (fun row => emit (Trace row.1 [row.2]));
  _ ← emit (Chart "Complexité");
  _ ← emit (Text "Analyse des Patterns Littéraires");
  _ ← for_each patterns_data (fun col => emit (Trace col.1 col.2));
  emit (Chart "Utilisation des Patterns Littéraires").

(** *** [create_linguistic_analysis] *)

Definition features : list string :=
  ["Complexité Syntaxique"; "Densité Sémantique"; "Richesse Lexicale"].

Definition create_linguistic_analysis : M unit :=
  this ← get_self;
  _ ← emit (Text "Analyse Linguistique Avancée");
  _ ← emit (Chart "Matrice des Caractéristiques Linguistiques");
  _ ← emit (Text "Distribution des Caractéristiques");
  rows ← lift (omap (fun book =>
      omap (fun f => row ← getitem (linguistic_data this) f; getitem row book) features)
      books);
  _ ← for_each (zip books rows) (fun bar => emit (Trace bar.1 bar.2));
  _ ← emit (Chart "Comparaison des Features Linguistiques");
  _ ← emit (Text "Analyse Linguistique par Livre");
  for_each books (fun book =>
    _ ← emit (Text book);
    b ← lift (getitem (books_data this) book);
    data ← lift (getitem b "structural_analysis");
    avl ← lift (getitem data "avg_verse_length");
    _ ← emit (Metric "Longueur moyenne verset" (Num avl));
    vr ← lift (getitem data "vocabulary_richness");
    _ ← emit (Metric "Richesse vocabulaire" (Num vr));
    tc ← lift (getitem data "thematic_cohesion");
    _ ← emit (Metric "Cohésion thématique" (Num tc));
    b ← lift (getitem (books_data this) book);
    data ← lift (getitem b "linguistic_features");
    uw ← lift (getitem data "unique_words");
    _ ← emit (Metric "Mots uniques" (Num uw));
    rw ← lift (getitem data "root_words");
    _ ← emit (Metric "Racines linguistiques" (Num rw));
    op ← lift (getitem data "oral_preservation");
    _ ← emit (Metric "Préservation orale" (Num op));
    sd ← lift (getitem data "semantic_density");
    _ ← emit (Metric "Densité sémantique" (Num sd));
    gc ← lift (getitem data "grammatical_complexity");
    _ ← emit (Metric "Complexité grammaticale" (Num gc));
    sd ← lift (getitem data "semantic_density");
    gc ← lift (getitem data "grammatical_complexity");
    total ← lift (py_add sd gc);
    score ← lift (py_truediv total (PyInt 2));
    emit (Metric "Score complexité global" (Num score))).

(** *** [create_thematic_network_analysis] *)

Record network : Type := {
  noeuds : list string;
  liens : list (string * string * Z)
}.

Definition thematic_networks : gmap string network :=
  dict_of [
    ("Coran", {| noeuds := ["Monothéisme"; "Prophètes"; "Loi"; "Éthique"; "Jugement"; "Création"];
                 liens := [("Monothéisme", "Prophètes", 95); ("Monothéisme", "Loi", 88);
                           ("Prophètes", "Loi", 82); ("Loi", "Éthique", 90);
                           ("Éthique", "Jugement", 85); ("Monothéisme", "Création", 92)] |});
    ("Torah", {| noeuds := ["Alliance"; "Loi"; "Histoire"; "Sacrifice"; "Territoire"; "Pure té"];
                 liens := [("Alliance", "Loi", 98); ("Alliance", "Histoire", 88);
                           ("Loi", "Sacrifice", 85); ("Histoire", "Territoire", 92);
                           ("Loi", "Pure té", 90); ("Sacrifice", "Pure té", 82)] |});
    ("Bible", {| noeuds := ["Salut"; "Amour"; "Grâce"; "Rédemption"; "Église"; "Royaume"];
                 liens := [("Salut", "Amour", 92); ("Salut", "Grâce", 95);
                           ("Amour", "Grâce", 88); ("Grâce", "Rédemption", 90);
                           ("Rédemption", "Église", 85); ("Salut", "Royaume", 82)] |}) ].

Definition node_positions : gmap string (pyval F * pyval F) :=
  dict_of [
    ("Monothéisme", (PyInt 0, PyInt 1)); ("Prophètes", (PyInt 1, PyInt 1));
    ("Loi", (lit 0.5, lit 0.5)); ("Éthique", (PyInt 0, PyInt 0));
    ("Jugement", (PyInt 1, PyInt 0)); ("Création", (lit 0.5, lit 1.5));
    ("Alliance", (PyInt 0, PyInt 1)); ("Histoire", (PyInt 1, PyInt 1));
    ("Sacrifice", (lit 0.5, lit 0.5)); ("Territoire", (PyInt 0, PyInt 0));
    ("Pure té", (PyInt 1, PyInt 0)); ("Salut", (lit 0.5, lit 1.5));
    ("Amour", (PyInt 0, PyInt 1)); ("Grâce", (PyInt 1, PyInt 1));
    ("Rédemption", (lit 0.5, lit 0.5)); ("Église", (PyInt 0, PyInt 0));
    ("Royaume", (PyInt 1, PyInt 0)) ].

Definition py_len {A} (l : list A) : pyval F := PyInt (Z.of_nat (length l)).

Definition create_thematic_network_analysis : M unit :=
  _ ← emit (Text "Analyse des Réseaux Thématiques");
  for_each books (fun book =>
    _ ← emit (Text book);
    net ← lift (getitem thematic_networks book);
    _ ← for_each (liens net) (fun link =>
          let '(source, target, weight) := link in
          src ← lift (getitem node_positions source);
          tgt ← lift (getitem node_positions target);
          _ ← lift (getitem node_positions source);
          _ ← lift (getitem node_positions target);
          width ← lift (py_truediv (PyInt weight) (PyInt 20));
          emit (Trace "lien" [src.1; tgt.1; src.2; tgt.2; width]));
    node_x ← lift (omap (fun node => p ← getitem node_positions node; Ok p.1) (noeuds net));
    node_y ← lift (omap (fun node => p ← getitem node_positions node; Ok p.2) (noeuds net));
    _ ← emit (Trace "nœuds" (node_x ++ node_y));
    _ ← emit (Chart "Réseau Thématique");
    _ ← emit (Metric "Nombre de nœuds" (Num (py_len (noeuds net))));
    total ← lift (py_sum (map (fun link => PyInt link.2) (liens net)));
    avg_weight ← lift (py_truediv total (py_len (liens net)));
    _ ← emit (Metric "Liaison moyenne" (Num avg_weight));
    n1 ← lift (py_sub (py_len (noeuds net)) (PyInt 1));
    pairs ← lift (py_mul (py_len (noeuds net)) n1);
    half ← lift (py_truediv pairs (PyInt 2));
    ratio ← lift (py_truediv (py_len (liens net)) half);
    density ← lift (py_mul ratio (PyInt 100));
    emit (Metric "Densité du réseau" (Num density))).

(** *** [create_historical_evolution] *)

(** [df[name]] on a data frame *)
Fixpoint column (df : list (string * list (cell F))) (name : string)
    : outcome (list (cell F)) :=
  match df with
  | [] => Raise (KeyError name)
  | (k, c) :: df' => if decide (k = name) then Ok c else column df' name
  end.

Definition diffusion_data : list (string * list (pyval F)) :=
  [ ("Coran", map PyInt [95; 25; 60; 35; 15]);
    ("Torah", map PyInt [5; 15; 2; 3; 20]);
    ("Bible", map PyInt [15; 85; 75; 20; 90]) ].

Definition impact_data : gmap string (list (pyval F)) :=
  dict_of [
    ("Coran", [lit 9.2; lit 9.5; lit 8.8; lit 8.5]);
    ("Torah", [lit 8.8; lit 9.8; lit 9.0; lit 7.8]);
    ("Bible", [lit 9.5; lit 9.2; lit 9.3; lit 9.1]) ].

Definition create_historical_evolution : M unit :=
  this ← get_self;
  _ ← emit (Text "Évolution Historique et Influence");
  _ ← for_each books (fun book =>
        _ ← lift (column (historical_data this) book); mret tt);
  years ← lift (column (historical_data this) "Année");
  coran ← lift (column (historical_data this) "Coran");
  events ← lift (column (historical_data this) "Événement");
  _ ← for_each (zip years (zip coran events)) (fun row =>
        emit (Annotation row.1 row.2.1 row.2.2));
  _ ← emit (Chart "Évolution de l'Influence Historique");
  _ ← for_each diffusion_data (fun col => emit (Trace col.1 col.2));
  _ ← emit (Chart "Diffusion Géographique Actuelle (%)");
  _ ← emit (Text "Analyse d'Impact Détaillée");
  _ ← for_each books (fun book =>
        r ← lift (getitem impact_data book);
        emit (Trace book r));
  emit (Chart "Analyse Multidimensionnelle de l'Impact").

(** *** [create_comparative_insights] *)

Definition similarity_matrix : list (list (pyval F)) :=
  [ [lit 1.00; lit 0.65; lit 0.58];
    [lit 0.65; lit 1.00; lit 0.72];
    [lit 0.58; lit 0.72; lit 1.00] ].

Definition create_comparative_insights : M unit :=
  _ ← emit (Text "Insights Comparatifs Avancés");
  _ ← emit (Text "Points de Convergence");
  _ ← emit (Trace "Degré" (map PyInt [95; 88; 85; 82; 78]));
  _ ← emit (Chart "Points de Convergence Doctrinaux");
  _ ← emit (Text "Points de Divergence");
  _ ← emit (Trace "Écart" (map PyInt [85; 80; 75; 70; 65]));
  _ ← emit (Chart "Principales Divergences Doctrinales");
  _ ← emit (Text "Matrice de Similarité Doctrinale");
  _ ← for_each (zip books similarity_matrix) (fun row => emit (Trace row.1 row.2));
  emit (Chart "Matrice de Similarité Doctrinale").

(** *** [create_advanced_metrics_dashboard] *)

(** The expression assigned to [composite_score], over the three dicts
    [structural], [linguistic] and [historical] of the selected book. *)
Definition composite_score (structural linguistic historical : gmap string (pyval F))
    : outcome (pyval F) :=
  tc ← getitem structural "thematic_cohesion";
  a ← py_mul tc (lit 0.2);
  sd ← getitem linguistic "semantic_density";
  b ← py_mul sd (lit 0.25);
  ab ← py_add a b;
  li ← getitem historical "legal_influence";
  c ← py_mul li (lit 0.3);
  abc ← py_add ab c;
  op ← getitem linguistic "oral_preservation";
  tenth ← py_truediv op (PyInt 10);
  d ← py_mul tenth (lit 0.25);
  py_add abc d.

(** One column of metrics: every field is read, then shown. *)
Definition show_metrics (data : gmap string (pyval F)) (rows : list (string * string))
    : M unit :=
  shown ← lift (omap (fun row => v ← getitem data row.2; Ok (row.1, v)) rows);
  for_each shown (fun row => emit (Metric row.1 (Num row.2))).

(** [selected_book] is what [st.selectbox] returned. *)
Definition create_advanced_metrics_dashboard (selected_book : string) : M unit :=
  this ← get_self;
  _ ← emit (Text "Tableau de Bord des Métriques Avancées");
  if decide (selected_book = "") then mret tt
  else
    book_data ← lift (getitem (books_data this) selected_book);
    structural ← lift (getitem book_data "structural_analysis");
    _ ← show_metrics structural
          [ ("Longueur verset moyen", "avg_verse_length");
            ("Richesse vocabulaire", "vocabulary_richness");
            ("Taux de répétition", "repetition_rate");
            ("Patterns rythmiques", "rhythmic_patterns");
            ("Cohésion thématique", "thematic_cohesion") ];
    linguistic ← lift (getitem book_data "linguistic_features");
    _ ← show_metrics linguistic
          [ ("Mots uniques", "unique_words");
            ("Racines linguistiques", "root_words");
            ("Complexité grammaticale", "grammatical_complexity");
            ("Densité sémantique", "semantic_density");
            ("Préservation orale", "oral_preservation") ];
    historical ← lift (getitem book_data "historical_impact");
    _ ← show_metrics historical
          [ ("Plus ancien manuscrit", "manuscripts_earliest");
            ("Première traduction", "translations_timeline");
            ("Études académiques", "academic_studies");
            ("Références culturelles", "cultural_references");
            ("Influence légale", "legal_influence") ];
    _ ← emit (Text "Score Composite d'Impact");
    score ← lift (composite_score structural linguistic historical);
    emit (Metric "Score Global d'Impact" (Num score)).

(** *** [run_advanced_dashboard] *)

(** [analysis_type] and [selected_book] are the user's two selections. *)
Definition run_advanced_dashboard (analysis_type selected_book : string) : M unit :=
  _ ← emit (Text "Contrôles Avancés");
  _ ← create_advanced_header;
  _ ← (if decide (analysis_type = "Vue d'ensemble")
       then create_advanced_metrics_dashboard selected_book
       else if decide (analysis_type = "Structure") then create_structural_analysis
       else if decide (analysis_type = "Linguistique") then create_linguistic_analysis
       else if decide (analysis_type = "Thématiques") then create_thematic_network_analysis
       else if decide (analysis_type = "Historique") then create_historical_evolution
       else if decide (analysis_type = "Insights") then create_comparative_insights
       else mret tt);
  emit (Text "Méthodologie").

(** The script's last two lines: build the object, run the dashboard. *)
Definition main (analysis_type selected_book : string) : outcome unit * session :=
  run_advanced_dashboard analysis_type selected_book {| self := init; screen := [] |}.

(** The public methods of the class, as the operations of the system. *)
Inductive operation : Type :=
| op_header
| op_structural
| op_linguistic
| op_thematic
| op_historical
| op_insights
| op_metrics (selected_book : string)
| op_run (analysis_type selected_book : string).

Definition perform (o : operation) : M unit :=
  match o with
  | op_header => create_advanced_header
  | op_structural => create_structural_analysis
  | op_linguistic => create_linguistic_analysis
  | op_thematic => create_thematic_network_analysis
  | op_historical => create_historical_evolution
  | op_insights => create_comparative_insights
  | op_metrics b => create_advanced_metrics_dashboard b
  | op_run t b => run_advanced_dashboard t b
  end.

End Methods.
Arguments event F : clear implicits.
Arguments session F : clear implicits.

(** *** [get_book_color], [get_color_map], and the options of the sidebar *)

(** [get_color_map] *)
Definition get_color_map : gmap string string :=
  dict_of [ ("Coran", "#2E86AB"); ("Torah", "#A23B72"); ("Bible", "#F18F01") ].

(** [get_book_color]: [colors.get(book, '#666666')] *)
Definition get_book_color (book : string) : string :=
  let colors := dict_of [ ("Coran", "#2E86AB"); ("Torah", "#A23B72"); ("Bible", "#F18F01") ] in
  default "#666666" (colors !! book).


(** ** The figures of one book, as the methods compute them *)

Section Figures.
Context {F : Type} `{FloatOps F}.

(** The composite score [create_advanced_metrics_dashboard] computes when
    [book] is selected: the three sections of the book's record, then the
    expression. *)
Definition composite_of (d : gmap string (gmap string (gmap string (pyval F))))
    (book : string) : outcome (pyval F) :=
  book_data ← getitem d book;
  structural ← getitem book_data "structural_analysis";
  linguistic ← getitem book_data "linguistic_features";
  historical ← getitem book_data "historical_impact";
  composite_score structural linguistic historical.

(** The complexity index [create_structural_analysis] computes for [book]. *)
Definition complexity_of (d : gmap string (gmap string (gmap string (pyval F))))
    (book : string) : outcome (pyval F) :=
  b ← getitem d book;
  data ← getitem b "structural_analysis";
  complexity_score data.

(** The radar-chart value of [book] for one metric: the element of
    [normalized] at that metric, with the maximum taken over the three books. *)
Definition normalized_metric (d : gmap string (gmap string (gmap string (pyval F))))
    (metric book : string) : outcome (pyval F) :=
  v ← field d book "structural_analysis" metric;
  column ← omap (fun b => field d b "structural_analysis" metric) books;
  max_v ← py_max column;
  q ← py_truediv v max_v;
  py_mul q (PyInt 100).

(** The three outputs for one metric: one per book, in the order of the loop. *)
Definition cross_book_normalizer (d : gmap string (gmap string (gmap string (pyval F))))
    (metric : string) : outcome (list (pyval F)) :=
  omap (normalized_metric d metric) books.

(** [d[book][section][name] = v]: the assignment that changes one field
    of one record ([KeyError] when the book or the section is missing). *)
Definition set_field (d : gmap string (gmap string (gmap string (pyval F))))
    (book section name : string) (v : pyval F)
    : outcome (gmap string (gmap string (gmap string (pyval F)))) :=
  b ← getitem d book;
  s ← getitem b section;
  Ok (<[book := <[section := <[name := v]> s]> b]> d).

End Figures.

(** * Vocabulary of the properties *)

Section Vocabulary.
Context {F : Type} `{FloatOps F}.

(** Run on the object [a], whatever is already on the page, [m] gives one
    result, appends one list of events, and hands the object back as it was. *)
Definition reads_only {A} (m : M A) : Prop :=
  forall a : AdvancedSacredBooksAnalysis F, exists (r : outcome A) (out : list (event F)),
    forall scr, m {| self := a; screen := scr |}
                = (r, {| self := a; screen := scr ++ out |}).

(** The fields a book record has to supply, section by section. *)
Definition schema : list (string * list string) :=
  [ ("structural_analysis",
      ["avg_verse_length"; "vocabulary_richness"; "repetition_rate";
       "rhythmic_patterns"; "thematic_cohesion"]);
    ("linguistic_features",
      ["unique_words"; "root_words"; "grammatical_complexity";
       "semantic_density"; "oral_preservation"]);
    ("historical_impact",
      ["manuscripts_earliest"; "translations_timeline"; "academic_studies";
       "cultural_references"; "legal_influence"]) ].

(** [name in d[book][section]] *)
Definition supplies (d : dataset F) (book section name : string) : bool :=
  match field d book section name with
  | Ok _ => true
  | Raise _ => false
  end.

(** The record of [book] supplies every field of the schema. *)
Definition complete (d : dataset F) (book : string) : bool :=
  forallb (fun sec => forallb (supplies d book sec.1) sec.2) schema.

End Vocabulary.

(** [v > 0] for some book. *)
Definition some_positive {F} `{FloatOps F} (d : dataset F) (metric : string) : Prop :=
  exists book v, In book books
                 /\ field d book "structural_analysis" metric = Ok v
                 /\ py_gt v (PyInt 0) = true.

(** ** Floats as rationals, and the documented formulas *)

(** The rational a float stands for (none for infinities and NaN). *)
Definition SF2Q (x : spec_float) : option Q :=
  match x with
  | S754_zero _ => Some 0%Q
  | S754_finite s m e => Some (inject_Z (cond_Zopp s (Zpos m)) * 2 ^ e)%Q
  | S754_infinity _ | S754_nan => None
  end.

(** The same on a primitive float. *)
Definition F2Q (x : float) : option Q := SF2Q (Prim2SF x).

(** [x] is finite and within [tol] of the rational [q]. *)
Definition within (tol : Q) (x : float) (q : Q) : Prop :=
  exists v, F2Q x = Some v /\ (Qabs (v - q) <= tol)%Q.

(** The same as a test that computes. *)
Definition withinb (tol : Q) (x : float) (q : Q) : bool :=
  match F2Q x with
  | Some v => Qle_bool (Qabs (v - q)) tol
  | None => false
  end.

(** Modelled from the spec: the composite formula of section 4.1, over the
    rationals. *)
Definition composite_spec (thematic_cohesion semantic_density legal_influence
    oral_preservation : Q) : Q :=
  (thematic_cohesion * 0.20
   + semantic_density * 0.25
   + legal_influence * 0.30
   + (oral_preservation / 10) * 0.25)%Q.

(** Modelled from the spec: the complexity formula of section 4.2, over the
    rationals. *)
Definition complexity_spec (vocabulary_richness thematic_cohesion repetition_rate
    rhythmic_patterns : Q) : Q :=
  ((vocabulary_richness * 30
    + thematic_cohesion * 25
    + (100 - repetition_rate) * 20
    + rhythmic_patterns * 0.25) / 100)%Q.

(** The tolerance of the comparisons below: [1e-14], a few units in the last
    place of figures between 1 and 32. *)
Definition tolerance : Q := (1 # 100000000000000)%Q.

(** The decimal literals of a book's record, read off the exact instance. *)
Definition decimal (book section name : string) : Q :=
  match field (load_advanced_data : dataset Q) book section name with
  | Ok (PyFloat q) => q
  | Ok (PyInt n) => inject_Z n
  | Raise _ => 0%Q
  end.

(** The documented formulas with a book's static data substituted. *)
Definition composite_documented (book : string) : Q :=
  composite_spec (decimal book "structural_analysis" "thematic_cohesion")
                 (decimal book "linguistic_features" "semantic_density")
                 (decimal book "historical_impact" "legal_influence")
                 (decimal book "linguistic_features" "oral_preservation").

(** The same for the complexity formula. *)
Definition complexity_documented (book : string) : Q :=
  complexity_spec (decimal book "structural_analysis" "vocabulary_richness")
                  (decimal book "structural_analysis" "thematic_cohesion")
                  (decimal book "structural_analysis" "repetition_rate")
                  (decimal book "structural_analysis" "rhythmic_patterns").

(** ** Chart values in binary64 *)

(** [0 <= x <= 100] on a chart value. *)
Definition in_0_100 (x : pyval float) : bool :=
  match x with
  | PyInt n => (0 <=? n) && (n <=? 100)
  | PyFloat y => (PrimFloat.leb 0 y && PrimFloat.leb y 100)%bool
  end.

(** [x == 100] *)
Definition is_100 (x : pyval float) : bool :=
  match x with
  | PyInt n => n =? 100
  | PyFloat y => PrimFloat.eqb y 100
  end.

(** How many of the outputs equal 100. *)
Definition hundreds (out : list (pyval float)) : nat := length (List.filter is_100 out).

(** A [float] that is neither an infinity nor a NaN. *)
Definition finite_float (v : pyval float) : bool :=
  match v with
  | PyInt _ => false
  | PyFloat x => match F2Q x with Some _ => true | None => false end
  end.

(** [0.0 <= v] on a float value. *)
Definition nonneg_float (v : pyval float) : bool :=
  match v with
  | PyInt _ => false
  | PyFloat x => PrimFloat.leb 0 x
  end.

(** [v == m]: the book holds the maximum [m]. *)
Definition holds (m : float) (v : pyval float) : bool :=
  match v with
  | PyInt _ => false
  | PyFloat x => PrimFloat.eqb x m
  end.

(** The value of a finite float (0 for anything else). *)
Definition value64 (v : pyval float) : Q :=
  match v with
  | PyInt _ => 0%Q
  | PyFloat x => match F2Q x with Some q => q | None => 0%Q end
  end.

(** [v / m * 100] for a float [v], as the loop computes it. *)
Definition scaled64 (m : float) (v : pyval float) : pyval float :=
  match v with
  | PyInt _ => v
  | PyFloat x => PyFloat (x / m * 100)%float
  end.

(** The book records with one assignment made:
    [books_data['Torah']['structural_analysis']['thematic_cohesion'] = 9.2],
    the value 'Coran' has. *)
Definition tied : dataset float :=
  match set_field load_advanced_data "Torah" "structural_analysis" "thematic_cohesion"
                  (lit 9.2) with
  | Ok d => d
  | Raise _ => ∅
  end.

(** The book records with
    [books_data['Coran']['structural_analysis']['thematic_cohesion'] = 0.0]. *)
Definition coran_zeroed : dataset float :=
  match set_field load_advanced_data "Coran" "structural_analysis" "thematic_cohesion"
                  (PyFloat 0%float) with
  | Ok d => d
  | Raise _ => ∅
  end.

(** Modelled from the spec: when some book has a positive value for the
    metric, the normalizer returns and exactly one of its outputs equals
    100. *)
Definition exactly_one_hundred_spec (d : dataset float) (metric : string) : Prop :=
  some_positive d metric ->
  exists out, cross_book_normalizer d metric = Ok out /\ hundreds out = 1%nat.

(** ** Fields read, and datasets with one field changed *)

(** The fields the composite expression subscripts, and those of the
    complexity expression. *)
Definition composite_inputs : list (string * string) :=
  [ ("structural_analysis", "thematic_cohesion");
    ("linguistic_features", "semantic_density");
    ("historical_impact", "legal_influence");
    ("linguistic_features", "oral_preservation") ].

Definition complexity_inputs : list (string * string) :=
  [ ("structural_analysis", "vocabulary_richness");
    ("structural_analysis", "thematic_cohesion");
    ("structural_analysis", "repetition_rate");
    ("structural_analysis", "rhythmic_patterns") ].

(** [isinstance(v, float)] *)
Definition is_float {F} (v : pyval F) : bool :=
  match v with
  | PyInt _ => false
  | PyFloat _ => true
  end.

(** The book records with
    [books_data['Torah']['structural_analysis']['avg_verse_length'] = 51.2],
    twice the value of 'Coran'. *)
Definition torah_raised : dataset float :=
  match set_field load_advanced_data "Torah" "structural_analysis" "avg_verse_length"
                  (lit 51.2) with
  | Ok d => d
  | Raise _ => ∅
  end.

(** The book records with [rhythmic_patterns] set to 0 for the three books. *)
Definition patterns_zeroed : dataset float :=
  match
    d1 ← set_field load_advanced_data "Coran" "structural_analysis" "rhythmic_patterns"
                   (PyInt 0);
    d2 ← set_field d1 "Torah" "structural_analysis" "rhythmic_patterns" (PyInt 0);
    set_field d2 "Bible" "structural_analysis" "rhythmic_patterns" (PyInt 0)
  with
  | Ok d => d
  | Raise _ => ∅
  end.

(** A freshly built dashboard, and one built over [patterns_zeroed]. *)
Definition fresh : session float := {| self := init; screen := [] |}.

Definition fresh_zeroed : session float :=
  {| self := {| books_data := patterns_zeroed;
                thematic_data := load_thematic_analysis;
                linguistic_data := load_linguistic_analysis;
                historical_data := load_historical_analysis |};
     screen := [] |}.

(** ** The attributes of the object, and who reads them *)

(** The four attributes [__init__] stores in the object. *)
Inductive attribute : Type :=
| attr_books_data
| attr_thematic_data
| attr_linguistic_data
| attr_historical_data.

(** The attributes a method subscripts, directly or through the methods it
    calls. *)
Definition reads (o : operation) : list attribute :=
  match o with
  | op_header => [attr_linguistic_data; attr_books_data]
  | op_structural => [attr_books_data]
  | op_linguistic => [attr_linguistic_data; attr_books_data]
  | op_thematic => []
  | op_historical => [attr_historical_data]
  | op_insights => []
  | op_metrics _ => [attr_books_data]
  | op_run _ _ => [attr_linguistic_data; attr_books_data; attr_historical_data]
  end.

Section Attributes.
Context {F : Type} `{FloatOps F}.

(** Two objects hold the same value in each of the attributes [l]. *)
Definition agree_on (l : list attribute) (a a' : AdvancedSacredBooksAnalysis F) : Prop :=
  (In attr_books_data l -> books_data a = books_data a')
  /\ (In attr_thematic_data l -> thematic_data a = thematic_data a')
  /\ (In attr_linguistic_data l -> linguistic_data a = linguistic_data a')
  /\ (In attr_historical_data l -> historical_data a = historical_data a').

(** [self.thematic_data = t] *)
Definition set_thematic_data (t : gmap string (gmap string (list (cell F))))
    (s : session F) : session F :=
  {| self := {| books_data := books_data (self s);
                thematic_data := t;
                linguistic_data := linguistic_data (self s);
                historical_data := historical_data (self s) |};
     screen := screen s |}.

(** Run on [a] and on [a'], [m] and [m'] give the same result and append the
    same events. *)
Definition same_at (a a' : AdvancedSacredBooksAnalysis F) {A} (m m' : M A) : Prop :=
  exists (r : outcome A) (out : list (event F)),
    forall scr,
      m {| self := a; screen := scr |} = (r, {| self := a; screen := scr ++ out |})
      /\ m' {| self := a'; screen := scr |} = (r, {| self := a'; screen := scr ++ out |}).

End Attributes.

(** An object that holds the book records and nothing else. *)
Definition books_only : AdvancedSacredBooksAnalysis float :=
  {| books_data := load_advanced_data;
     thematic_data := ∅;
     linguistic_data := ∅;
     historical_data := [] |}.

(** ** Rationals against binary64 mantissas *)

Section RoundingVocabulary.
Local Open Scope Q_scope.

(** The rational a Python number stands for. *)
Definition toQ (v : pyval Q) : Q :=
  match v with
  | PyInt n => inject_Z n
  | PyFloat q => q
  end.

(** [2^e], for an exponent of either sign. *)
Definition pow2 (e : Z) : Q := 2 ^ e.

(** [x] lies in [[m, m+1)] for the mantissa [m] of the record, and the round
    and sticky bits place it against [m + 1/2]. *)
Definition located (x : Q) (mrs : shr_record) : Prop :=
  (0 <= shr_m mrs)%Z
  /\ match shr_r mrs, shr_s mrs with
     | false, false => x == inject_Z (shr_m mrs)
     | false, true => inject_Z (shr_m mrs) < x /\ x < inject_Z (shr_m mrs) + (1 # 2)
     | true, false => x == inject_Z (shr_m mrs) + (1 # 2)
     | true, true => inject_Z (shr_m mrs) + (1 # 2) < x /\ x < inject_Z (shr_m mrs) + 1
     end.

(** The value of a positive finite float. *)
Definition fval (m : positive) (e : Z) : Q := inject_Z (Zpos m) * pow2 e.

(** [v] is below the midpoint between the float [(mb, eb)] and the next one,
    or on it when [mb] is even: what rounds to at most [(mb, eb)]. *)
Definition below_mid (v : Q) (mb : positive) (eb : Z) : Prop :=
  v < (inject_Z (Zpos mb) + (1 # 2)) * pow2 eb
  \/ (v <= (inject_Z (Zpos mb) + (1 # 2)) * pow2 eb /\ Z.even (Zpos mb) = true).

(** The end of [binary_round_aux]: renormalising the rounded mantissa [k]
    and checking the exponent. *)
Definition round_tail (k e1 : Z) : spec_float :=
  let '(mrs, e2) := shr_fexp prec emax k e1 loc_Exact in
  match shr_m mrs with
  | Z0 => S754_zero false
  | Zpos m => if (e2 <=? emax - prec)%Z then S754_finite false m e2 else S754_infinity false
  | Zneg _ => S754_nan
  end.

(** What a comparison says about two rationals. *)
Definition cmp_spec (c : comparison) (x y : Q) : Prop :=
  match c with
  | Lt => x < y
  | Eq => x == y
  | Gt => y < x
  end.

(** [x] is finite, and its value lies between 0 and [b]. *)
Definition inrange (x : float) (b : Q) : Prop :=
  exists v, F2Q x = Some v /\ 0 <= v <= b.

(** A negative zero, a negative finite float or minus infinity. *)
Definition nonpos_class (X : spec_float) : Prop :=
  match X with
  | S754_zero true | S754_finite true _ _ | S754_infinity true => True
  | _ => False
  end.

End RoundingVocabulary.


(** * Properties *)

(** ** Methods read the object and append to the page *)

Section ReadsOnly.
Context {F : Type} `{FloatOps F}.

(** In this section the methods run over the one arithmetic [F]. *)
Local Abbreviation reads_only := (reads_only (F := F)).

Lemma reads_only_ret {A} (x : A) : reads_only (mret x).
Proof.
  intros a. exists (Ok x), []. intros scr.
  unfold mret, M_ret. now rewrite app_nil_r.
Qed.

Lemma reads_only_lift {A} (o : outcome A) : reads_only (lift o).
Proof.
  intros a. exists o, []. intros scr. unfold lift. now rewrite app_nil_r.
Qed.

Lemma reads_only_get_self : reads_only get_self.
Proof.
  intros a. exists (Ok a), []. intros scr. unfold get_self; cbn.
  now rewrite app_nil_r.
Qed.

Lemma reads_only_emit (e : event F) : reads_only (emit e).
Proof. intros a. exists (Ok tt), [e]. intros scr. reflexivity. Qed.

Lemma reads_only_bind {A B} (c : M A) (k : A -> M B) :
  reads_only c -> (forall x, reads_only (k x)) -> reads_only (c ≫= k).
Proof.
  intros Hc Hk a.
  destruct (Hc a) as (r & out & Hrun).
  destruct r as [x | e].
  - destruct (Hk x a) as (r' & out' & Hrun').
    exists r', (out ++ out'). intros scr.
    unfold mbind, M_bind. rewrite Hrun, Hrun'. now rewrite app_assoc.
  - exists (Raise e), out. intros scr.
    unfold mbind, M_bind. now rewrite Hrun.
Qed.

Lemma reads_only_for_each {A} (l : list A) (body : A -> M unit) :
  (forall x, reads_only (body x)) -> reads_only (for_each l body).
Proof.
  intros Hbody. induction l as [| x l IH]; cbn [for_each].
  - apply reads_only_ret.
  - apply reads_only_bind; [apply Hbody | intros _; exact IH].
Qed.

Lemma reads_only_collect {A B} (f : A -> M B) (l : list A) :
  (forall x, reads_only (f x)) -> reads_only (collect f l).
Proof.
  intros Hf. induction l as [| x l IH]; cbn [collect].
  - apply reads_only_ret.
  - apply reads_only_bind; [apply Hf | intros b].
    apply reads_only_bind; [exact IH | intros bs; apply reads_only_ret].
Qed.

Ltac reads_only_step :=
  first
    [ apply reads_only_bind; [| intros ?]
    | apply reads_only_for_each; intros ?
    | apply reads_only_collect; intros ?
    | apply reads_only_emit
    | apply reads_only_lift
    | apply reads_only_get_self
    | apply reads_only_ret
    | case_decide
    | match goal with
      | |- reads_only (let '(_, _) := ?p in _) => destruct p
      end ].

Ltac reads_only := repeat reads_only_step.

Lemma reads_only_show_metrics data rows : reads_only (show_metrics data rows).
Proof. unfold show_metrics. reads_only. Qed.

Lemma reads_only_header : reads_only create_advanced_header.
Proof. unfold create_advanced_header. reads_only. Qed.

Lemma reads_only_structural : reads_only create_structural_analysis.
Proof. unfold create_structural_analysis. reads_only. Qed.

Lemma reads_only_linguistic : reads_only create_linguistic_analysis.
Proof. unfold create_linguistic_analysis. reads_only. Qed.

Lemma reads_only_thematic : reads_only create_thematic_network_analysis.
Proof. unfold create_thematic_network_analysis. reads_only. Qed.

Lemma reads_only_historical : reads_only create_historical_evolution.
Proof. unfold create_historical_evolution. reads_only. Qed.

Lemma reads_only_insights : reads_only create_comparative_insights.
Proof. unfold create_comparative_insights. reads_only. Qed.

Lemma reads_only_metrics selected_book :
  reads_only (create_advanced_metrics_dashboard selected_book).
Proof.
  unfold create_advanced_metrics_dashboard.
  reads_only; apply reads_only_show_metrics.
Qed.

Lemma reads_only_run analysis_type selected_book :
  reads_only (run_advanced_dashboard analysis_type selected_book).
Proof.
  unfold run_advanced_dashboard.
  apply reads_only_bind; [apply reads_only_emit | intros _].
  apply reads_only_bind; [apply reads_only_header | intros _].
  apply reads_only_bind; [| intros _; apply reads_only_emit].
  repeat case_decide;
    auto using reads_only_metrics, reads_only_structural, reads_only_linguistic,
      reads_only_thematic, reads_only_historical, reads_only_insights, reads_only_ret.
Qed.

Lemma reads_only_perform o : reads_only (perform o).
Proof.
  destruct o; cbn [perform];
    auto using reads_only_metrics, reads_only_structural, reads_only_linguistic,
      reads_only_thematic, reads_only_historical, reads_only_insights,
      reads_only_header, reads_only_run.
Qed.

(** What [reads_only] gives for a run from an arbitrary session. *)
Lemma reads_only_self {A} (m : M A) (s : session F) :
  reads_only m -> self (m s).2 = self s.
Proof.
  intros Hm. destruct s as [a scr].
  destruct (Hm a) as (r & out & Hrun). now rewrite Hrun.
Qed.

Lemma reads_only_again {A} (m : M A) (s : session F) :
  reads_only m ->
  exists out, screen (m s).2 = screen s ++ out
              /\ (m (m s).2).1 = (m s).1
              /\ screen (m (m s).2).2 = screen (m s).2 ++ out.
Proof.
  intros Hm. destruct s as [a scr].
  destruct (Hm a) as (r & out & Hrun).
  exists out. rewrite Hrun; cbn. rewrite Hrun; cbn. auto.
Qed.

End ReadsOnly.

(** ** Reading a field of a record *)

Section PerBook.
Context {F : Type} `{FloatOps F}.

Lemma field_inv (d : dataset F) book section name v :
  field d book section name = Ok v ->
  exists b s, d !! book = Some b /\ b !! section = Some s /\ s !! name = Some v.
Proof.
  unfold field, getitem; cbn.
  destruct (d !! book) as [b |] eqn:Hb; cbn; [| discriminate].
  destruct (b !! section) as [s |] eqn:Hs; cbn; [| discriminate].
  destruct (s !! name) as [w |] eqn:Hw; cbn; [| discriminate].
  intros [= ->]. exists b, s. auto.
Qed.

Lemma getitem_Some {V} (m : gmap string V) k v : m !! k = Some v -> getitem m k = Ok v.
Proof. unfold getitem. now intros ->. Qed.

End PerBook.

(** ** What the two pages show is what the per-book figures say *)

Section Shown.
Context {F : Type} `{FloatOps F}.

(** A run of [create_advanced_metrics_dashboard] that raises nothing ends
    with the composite score of the selected book. *)
Lemma dashboard_shows_composite (selected_book : string) (s : session F) :
  selected_book <> "" ->
  (create_advanced_metrics_dashboard selected_book s).1 = Ok tt ->
  exists v, composite_of (books_data (self s)) selected_book = Ok v
            /\ last (screen (create_advanced_metrics_dashboard selected_book s).2)
               = Some (Metric "Score Global d'Impact" (Num v)).
Proof.
  intros Hne. destruct s as [a scr].
  destruct (create_advanced_metrics_dashboard selected_book _) as [r s'] eqn:Hrun.
  cbn [fst snd self]. intros ->.
  unfold create_advanced_metrics_dashboard, composite_of in *.
  unfold mbind at 1 2, M_bind at 1 2, get_self, emit at 1 in Hrun. cbn [self screen] in Hrun.
  destruct (decide (selected_book = "")) as [Heq | _]; [contradiction |].
  unfold mbind at 1, M_bind at 1, lift at 1 in Hrun.
  destruct (getitem (books_data a) selected_book) as [book_data | e];
    cbn [mbind outcome_bind fst snd] in *; [| discriminate].
  unfold mbind at 1, M_bind at 1, lift at 1 in Hrun.
  destruct (getitem book_data "structural_analysis") as [structural | e];
    cbn [mbind outcome_bind fst snd] in *; [| discriminate].
  unfold mbind at 1, M_bind at 1 in Hrun.
  match type of Hrun with context [show_metrics structural ?rows] =>
    destruct (reads_only_show_metrics structural rows a) as (r1 & out1 & Hrun1) end.
  rewrite Hrun1 in Hrun. destruct r1 as [[] | e]; [| discriminate].
  unfold mbind at 1, M_bind at 1, lift at 1 in Hrun.
  destruct (getitem book_data "linguistic_features") as [linguistic | e];
    cbn [mbind outcome_bind fst snd] in *; [| discriminate].
  unfold mbind at 1, M_bind at 1 in Hrun.
  match type of Hrun with context [show_metrics linguistic ?rows] =>
    destruct (reads_only_show_metrics linguistic rows a) as (r2 & out2 & Hrun2) end.
  rewrite Hrun2 in Hrun. destruct r2 as [[] | e]; [| discriminate].
  unfold mbind at 1, M_bind at 1, lift at 1 in Hrun.
  destruct (getitem book_data "historical_impact") as [historical | e];
    cbn [mbind outcome_bind fst snd] in *; [| discriminate].
  unfold mbind at 1, M_bind at 1 in Hrun.
  match type of Hrun with context [show_metrics historical ?rows] =>
    destruct (reads_only_show_metrics historical rows a) as (r3 & out3 & Hrun3) end.
  rewrite Hrun3 in Hrun. destruct r3 as [[] | e]; [| discriminate].
  unfold mbind, M_bind, emit, lift in Hrun. cbn [self screen] in Hrun.
  destruct (composite_score structural linguistic historical) as [v | e];
    [| discriminate].
  injection Hrun as <-. exists v. split; [reflexivity |].
  cbn [screen]. apply last_snoc.
Qed.

(** A run of [create_structural_analysis] that raises nothing shows, for
    each book in turn, its radar values and, further down, its complexity
    index. *)
Lemma structure_shows_scores (s : session F) :
  (create_structural_analysis s).1 = Ok tt ->
  exists rs scores,
    Forall2 (fun book r => normalized (books_data (self s)) book = Ok r) books rs
    /\ Forall2 (fun book score => complexity_of (books_data (self s)) book = Ok score)
         books scores
    /\ screen (create_structural_analysis s).2
       = screen s
         ++ [Text "Analyse Structurelle Avancée"]
         ++ zip_with Trace books rs
         ++ [Chart "Profil Structurel Comparatif"; Text "Indices de Complexité"]
         ++ zip_with (fun book score => Trace book [score]) books scores
         ++ [Chart "Complexité"; Text "Analyse des Patterns Littéraires"]
         ++ map (fun col => Trace col.1 col.2) patterns_data
         ++ [Chart "Utilisation des Patterns Littéraires"].
Proof.
  destruct s as [a scr].
  destruct (create_structural_analysis _) as [r s'] eqn:Hrun.
  cbn [fst snd self screen]. intros ->.
  unfold create_structural_analysis, complexity_of, books in *.
  cbn -[normalized complexity_score getitem] in Hrun.
  unfold mbind, mret, M_bind, M_ret, get_self, emit, lift in Hrun.
  cbn [self screen] in Hrun.
  repeat match type of Hrun with
  | context [match ?x with Ok _ => _ | Raise _ => _ end] =>
      lazymatch x with
      | context [match _ with Ok _ => _ | Raise _ => _ end] => fail
      | _ => destruct x eqn:?; try discriminate Hrun
      end
  end.
  cbn in Hrun. injection Hrun as <-.
  eexists [_; _; _], [_; _; _].
  split; [repeat constructor; eassumption |].
  split.
  - repeat constructor;
      repeat (match goal with
              | Hx : ?x = Ok _ |- context [?x] => rewrite Hx
              end; cbn [mbind outcome_bind]);
      reflexivity.
  - cbn. rewrite <- !app_assoc. reflexivity.
Qed.

(** The complexity index of one of the three books is among the bars. *)
Lemma structure_shows_complexity (s : session F) (book : string) (score : pyval F) :
  In book books ->
  complexity_of (books_data (self s)) book = Ok score ->
  (create_structural_analysis s).1 = Ok tt ->
  In (Trace book [score]) (screen (create_structural_analysis s).2).
Proof.
  intros Hin Hscore Hok.
  destruct (structure_shows_scores s Hok) as (rs & scores & _ & Hscores & ->).
  unfold books in *.
  inversion Hscores as [| ? s1 ? l1 H1 Hscores1]; subst.
  inversion Hscores1 as [| ? s2 ? l2 H2 Hscores2]; subst.
  inversion Hscores2 as [| ? s3 ? l3 H3 Hscores3]; subst.
  inversion Hscores3; subst.
  rewrite !in_app_iff. do 4 right. left. cbn [zip_with In].
  destruct Hin as [<- | [<- | [<- | []]]];
    [left | right; left | right; right; left]; congruence.
Qed.

(** The radar values of one of the three books are among the traces. *)
Lemma structure_shows_normalized (s : session F) (book : string) (r : list (pyval F)) :
  In book books ->
  normalized (books_data (self s)) book = Ok r ->
  (create_structural_analysis s).1 = Ok tt ->
  In (Trace book r) (screen (create_structural_analysis s).2).
Proof.
  intros Hin Hr Hok.
  destruct (structure_shows_scores s Hok) as (rs & scores & Hrs & _ & ->).
  unfold books in *.
  inversion Hrs as [| ? s1 ? l1 H1 Hrs1]; subst.
  inversion Hrs1 as [| ? s2 ? l2 H2 Hrs2]; subst.
  inversion Hrs2 as [| ? s3 ? l3 H3 Hrs3]; subst.
  inversion Hrs3; subst.
  rewrite !in_app_iff. do 2 right. left. cbn [zip_with In].
  destruct Hin as [<- | [<- | [<- | []]]];
    [left | right; left | right; right; left]; congruence.
Qed.

End Shown.

(** ** Binary64: the figures as CPython computes them *)

Module Binary64.

Local Open Scope float_scope.

(** The literals of the two expressions, as Python reads them. *)
Lemma lit_0_2 : lit 0.2 = PyFloat 0.2.
Proof. vm_compute. reflexivity. Qed.

Lemma lit_0_25 : lit 0.25 = PyFloat 0.25.
Proof. vm_compute. reflexivity. Qed.

Lemma lit_0_3 : lit 0.3 = PyFloat 0.3.
Proof. vm_compute. reflexivity. Qed.

(** [float(n)] for the integer constants of the two expressions. *)
Lemma to_float_small (n : Z) (x : float) :
  In (n, x) [(10%Z, 10); (20%Z, 20); (25%Z, 25); (30%Z, 30); (100%Z, 100)] ->
  to_float n = Ok x.
Proof.
  cbn [In]. intros Hin.
  repeat (destruct Hin as [[= <- <-] | Hin]; [vm_compute; reflexivity |]).
  destruct Hin.
Qed.

(** One step of a Python expression whose operands are known. *)
Ltac py_step :=
  progress
    (cbn [py_mul py_add py_sub py_arith py_truediv py_is_zero mbind outcome_bind Z.eqb];
     repeat match goal with
       | |- context [to_float ?n] =>
           is_ground n; erewrite (to_float_small n) by (cbn [In]; auto 6)
       end).

Ltac lookups :=
  repeat match goal with
    | Hf : field _ _ _ _ = Ok _ |- _ =>
        apply field_inv in Hf; destruct Hf as (? & ? & ? & ? & ?)
    end;
  simplify_eq.

(** The composite score of a book whose four fields are floats. *)
Lemma composite_of_binary64 (d : dataset float) (book : string) (tc sd li op : float) :
  field d book "structural_analysis" "thematic_cohesion" = Ok (PyFloat tc) ->
  field d book "linguistic_features" "semantic_density" = Ok (PyFloat sd) ->
  field d book "historical_impact" "legal_influence" = Ok (PyFloat li) ->
  field d book "linguistic_features" "oral_preservation" = Ok (PyFloat op) ->
  composite_of d book = Ok (PyFloat (tc * 0.2 + sd * 0.25 + li * 0.3 + (op / 10) * 0.25)).
Proof.
  intros Htc Hsd Hli Hop.
  lookups.
  unfold composite_of, composite_score.
  repeat (erewrite getitem_Some by eassumption; cbn [mbind outcome_bind]).
  rewrite lit_0_2, lit_0_25, lit_0_3.
  repeat py_step.
  reflexivity.
Qed.

(** C1. For every book record (with its fields of the documented float
    type), the composite score the dashboard computes is
    [thematic_cohesion * 0.2 + semantic_density * 0.25 + legal_influence * 0.3
     + (oral_preservation / 10) * 0.25]; this is the figure a run of
    [create_advanced_metrics_dashboard] on that book ends with; and the run
    leaves the dashboard object as it was. *)
Theorem composite_score_formula (d : dataset float) (book : string) (tc sd li op : float) :
  field d book "structural_analysis" "thematic_cohesion" = Ok (PyFloat tc) ->
  field d book "linguistic_features" "semantic_density" = Ok (PyFloat sd) ->
  field d book "historical_impact" "legal_influence" = Ok (PyFloat li) ->
  field d book "linguistic_features" "oral_preservation" = Ok (PyFloat op) ->
  composite_of d book = Ok (PyFloat (tc * 0.2 + sd * 0.25 + li * 0.3 + (op / 10) * 0.25))
  /\ (forall s : session float,
        books_data (self s) = d -> book <> "" ->
        (create_advanced_metrics_dashboard book s).1 = Ok tt ->
        last (screen (create_advanced_metrics_dashboard book s).2)
          = Some (Metric "Score Global d'Impact"
                    (Num (PyFloat (tc * 0.2 + sd * 0.25 + li * 0.3 + (op / 10) * 0.25)))))
  /\ forall selected_book (s : session float),
       self (create_advanced_metrics_dashboard selected_book s).2 = self s.
Proof.
  intros Htc Hsd Hli Hop.
  pose proof (composite_of_binary64 d book tc sd li op Htc Hsd Hli Hop) as Hscore.
  split; [exact Hscore |]. split.
  - intros s <- Hne Hok.
    destruct (dashboard_shows_composite book s Hne Hok) as (v & Hv & ->).
    rewrite Hscore in Hv. now injection Hv as <-.
  - intros selected_book s. apply reads_only_self, reads_only_metrics.
Qed.

Lemma composite_score_formula_witness :
  composite_of load_advanced_data "Coran"
    = Ok (PyFloat (9.2 * 0.2 + 9.1 * 0.25 + 9.5 * 0.3 + (99.9 / 10) * 0.25))
  /\ (forall s : session float,
        books_data (self s) = load_advanced_data -> "Coran" <> "" ->
        (create_advanced_metrics_dashboard "Coran" s).1 = Ok tt ->
        last (screen (create_advanced_metrics_dashboard "Coran" s).2)
          = Some (Metric "Score Global d'Impact"
                    (Num (PyFloat (9.2 * 0.2 + 9.1 * 0.25 + 9.5 * 0.3 + (99.9 / 10) * 0.25)))))
  /\ forall selected_book (s : session float),
       self (create_advanced_metrics_dashboard selected_book s).2 = self s.
Proof.
  apply (composite_score_formula load_advanced_data "Coran" 9.2 9.1 9.5 99.9);
    vm_compute; reflexivity.
Defined.

(** The complexity index of a book whose structural metrics are three
    floats and an integer count. *)
Lemma complexity_of_binary64 (d : dataset float) (book : string)
    (vr tc rr : float) (rp : Z) (rp' : float) :
  field d book "structural_analysis" "vocabulary_richness" = Ok (PyFloat vr) ->
  field d book "structural_analysis" "thematic_cohesion" = Ok (PyFloat tc) ->
  field d book "structural_analysis" "repetition_rate" = Ok (PyFloat rr) ->
  field d book "structural_analysis" "rhythmic_patterns" = Ok (PyInt rp) ->
  to_float rp = Ok rp' ->
  complexity_of d book
    = Ok (PyFloat ((vr * 30 + tc * 25 + (100 - rr) * 20 + rp' * 0.25) / 100)).
Proof.
  intros Hvr Htc Hrr Hrp Hconv.
  lookups.
  unfold complexity_of, complexity_score.
  repeat (erewrite getitem_Some by eassumption; cbn [mbind outcome_bind]).
  rewrite lit_0_25.
  repeat (py_step; try rewrite Hconv).
  reflexivity.
Qed.

(** C2. For every book record's structural metrics (three floats and the
    integer count [rhythmic_patterns], which Python converts with [float]),
    the structural complexity index is
    [(vocabulary_richness * 30 + thematic_cohesion * 25
      + (100 - repetition_rate) * 20 + rhythmic_patterns * 0.25) / 100],
    and this is the bar a run of [create_structural_analysis] draws for
    the book. *)
Theorem complexity_score_formula (d : dataset float) (book : string)
    (vr tc rr : float) (rp : Z) (rp' : float) :
  field d book "structural_analysis" "vocabulary_richness" = Ok (PyFloat vr) ->
  field d book "structural_analysis" "thematic_cohesion" = Ok (PyFloat tc) ->
  field d book "structural_analysis" "repetition_rate" = Ok (PyFloat rr) ->
  field d book "structural_analysis" "rhythmic_patterns" = Ok (PyInt rp) ->
  to_float rp = Ok rp' ->
  complexity_of d book
    = Ok (PyFloat ((vr * 30 + tc * 25 + (100 - rr) * 20 + rp' * 0.25) / 100))
  /\ forall s : session float,
       books_data (self s) = d -> In book books ->
       (create_structural_analysis s).1 = Ok tt ->
       In (Trace book [PyFloat ((vr * 30 + tc * 25 + (100 - rr) * 20 + rp' * 0.25) / 100)])
          (screen (create_structural_analysis s).2).
Proof.
  intros Hvr Htc Hrr Hrp Hconv.
  pose proof (complexity_of_binary64 d book vr tc rr rp rp' Hvr Htc Hrr Hrp Hconv)
    as Hscore.
  split; [exact Hscore |].
  intros s <- Hin Hok. now apply structure_shows_complexity.
Qed.

Lemma complexity_score_formula_witness :
  complexity_of load_advanced_data "Torah"
    = Ok (PyFloat ((0.78 * 30 + 8.8 * 25 + (100 - 8.7) * 20 + 45 * 0.25) / 100))
  /\ forall s : session float,
       books_data (self s) = load_advanced_data -> In "Torah" books ->
       (create_structural_analysis s).1 = Ok tt ->
       In (Trace "Torah" [PyFloat ((0.78 * 30 + 8.8 * 25 + (100 - 8.7) * 20 + 45 * 0.25) / 100)])
          (screen (create_structural_analysis s).2).
Proof.
  apply (complexity_score_formula load_advanced_data "Torah" 0.78 8.8 8.7 45 45);
    vm_compute; reflexivity.
Defined.

End Binary64.

(** ** Exact arithmetic: the same expressions without rounding *)

Module Exact.

Local Open Scope Q_scope.

Ltac lookups :=
  repeat match goal with
    | Hf : field _ _ _ _ = Ok _ |- _ =>
        apply field_inv in Hf; destruct Hf as (? & ? & ? & ? & ?)
    end;
  simplify_eq.

Lemma composite_exact (d : dataset Q) (book : string) (tc sd li op : Q) :
  field d book "structural_analysis" "thematic_cohesion" = Ok (PyFloat tc) ->
  field d book "linguistic_features" "semantic_density" = Ok (PyFloat sd) ->
  field d book "historical_impact" "legal_influence" = Ok (PyFloat li) ->
  field d book "linguistic_features" "oral_preservation" = Ok (PyFloat op) ->
  composite_of d book = Ok (PyFloat (tc * 0.2 + sd * 0.25 + li * 0.3 + (op / 10) * 0.25)).
Proof.
  intros Htc Hsd Hli Hop. lookups.
  unfold composite_of, composite_score.
  repeat (erewrite getitem_Some by eassumption; cbn [mbind outcome_bind]).
  reflexivity.
Qed.

Lemma complexity_exact (d : dataset Q) (book : string) (vr tc rr : Q) (rp : Z) :
  field d book "structural_analysis" "vocabulary_richness" = Ok (PyFloat vr) ->
  field d book "structural_analysis" "thematic_cohesion" = Ok (PyFloat tc) ->
  field d book "structural_analysis" "repetition_rate" = Ok (PyFloat rr) ->
  field d book "structural_analysis" "rhythmic_patterns" = Ok (PyInt rp) ->
  complexity_of d book
    = Ok (PyFloat ((vr * 30 + tc * 25 + (100 - rr) * 20 + inject_Z rp * 0.25) / 100)).
Proof.
  intros Hvr Htc Hrr Hrp. lookups.
  unfold complexity_of, complexity_score.
  repeat (erewrite getitem_Some by eassumption; cbn [mbind outcome_bind]).
  reflexivity.
Qed.

Lemma composite_exact_range (d : dataset Q) (book : string) (tc sd li op : Q) :
  field d book "structural_analysis" "thematic_cohesion" = Ok (PyFloat tc) ->
  field d book "linguistic_features" "semantic_density" = Ok (PyFloat sd) ->
  field d book "historical_impact" "legal_influence" = Ok (PyFloat li) ->
  field d book "linguistic_features" "oral_preservation" = Ok (PyFloat op) ->
  0 <= tc <= 10 -> 0 <= sd <= 10 -> 0 <= li <= 10 -> 0 <= op <= 100 ->
  exists r, composite_of d book = Ok (PyFloat r) /\ 0 <= r <= 10.
Proof.
  intros Htc Hsd Hli Hop Rtc Rsd Rli Rop.
  eexists. split; [apply (composite_exact d book tc sd li op); assumption |].
  assert (Hdiv : op / 10 == op * (1 # 10)) by (unfold Qdiv; reflexivity).
  rewrite Hdiv. lra.
Qed.

End Exact.

(** ** The static dataset: binary64 against the documented formulas *)

Lemma withinb_within tol x q : withinb tol x q = true -> within tol x q.
Proof.
  unfold withinb, within. destruct (F2Q x) as [v |]; [| discriminate].
  intros Hle. exists v. split; [reflexivity | now apply Qle_bool_imp_le].
Qed.

(** C3. For each of the three books, the composite score computed in
    binary64 is within floating-point tolerance of the documented formula
    with that book's static data substituted, and it is the figure the
    metrics page of a freshly built dashboard ends with; for 'Coran' the
    formula is [9.2*0.2 + 9.1*0.25 + 9.5*0.3 + 9.99*0.25 = 9.4625], and the
    computed float is the float that the literal [9.4625] denotes. *)
Theorem composite_static_values :
  Forall (fun book =>
            exists x, composite_of (load_advanced_data : dataset float) book = Ok (PyFloat x)
                      /\ within tolerance x (composite_documented book)
                      /\ last (screen (create_advanced_metrics_dashboard book
                                         {| self := init; screen := [] |}).2)
                         = Some (Metric "Score Global d'Impact" (Num (PyFloat x))))
         books
  /\ (composite_documented "Coran" == composite_spec 9.2 9.1 9.5 99.9)%Q
  /\ (composite_spec 9.2 9.1 9.5 99.9 == 1.84 + 2.275 + 2.85 + 2.4975)%Q
  /\ (composite_documented "Coran" == 9.4625)%Q
  /\ composite_of (load_advanced_data : dataset float) "Coran" = Ok (PyFloat 9.4625%float).
Proof.
  split.
  - unfold books.
    repeat (constructor; [eexists; split; [vm_compute; reflexivity |];
      split; [apply withinb_within; vm_compute; reflexivity | vm_compute; reflexivity] |]).
    constructor.
  - repeat split; vm_compute; reflexivity.
Qed.

(** C10. For each of the three books of the static dataset the structural
    complexity index exceeds 10: the documented formula gives 20.33 for
    'Coran', 20.8065 for 'Torah' and 19.4085 for 'Bible', the binary64
    computation returns the floats these three literals denote, and these
    are the bars the structure page of a freshly built dashboard draws. *)
Theorem complexity_static_values :
  Forall (fun '(book, literal, value) =>
            complexity_of (load_advanced_data : dataset float) book = Ok (PyFloat literal)
            /\ (10 <? literal)%float = true
            /\ within tolerance literal value
            /\ (complexity_documented book == value)%Q
            /\ (10 < value)%Q
            /\ (exists q : Q, complexity_of (load_advanced_data : dataset Q) book = Ok (PyFloat q)
                              /\ (q == value)%Q)
            /\ In (Trace book [PyFloat literal])
                  (screen (create_structural_analysis {| self := init; screen := [] |}).2))
         [ ("Coran", 20.33%float, 20.33%Q);
           ("Torah", 20.8065%float, 20.8065%Q);
           ("Bible", 19.4085%float, 19.4085%Q) ].
Proof.
  repeat (constructor;
    [ split; [vm_compute; reflexivity |];
      split; [vm_compute; reflexivity |];
      split; [apply withinb_within; vm_compute; reflexivity |];
      split; [vm_compute; reflexivity |];
      split; [vm_compute; reflexivity |];
      split; [eexists; split; vm_compute; reflexivity |];
      apply structure_shows_complexity;
        [unfold books; cbn [In]; auto | vm_compute; reflexivity | vm_compute; reflexivity] |]).
  constructor.
Qed.

(** ** One book's figures depend on that book's record only *)

Section Isolation.
Context {F : Type} `{FloatOps F}.

Lemma composite_of_insert_ne (d : dataset F) (A B : string) r :
  A <> B -> composite_of (<[A := r]> d) B = composite_of d B.
Proof.
  intros Hne. unfold composite_of, getitem.
  now rewrite lookup_insert_ne.
Qed.

Lemma complexity_of_insert_ne (d : dataset F) (A B : string) r :
  A <> B -> complexity_of (<[A := r]> d) B = complexity_of d B.
Proof.
  intros Hne. unfold complexity_of, getitem.
  now rewrite lookup_insert_ne.
Qed.

Lemma set_field_inv (d d' : dataset F) (A section name : string) (v : pyval F) :
  set_field d A section name v = Ok d' -> exists r, d' = <[A := r]> d.
Proof.
  unfold set_field, getitem; cbn.
  destruct (d !! A) as [b |]; cbn; [| discriminate].
  destruct (b !! section) as [s |]; cbn; [| discriminate].
  intros [= <-]. eauto.
Qed.

(** C8. For two books A and B with A <> B, after any assignment to one
    field of A's record, B's composite score and B's structural
    complexity index are what they were. *)
Theorem no_cross_contamination (d d' : dataset F) (A B section name : string)
    (v : pyval F) :
  A <> B ->
  set_field d A section name v = Ok d' ->
  composite_of d' B = composite_of d B /\ complexity_of d' B = complexity_of d B.
Proof.
  intros Hne Hset.
  destruct (set_field_inv _ _ _ _ _ _ Hset) as [r ->].
  split; [now apply composite_of_insert_ne | now apply complexity_of_insert_ne].
Qed.

(** C7. The structural complexity index is a function of the book's record
    and nothing else: whatever operation of the dashboard runs in between,
    the record is the same afterwards and so is the index; and running
    [create_structural_analysis] twice in a row returns the same result and
    draws the same traces twice. *)
Theorem complexity_deterministic (s : session F) :
  (forall (o : operation) (book : string),
      complexity_of (books_data (self (perform o s).2)) book
      = complexity_of (books_data (self s)) book)
  /\ (create_structural_analysis (create_structural_analysis s).2).1
     = (create_structural_analysis s).1
  /\ exists out,
       screen (create_structural_analysis s).2 = screen s ++ out
       /\ screen (create_structural_analysis (create_structural_analysis s).2).2
          = (screen s ++ out) ++ out.
Proof.
  split; [| split].
  - intros o book. now rewrite (reads_only_self _ s (reads_only_perform o)).
  - now destruct (reads_only_again _ s reads_only_structural) as (out & _ & Hr & _).
  - destruct (reads_only_again _ s reads_only_structural) as (out & H1 & _ & H2).
    exists out. split; [exact H1 | now rewrite H2, H1].
Qed.

(** C9. Each of the three records of the static dataset supplies the
    fifteen documented fields (five per section); the object is built with
    these records, and no operation of the dashboard, whatever the user
    selects, changes [books_data]: after a whole run it is still the
    dictionary [load_advanced_data] returned. *)
Theorem records_complete_and_immutable :
  Forall (fun book => complete load_advanced_data book = true) books
  /\ map (fun sec => length sec.2) schema = [5; 5; 5]%nat
  /\ books_data init = load_advanced_data
  /\ (forall (o : operation) (s : session F),
        books_data (self (perform o s).2) = books_data (self s))
  /\ (forall analysis_type selected_book,
        books_data (self (main analysis_type selected_book).2) = load_advanced_data).
Proof.
  split; [| split; [| split; [| split]]].
  - unfold books. repeat constructor.
  - reflexivity.
  - reflexivity.
  - intros o s. now rewrite (reads_only_self _ s (reads_only_perform o)).
  - intros t b. unfold main.
    now rewrite (reads_only_self _ _ (reads_only_run t b)).
Qed.

End Isolation.

(** ** The radar chart: one value per metric, each the book's value over the maximum *)

Section Normalizer.
Context {F : Type} `{FloatOps F}.

Lemma omap_Ok {A B} (f : A -> outcome B) (l : list A) (l' : list B) :
  omap f l = Ok l' -> Forall2 (fun a b => f a = Ok b) l l'.
Proof.
  revert l'. induction l as [| a l IH]; intros l'; cbn.
  - intros [= <-]. constructor.
  - destruct (f a) as [b | e] eqn:Hb; cbn; [| discriminate].
    destruct (omap f l) as [bs | e]; cbn; [| discriminate].
    intros [= <-]. constructor; [exact Hb | now apply IH].
Qed.

Lemma Ok_omap {A B} (f : A -> outcome B) (l : list A) (l' : list B) :
  Forall2 (fun a b => f a = Ok b) l l' -> omap f l = Ok l'.
Proof.
  induction 1 as [| a b l l' Hab _ IH]; cbn; [reflexivity |].
  now rewrite Hab, IH.
Qed.

(** The three lists of the loop body, taken apart metric by metric. *)
Lemma zip_Forall2 {A B C D} (P : A -> B -> Prop) (Q : A -> C -> Prop)
    (R : B * C -> D -> Prop) (ms : list A) (vs : list B) (maxs : list C) (l : list D) :
  Forall2 P ms vs -> Forall2 Q ms maxs -> Forall2 R (zip vs maxs) l ->
  Forall2 (fun m x => exists v mx, P m v /\ Q m mx /\ R (v, mx) x) ms l.
Proof.
  intros HP. revert maxs l.
  induction HP as [| m v ms vs Hmv _ IH]; intros maxs l HQ HR.
  - inversion HQ; subst. inversion HR; subst. constructor.
  - inversion HQ as [| ? mx ? maxs' Hmx HQ']; subst.
    cbn in HR. inversion HR as [| ? x ? l' Hx HR']; subst.
    constructor; [exists v, mx; auto | now apply IH with maxs'].
Qed.

(** What the loop hands to the chart for [book] is, metric by metric, the
    value [normalized_metric] describes. *)
Lemma normalized_metricwise (d : dataset F) (book : string) (l : list (pyval F)) :
  normalized d book = Ok l ->
  Forall2 (fun metric x => normalized_metric d metric book = Ok x) metrics l.
Proof.
  unfold normalized.
  destruct (values d book) as [vs | e] eqn:Hvs; cbn [mbind outcome_bind]; [| discriminate].
  destruct (max_vals d) as [maxs | e] eqn:Hmaxs; cbn [mbind outcome_bind]; [| discriminate].
  intros Hl.
  apply omap_Ok in Hvs, Hmaxs, Hl.
  eapply Forall2_impl; [exact (zip_Forall2 _ _ _ _ _ _ _ Hvs Hmaxs Hl) |].
  intros metric x (v & mx & Hv & Hmx & Hx). cbn beta in Hv, Hmx, Hx.
  unfold normalized_metric. rewrite Hv; cbn [mbind outcome_bind].
  destruct (omap _ books) as [column | e]; cbn [mbind outcome_bind] in *; [| discriminate].
  rewrite Hmx; cbn [mbind outcome_bind]. exact Hx.
Qed.

(** [max] returns a member of the list. *)
Lemma py_max_In (l : list (pyval F)) (m : pyval F) : py_max l = Ok m -> In m l.
Proof.
  destruct l as [| a l]; cbn; [discriminate |].
  intros [= <-]. revert a.
  induction l as [| x l IH]; intros a; cbn; [now left |].
  destruct (IH (if py_gt x a then x else a)) as [Heq | Hin]; [| now auto].
  rewrite <- Heq. destruct (py_gt x a); auto.
Qed.

End Normalizer.

(** ** The normalizer in exact arithmetic *)

Section ExactNormalizer.
Local Open Scope Q_scope.

Lemma Q_gtb_lt (x y : Q) : Q_gtb x y = true <-> y < x.
Proof.
  unfold Q_gtb. rewrite negb_true_iff, <- not_true_iff_false, Qle_bool_iff.
  split; [apply Qnot_le_lt | apply Qlt_not_le].
Qed.

Lemma py_gt_exact (a b : pyval Q) : py_gt a b = true <-> toQ b < toQ a.
Proof.
  destruct a as [m | x], b as [n | y]; cbn [py_gt toQ fl_gtb fl_gtb_int fl_int_gtb exact];
    try apply Q_gtb_lt.
  rewrite Z.ltb_lt, <- Zlt_Qlt. reflexivity.
Qed.

Lemma py_is_zero_exact (a : pyval Q) : py_is_zero a = true <-> toQ a == 0.
Proof.
  destruct a as [n | x]; cbn [py_is_zero toQ fl_is_zero exact].
  - rewrite Z.eqb_eq. unfold Qeq; cbn. lia.
  - unfold Q_is_zero. apply Qeq_bool_iff.
Qed.

(** [max] is an upper bound of the list. *)
Lemma py_max_exact_ub (l : list (pyval Q)) (m : pyval Q) :
  py_max l = Ok m -> Forall (fun w => toQ w <= toQ m) l.
Proof.
  destruct l as [| a l]; cbn [py_max]; [discriminate |].
  intros [= <-].
  assert (Hgen : forall (l : list (pyval Q)) (a : pyval Q),
             toQ a <= toQ (fold_left (fun m x => if py_gt x m then x else m) l a)
             /\ Forall (fun w => toQ w
                          <= toQ (fold_left (fun m x => if py_gt x m then x else m) l a)) l).
  { clear. induction l as [| x l IH]; intros a; cbn [fold_left].
    - split; [apply Qle_refl | constructor].
    - destruct (IH (if py_gt x a then x else a)) as [Hacc Hall].
      destruct (py_gt x a) eqn:Hgt.
      + apply py_gt_exact in Hgt. split; [| constructor; assumption].
        eapply Qle_trans; [apply Qlt_le_weak, Hgt | exact Hacc].
      + assert (Hle : toQ x <= toQ a).
        { apply Qnot_lt_le. intros Hlt. apply py_gt_exact in Hlt. congruence. }
        split; [exact Hacc | constructor; [| exact Hall]].
        eapply Qle_trans; [exact Hle | exact Hacc]. }
  destruct (Hgen l a) as [Ha Hl]. constructor; assumption.
Qed.

(** [v / max_v * 100] without rounding. *)
Lemma scaled_exact (v mx : pyval Q) :
  ~ toQ mx == 0 ->
  (q ← py_truediv v mx; py_mul q (PyInt 100)) = Ok (PyFloat (toQ v / toQ mx * 100)).
Proof.
  intros Hmx.
  assert (Hz : py_is_zero mx = false).
  { apply not_true_iff_false. now rewrite py_is_zero_exact. }
  unfold py_truediv. rewrite Hz.
  destruct v as [m | x], mx as [n | y]; reflexivity.
Qed.

Lemma scaled_exact_hundred (v mx : Q) :
  0 < mx -> (v / mx * 100 == 100 <-> v == mx).
Proof.
  intros Hpos. split; intros Heq.
  - assert (Hv : v == v / mx * mx) by (field; lra).
    assert (Hone : v / mx == 1) by lra.
    rewrite Hv, Hone. ring.
  - rewrite Heq. field. lra.
Qed.

Lemma scaled_exact_range (v mx : Q) :
  0 < mx -> 0 <= v <= mx -> 0 <= v / mx * 100 <= 100.
Proof.
  intros Hpos [Hlo Hhi].
  assert (Hinv : 0 < / mx) by now apply Qinv_lt_0_compat.
  assert (H0 : 0 <= v / mx) by (unfold Qdiv; apply Qmult_le_0_compat; lra).
  assert (H1 : v / mx <= 1).
  { apply Qle_shift_div_r; lra. }
  lra.
Qed.

End ExactNormalizer.

(** ** Rounding to nearest in binary64 *)

Section Rounding64.
Local Open Scope Q_scope.

Lemma pow2_pos e : 0 < pow2 e.
Proof. unfold pow2. apply Qpower_0_lt. reflexivity. Qed.

Lemma pow2_add a b : pow2 (a + b) == pow2 a * pow2 b.
Proof. unfold pow2. apply Qpower_plus. discriminate. Qed.

Lemma pow2_Z n : (0 <= n)%Z -> pow2 n == inject_Z (2 ^ n).
Proof. intros Hn. unfold pow2. now rewrite Zpower_Qpower. Qed.

Lemma pow2_0 : pow2 0 == 1.
Proof. reflexivity. Qed.

Lemma pow2_le a b : (a <= b)%Z -> pow2 a <= pow2 b.
Proof.
  intros Hab.
  assert (Hb : pow2 b == pow2 a * pow2 (b - a)).
  { rewrite <- pow2_add. now replace (a + (b - a))%Z with b by lia. }
  assert (H1 : 1 <= pow2 (b - a)).
  { rewrite pow2_Z by lia. change (inject_Z 1 <= inject_Z (2 ^ (b - a))). rewrite <- Zle_Qle.
    assert (0 < 2 ^ (b - a))%Z by (apply Z.pow_pos_nonneg; lia). lia. }
  pose proof (pow2_pos a). rewrite Hb. nra.
Qed.

Lemma pow2_lt a b : (a < b)%Z -> pow2 a < pow2 b.
Proof.
  intros Hab.
  assert (Hb : pow2 b == pow2 a * pow2 (b - a)).
  { rewrite <- pow2_add. now replace (a + (b - a))%Z with b by lia. }
  assert (H1 : 2 <= pow2 (b - a)).
  { rewrite pow2_Z by lia.
    change (inject_Z 2 <= inject_Z (2 ^ (b - a))). rewrite <- Zle_Qle.
    replace (b - a)%Z with (Z.succ (b - a - 1)) by lia.
    rewrite Z.pow_succ_r by lia.
    assert (0 < 2 ^ (b - a - 1))%Z by (apply Z.pow_pos_nonneg; lia). lia. }
  pose proof (pow2_pos a). rewrite Hb. nra.
Qed.

(** ** Number of binary digits *)

Lemma digits2_size p : digits2_pos p = Pos.size p.
Proof. induction p; cbn; now rewrite ?IHp. Qed.

Lemma digits2_bounds p :
  (2 ^ (Zpos (digits2_pos p) - 1) <= Zpos p < 2 ^ Zpos (digits2_pos p))%Z.
Proof.
  rewrite digits2_size. split.
  - pose proof (Pos.size_le p) as Hle.
    assert (H2 : (2 ^ Zpos (Pos.size p) <= 2 * Zpos p)%Z).
    { rewrite <- Pos2Z.inj_pow. exact Hle. }
    replace (Zpos (Pos.size p)) with (Z.succ (Zpos (Pos.size p) - 1)) in H2 by lia.
    rewrite Z.pow_succ_r in H2 by lia. lia.
  - pose proof (Pos.size_gt p) as Hgt.
    rewrite <- Pos2Z.inj_pow. exact Hgt.
Qed.


(** ** Where a rational stands against a truncated mantissa *)

Lemma located_ext (x y : Q) (mrs : shr_record) : x == y -> located x mrs -> located y mrs.
Proof.
  intros Hxy [Hm Hloc]. split; [exact Hm |].
  destruct (shr_r mrs), (shr_s mrs); rewrite <- Hxy; exact Hloc.
Qed.

Lemma located_bounds (x : Q) (mrs : shr_record) :
  located x mrs -> inject_Z (shr_m mrs) <= x < inject_Z (shr_m mrs) + 1.
Proof.
  intros [_ Hloc]. destruct (shr_r mrs), (shr_s mrs); lra.
Qed.

Lemma inject_Z_xO p : inject_Z (Zpos p~0) == 2 * inject_Z (Zpos p).
Proof. unfold Qeq; cbn. lia. Qed.

Lemma inject_Z_xI p : inject_Z (Zpos p~1) == 2 * inject_Z (Zpos p) + 1.
Proof. unfold Qeq; cbn. lia. Qed.

Lemma located_shr_1 (x : Q) (mrs : shr_record) :
  located x mrs -> located (x / 2) (shr_1 mrs).
Proof.
  destruct mrs as [m r s]. intros [Hm Hloc]. cbn in Hm, Hloc.
  assert (Hhalf : x / 2 == x * (1 # 2)) by (unfold Qdiv; reflexivity).
  destruct m as [| [p | p |] | p]; [| | | | lia].
  - change (inject_Z 0) with 0 in Hloc.
    destruct r, s; (split; [cbn; lia |]); cbn [shr_1 shr_m shr_r shr_s orb];
      change (inject_Z 0) with 0; lra.
  - pose proof (inject_Z_xI p).
    destruct r, s; (split; [cbn; lia |]); cbn [shr_1 shr_m shr_r shr_s orb]; lra.
  - pose proof (inject_Z_xO p).
    destruct r, s; (split; [cbn; lia |]); cbn [shr_1 shr_m shr_r shr_s orb]; lra.
  - change (inject_Z 1) with 1 in Hloc.
    destruct r, s; (split; [cbn; lia |]); cbn [shr_1 shr_m shr_r shr_s orb];
      change (inject_Z 0) with 0; lra.
Qed.

Lemma located_iter (p : positive) (x : Q) (mrs : shr_record) :
  located x mrs -> located (x / pow2 (Zpos p)) (SpecFloat.iter_pos shr_1 p mrs).
Proof.
  revert x mrs. induction p as [p IH | p IH |]; intros x mrs Hloc; cbn [SpecFloat.iter_pos].
  - apply located_shr_1 in Hloc. apply IH, IH in Hloc.
    eapply located_ext; [| exact Hloc].
    replace (Zpos p~1) with (1 + (Zpos p + Zpos p))%Z by lia.
    rewrite !pow2_add. pose proof (pow2_pos (Zpos p)).
    change (pow2 1) with 2. field. lra.
  - apply IH, IH in Hloc.
    eapply located_ext; [| exact Hloc].
    replace (Zpos p~0) with (Zpos p + Zpos p)%Z by lia.
    rewrite !pow2_add. pose proof (pow2_pos (Zpos p)).
    field. lra.
  - apply located_shr_1 in Hloc. exact Hloc.
Qed.

Lemma located_record_exact (m : Z) :
  (0 <= m)%Z -> located (inject_Z m) (shr_record_of_loc m loc_Exact).
Proof. intros Hm. split; [exact Hm | reflexivity]. Qed.

(** [shr], as a division by a power of two. *)
Lemma located_shr (x : Q) (mrs : shr_record) (e n : Z) :
  located x mrs -> (0 <= n)%Z ->
  located (x / pow2 n) (shr mrs e n).1 /\ (shr mrs e n).2 = (e + n)%Z.
Proof.
  intros Hloc Hn. destruct n as [| p | p]; [| | lia]; cbn [shr fst snd].
  - split; [| lia]. eapply located_ext; [| exact Hloc].
    change (pow2 0) with 1. field.
  - split; [| reflexivity]. now apply located_iter.
Qed.

(** ** Rounding a located rational to the nearest integer, ties to even *)

Lemma rne_le (x : Q) (mrs : shr_record) (mb : Z) :
  located x mrs ->
  x < inject_Z mb + (1 # 2) \/ (x <= inject_Z mb + (1 # 2) /\ Z.even mb = true) ->
  (round_nearest_even (shr_m mrs) (loc_of_shr_record mrs) <= mb)%Z.
Proof.
  destruct mrs as [m r s]. intros [Hm Hloc] Hx. cbn in Hm, Hloc |- *.
  assert (Hcases : (m < mb)%Z \/ (m = mb /\ (r = false \/ (s = false /\ Z.even mb = true)))
                   \/ False).
  { destruct (Z.lt_trichotomy m mb) as [Hlt | [Heq | Hgt]]; [now left | | ].
    - right; left. subst mb. split; [reflexivity |].
      destruct r; [| now left]. right.
      destruct s; [exfalso; lra |]. split; [reflexivity |].
      destruct Hx as [Hx | [_ Hev]]; [exfalso; lra | exact Hev].
    - exfalso.
      assert (inject_Z mb + 1 <= inject_Z m).
      { change 1 with (inject_Z 1). rewrite <- inject_Z_plus, <- Zle_Qle. lia. }
      destruct r, s; lra. }
  destruct Hcases as [Hlt | [[-> Hrs] | []]].
  - destruct r, s; cbn; try lia. destruct (Z.even m); lia.
  - destruct Hrs as [-> | [-> Hev]].
    + destruct s; cbn; lia.
    + destruct r; cbn; [now rewrite Hev | lia].
Qed.

Lemma rne_bounds (mrs : shr_record) :
  (shr_m mrs <= round_nearest_even (shr_m mrs) (loc_of_shr_record mrs) <= shr_m mrs + 1)%Z.
Proof.
  destruct mrs as [m r s]. destruct r, s; cbn; try lia. destruct (Z.even m); lia.
Qed.


(** ** The binary64 format *)

Lemma fexp64 (e : Z) : fexp prec emax e = Z.max (e - 53) (-1074).
Proof. reflexivity. Qed.

Lemma Zdigits2_nonneg (m : Z) : (0 <= Zdigits2 m)%Z.
Proof. destruct m; cbn; lia. Qed.

Lemma Zdigits2_bounds (m : Z) :
  (0 < m)%Z -> (2 ^ (Zdigits2 m - 1) <= m < 2 ^ Zdigits2 m)%Z /\ (0 < Zdigits2 m)%Z.
Proof.
  destruct m as [| p | p]; try lia. intros _. cbn [Zdigits2].
  split; [apply digits2_bounds | lia].
Qed.

Lemma Zdigits2_le (k d : Z) : (0 <= k < 2 ^ d)%Z -> (0 <= d)%Z -> (Zdigits2 k <= d)%Z.
Proof.
  intros [Hk0 Hk] Hd.
  destruct (Z.eq_dec k 0%Z) as [-> | Hnz]; [cbn; lia |].
  destruct (Zdigits2_bounds k) as [[Hlo _] Hpos]; [lia |].
  destruct (Z_lt_le_dec d (Zdigits2 k)) as [Hlt | Hle]; [| exact Hle].
  exfalso.
  assert (2 ^ d <= 2 ^ (Zdigits2 k - 1))%Z by (apply Z.pow_le_mono_r; lia).
  lia.
Qed.

Lemma bounded_facts (mb : positive) (eb : Z) :
  bounded prec emax mb eb = true ->
  (Zpos mb < 2 ^ 53)%Z /\ (-1074 <= eb <= 971)%Z /\ (eb = (-1074)%Z \/ (2 ^ 52 <= Zpos mb)%Z).
Proof.
  unfold bounded, canonical_mantissa. rewrite andb_true_iff, Z.eqb_eq, Z.leb_le, fexp64.
  intros [Hcanon Hmax]. change (emax - prec)%Z with 971%Z in Hmax.
  pose proof (digits2_bounds mb) as [Hlo Hhi].
  set (d := Zpos (digits2_pos mb)) in *.
  assert (Hd : (d <= 53)%Z) by lia.
  assert (Hpow : (2 ^ d <= 2 ^ 53)%Z) by (apply Z.pow_le_mono_r; lia).
  split; [lia |]. split; [lia |].
  destruct (Z.eq_dec eb (-1074)%Z) as [Heb | Heb]; [now left | right].
  assert (d = 53%Z) as Hd53 by lia.
  rewrite Hd53 in Hlo. exact Hlo.
Qed.

Lemma below_mid_le (v : Q) (mb : positive) (eb : Z) : v <= fval mb eb -> below_mid v mb eb.
Proof.
  unfold fval. intros Hv. left. pose proof (pow2_pos eb). nra.
Qed.

Lemma round_tail_value (k e1 : Z) :
  (0 <= k <= 2 ^ 53)%Z -> (-1074 <= e1)%Z ->
  (e1 + 1 <= 971 \/ (k < 2 ^ 53 /\ e1 <= 971))%Z ->
  exists q, SF2Q (round_tail k e1) = Some q /\ q == inject_Z k * pow2 e1.
Proof.
  intros [Hk0 Hk] He1 Hmax. unfold round_tail, shr_fexp.
  destruct (Z.eq_dec k (2 ^ 53)%Z) as [-> | Hne].
  - change (Zdigits2 (2 ^ 53)%Z) with 54%Z. rewrite fexp64.
    replace (Z.max (54 + e1 - 53) (-1074) - e1)%Z with 1%Z by lia.
    change (2 ^ 53)%Z with 9007199254740992%Z.
    cbn [shr shr_record_of_loc SpecFloat.iter_pos shr_1 shr_m].
    destruct (Z.leb_spec (e1 + 1) (emax - prec)) as [_ | Hgt];
      [| change (emax - prec)%Z with 971%Z in Hgt; lia].
    cbn [SF2Q cond_Zopp]. eexists. split; [reflexivity |].
    change (2 ^ (e1 + 1)) with (pow2 (e1 + 1)).
    rewrite (Z.add_comm e1 1), pow2_add. change (pow2 1) with 2.
    change (inject_Z 4503599627370496) with (4503599627370496 # 1).
    change (inject_Z 9007199254740992) with (9007199254740992 # 1).
    ring.
  - assert (Hd : (Zdigits2 k <= 53)%Z) by (apply Zdigits2_le; lia).
    rewrite fexp64.
    assert (Hn : (Z.max (Zdigits2 k + e1 - 53) (-1074) - e1 <= 0)%Z) by lia.
    assert (He : (e1 <= 971)%Z) by lia.
    apply Z.leb_le in He.
    destruct (Z.max (Zdigits2 k + e1 - 53) (-1074) - e1)%Z as [| p | p] eqn:Hn2; [| lia |];
      cbn [shr shr_record_of_loc shr_m].
    all: destruct k as [| p' | p']; [| | lia]; cbn [SF2Q cond_Zopp].
    all: try (change (emax - prec)%Z with 971%Z; rewrite He; cbn [SF2Q cond_Zopp]).
    all: eexists; (split; [reflexivity |]).
    all: try (change (inject_Z 0) with 0; ring).
    all: reflexivity.
Qed.


Lemma shr_m_record (m : Z) (l : location) : shr_m (shr_record_of_loc m l) = m.
Proof. destruct l as [| []]; reflexivity. Qed.

Lemma binary_round_aux_tail (m e : Z) (l : location) :
  binary_round_aux prec emax false m e l
  = round_tail (round_nearest_even (shr_m (shr_fexp prec emax m e l).1)
                                   (loc_of_shr_record (shr_fexp prec emax m e l).1))
               (shr_fexp prec emax m e l).2.
Proof.
  unfold binary_round_aux, round_tail. destruct (shr_fexp prec emax m e l); reflexivity.
Qed.

Lemma lt_pow2_Z (a b : Z) : (0 <= b)%Z -> inject_Z a < pow2 b -> (a < 2 ^ b)%Z.
Proof. intros Hb. rewrite pow2_Z by exact Hb. now rewrite <- Zlt_Qlt. Qed.

Lemma le_pow2_Z (a b : Z) : (0 <= b)%Z -> (2 ^ b <= a)%Z -> pow2 b <= inject_Z a.
Proof. intros Hb. rewrite pow2_Z by exact Hb. now rewrite <- Zle_Qle. Qed.

Lemma lt_Z_pow2 (a b : Z) : (0 <= b)%Z -> (a < 2 ^ b)%Z -> inject_Z a < pow2 b.
Proof. intros Hb. rewrite pow2_Z by exact Hb. now rewrite <- Zlt_Qlt. Qed.

Lemma pow2_shift (x : Q) (e n : Z) : x / pow2 n * pow2 (e + n) == x * pow2 e.
Proof. rewrite pow2_add. pose proof (pow2_pos n). field. lra. Qed.

Lemma pow2_succ (e : Z) : pow2 (e + 1) == 2 * pow2 e.
Proof. rewrite pow2_add. change (pow2 1) with 2. ring. Qed.

(** What the first shift of [binary_round_aux] leaves: a mantissa below
    [2^53] at the exponent of the format, at least [2^52] unless that exponent
    is the smallest one. *)
Lemma shr_fexp_located (m e : Z) (l : location) (x : Q) :
  located x (shr_record_of_loc m l) ->
  (e <= fexp prec emax (Zdigits2 m + e))%Z ->
  let mrs := (shr_fexp prec emax m e l).1 in
  let e1 := (shr_fexp prec emax m e l).2 in
  exists x', located x' mrs
             /\ x' * pow2 e1 == x * pow2 e
             /\ (0 <= shr_m mrs < 2 ^ 53)%Z
             /\ (-1074 <= e1)%Z
             /\ (e1 = (-1074)%Z \/ pow2 52 <= x').
Proof.
  intros Hloc Hpre. cbn zeta.
  assert (Hm : (0 <= m)%Z) by (destruct Hloc as [Hm _]; now rewrite shr_m_record in Hm).
  unfold shr_fexp. set (n := (fexp prec emax (Zdigits2 m + e) - e)%Z).
  assert (Hn : (0 <= n)%Z) by (unfold n; lia).
  destruct (located_shr x _ e n Hloc Hn) as [Hloc' He1].
  exists (x / pow2 n). rewrite He1.
  pose proof (located_bounds _ _ Hloc') as [Hlo Hhi].
  pose proof (located_bounds _ _ Hloc) as [Hxlo Hxhi]. rewrite shr_m_record in Hxlo, Hxhi.
  pose proof (pow2_pos n) as Hpn.
  assert (Hnval : (e + n = Z.max (Zdigits2 m + e - 53) (-1074))%Z)
    by (unfold n; rewrite fexp64; lia).
  pose proof (Zdigits2_nonneg m) as Hd0.
  assert (Hxd : x < pow2 (Zdigits2 m)).
  { destruct (Z.eq_dec m 0%Z) as [-> | Hnz].
    - change (pow2 (Zdigits2 0)) with 1. change (inject_Z 0) with 0 in Hxhi. lra.
    - destruct (Zdigits2_bounds m) as [[_ Hub] _]; [lia |].
      assert (inject_Z m + 1 <= pow2 (Zdigits2 m)).
      { rewrite pow2_Z by exact Hd0. change 1 with (inject_Z 1).
        rewrite <- inject_Z_plus, <- Zle_Qle. lia. }
      lra. }
  assert (Hx53 : x / pow2 n < pow2 53).
  { assert (Hle : pow2 (Zdigits2 m) <= pow2 (53 + n)) by (apply pow2_le; lia).
    rewrite pow2_add in Hle. apply Qlt_shift_div_r; [exact Hpn |]. lra. }
  split; [exact Hloc' |]. split; [apply pow2_shift |]. split; [| split; [lia |]].
  - destruct Hloc' as [H0 _]. split; [exact H0 |].
    apply lt_pow2_Z; [lia | lra].
  - destruct (Z.eq_dec (e + n)%Z (-1074)%Z) as [Heq | Hne]; [now left | right].
    assert (Hdn : (Zdigits2 m = 53 + n)%Z) by lia.
    assert (Hmpos : (0 < m)%Z).
    { destruct (Z.eq_dec m 0%Z) as [-> | Hnz]; [cbn in Hdn; lia | lia]. }
    destruct (Zdigits2_bounds m Hmpos) as [[Hlb _] _].
    assert (Hq : pow2 (Zdigits2 m - 1) <= inject_Z m) by (apply le_pow2_Z; lia).
    replace (Zdigits2 m - 1)%Z with (52 + n)%Z in Hq by lia.
    rewrite pow2_add in Hq. apply Qle_shift_div_l; [exact Hpn |]. lra.
Qed.


(** The rounding of [binary_round_aux] does not step over a float: a value
    that is below the midpoint above the float [(mb, eb)] rounds to at most
    that float (and does not overflow). *)
Lemma round_aux_upper (m e : Z) (l : location) (x : Q) (mb : positive) (eb : Z) :
  located x (shr_record_of_loc m l) ->
  (e <= fexp prec emax (Zdigits2 m + e))%Z ->
  bounded prec emax mb eb = true ->
  below_mid (x * pow2 e) mb eb ->
  exists q, SF2Q (binary_round_aux prec emax false m e l) = Some q
            /\ 0 <= q <= fval mb eb.
Proof.
  intros Hloc Hpre Hb Hmid.
  destruct (bounded_facts mb eb Hb) as (Hmb & Heb & Hnorm).
  destruct (shr_fexp_located m e l x Hloc Hpre) as (x' & Hloc' & Hval & Hm' & He1 & Hx').
  rewrite binary_round_aux_tail.
  set (mrs := (shr_fexp prec emax m e l).1) in *.
  set (e1 := (shr_fexp prec emax m e l).2) in *.
  pose proof (rne_bounds mrs) as Hk.
  pose proof (rne_le x' mrs (Zpos mb) Hloc') as Hrne.
  set (k := round_nearest_even (shr_m mrs) (loc_of_shr_record mrs)) in *.
  pose proof (located_bounds _ _ Hloc') as [Hlo Hhi].
  pose proof (pow2_pos e1) as Hp1. pose proof (pow2_pos eb) as Hpb.
  assert (Hk0 : 0 <= inject_Z k).
  { change 0 with (inject_Z 0). rewrite <- Zle_Qle. lia. }
  assert (HmbQ : inject_Z (Zpos mb) + 1 <= pow2 53).
  { rewrite pow2_Z by lia. change 1 with (inject_Z 1).
    rewrite <- inject_Z_plus, <- Zle_Qle. lia. }
  unfold below_mid in Hmid. rewrite <- Hval in Hmid.
  destruct (Z.lt_trichotomy e1 eb) as [Hlt | [Heq | Hgt]].
  - destruct (round_tail_value k e1) as (q & Hq & Hqv); [lia | lia | left; lia |].
    exists q. split; [exact Hq |]. rewrite Hqv. unfold fval.
    assert (HkQ : inject_Z k <= pow2 53).
    { rewrite pow2_Z by lia. rewrite <- Zle_Qle. lia. }
    assert (Hpp : 2 * pow2 e1 <= pow2 eb).
    { rewrite <- pow2_succ. apply pow2_le. lia. }
    assert (Hmb52 : pow2 52 <= inject_Z (Zpos mb)).
    { apply le_pow2_Z; [lia |]. destruct Hnorm as [Hn | Hn]; [lia | exact Hn]. }
    assert (H5352 : pow2 53 == 2 * pow2 52) by reflexivity.
    split; [apply Qmult_le_0_compat; lra |].
    apply Qle_trans with (pow2 53 * pow2 e1).
    + apply Qmult_le_compat_r; lra.
    + apply Qle_trans with (pow2 52 * pow2 eb).
      * rewrite H5352. assert (0 < pow2 52) by apply pow2_pos. nra.
      * apply Qmult_le_compat_r; lra.
  - assert (Hkmb : (k <= Zpos mb)%Z).
    { apply Hrne. rewrite Heq in Hmid.
      destruct Hmid as [Hmid | [Hmid Hev]]; [left | right; split; [| exact Hev]].
      - apply Qmult_lt_r with (pow2 eb); assumption.
      - apply Qmult_le_r with (pow2 eb); assumption. }
    destruct (round_tail_value k e1) as (q & Hq & Hqv); [lia | lia | right; lia |].
    exists q. split; [exact Hq |]. rewrite Hqv. unfold fval. rewrite Heq.
    split; [apply Qmult_le_0_compat; lra |].
    apply Qmult_le_compat_r; [| lra]. rewrite <- Zle_Qle. exact Hkmb.
  - exfalso.
    destruct Hx' as [Hx' | Hx']; [lia |].
    assert (Hpp : 2 * pow2 eb <= pow2 e1).
    { rewrite <- pow2_succ. apply pow2_le. lia. }
    assert (H5352 : pow2 53 == 2 * pow2 52) by reflexivity.
    assert (H52 : 0 < pow2 52) by apply pow2_pos.
    assert (Hbig : (inject_Z (Zpos mb) + 1) * pow2 eb <= x' * pow2 e1).
    { apply Qle_trans with (pow2 53 * pow2 eb).
      - apply Qmult_le_compat_r; lra.
      - apply Qle_trans with (pow2 52 * pow2 e1).
        + rewrite H5352. nra.
        + apply Qmult_le_compat_r; lra. }
    destruct Hmid as [Hmid | [Hmid _]]; nra.
Qed.


(** ** The order of finite floats is the order of their values *)

Lemma fval_pos (m : positive) (e : Z) : 0 < fval m e.
Proof.
  unfold fval. apply Qmult_lt_0_compat; [| apply pow2_pos].
  change 0 with (inject_Z 0). rewrite <- Zlt_Qlt. lia.
Qed.

Lemma fval_lt_exp (m1 : positive) (e1 : Z) (m2 : positive) (e2 : Z) :
  bounded prec emax m1 e1 = true -> bounded prec emax m2 e2 = true ->
  (e1 < e2)%Z -> fval m1 e1 < fval m2 e2.
Proof.
  intros H1 H2 Hlt.
  destruct (bounded_facts _ _ H1) as (Hm1 & He1 & _).
  destruct (bounded_facts _ _ H2) as (_ & He2 & Hn2).
  unfold fval.
  assert (Hm1Q : inject_Z (Zpos m1) < pow2 53) by (apply lt_Z_pow2; lia).
  assert (Hm2Q : pow2 52 <= inject_Z (Zpos m2)).
  { apply le_pow2_Z; [lia |]. destruct Hn2; [lia | assumption]. }
  assert (Hpp : 2 * pow2 e1 <= pow2 e2) by (rewrite <- pow2_succ; apply pow2_le; lia).
  assert (H5352 : pow2 53 == 2 * pow2 52) by reflexivity.
  pose proof (pow2_pos e1). pose proof (pow2_pos e2). pose proof (pow2_pos 52).
  apply Qlt_le_trans with (pow2 53 * pow2 e1).
  - apply Qmult_lt_compat_r; assumption.
  - apply Qle_trans with (pow2 52 * pow2 e2).
    + rewrite H5352. nra.
    + apply Qmult_le_compat_r; lra.
Qed.

Lemma cmp_pos_finite (m1 : positive) (e1 : Z) (m2 : positive) (e2 : Z) :
  bounded prec emax m1 e1 = true -> bounded prec emax m2 e2 = true ->
  cmp_spec match (e1 ?= e2)%Z with
           | Lt => Lt
           | Gt => Gt
           | Eq => Pos.compare_cont Eq m1 m2
           end (fval m1 e1) (fval m2 e2).
Proof.
  intros H1 H2.
  destruct (Z.compare_spec e1 e2) as [-> | Hlt | Hgt].
  - change (Pos.compare_cont Eq m1 m2) with (m1 ?= m2)%positive.
    pose proof (pow2_pos e2) as Hp. unfold fval.
    destruct (Pos.compare_spec m1 m2) as [-> | Hm | Hm]; cbn [cmp_spec].
    + reflexivity.
    + apply Qmult_lt_compat_r; [exact Hp |]. rewrite <- Zlt_Qlt. lia.
    + apply Qmult_lt_compat_r; [exact Hp |]. rewrite <- Zlt_Qlt. lia.
  - now apply fval_lt_exp.
  - now apply fval_lt_exp.
Qed.

Lemma SF2Q_finite (s : bool) (m : positive) (e : Z) :
  exists v, SF2Q (S754_finite s m e) = Some v
            /\ v == (if s then - fval m e else fval m e).
Proof.
  eexists. split; [reflexivity |]. unfold fval.
  destruct s; cbn [cond_Zopp]; [| reflexivity].
  change (inject_Z (- Zpos m)) with (- inject_Z (Zpos m)). unfold pow2. ring.
Qed.

Lemma cmp_spec_ext (c : comparison) (x x' y y' : Q) :
  x == x' -> y == y' -> cmp_spec c x y -> cmp_spec c x' y'.
Proof. intros Hx Hy. destruct c; cbn; rewrite Hx, Hy; auto. Qed.

Lemma cmp_spec_opp (c : comparison) (x y : Q) :
  cmp_spec c x y -> cmp_spec (CompOpp c) (- x) (- y).
Proof. destruct c; cbn; intros; lra. Qed.

(** [SFcompare] on two finite floats compares their values. *)
Lemma SFcompare_Q (X Y : spec_float) (vx vy : Q) :
  valid_binary X = true -> valid_binary Y = true ->
  SF2Q X = Some vx -> SF2Q Y = Some vy ->
  exists c, SFcompare X Y = Some c /\ cmp_spec c vx vy.
Proof.
  intros HX HY Hvx Hvy.
  destruct X as [sx | sx | | sx mx ex]; try discriminate;
    destruct Y as [sy | sy | | sy my ey]; try discriminate.
  - injection Hvx as <-. injection Hvy as <-. exists Eq. split; reflexivity.
  - injection Hvx as <-.
    destruct (SF2Q_finite sy my ey) as (v & Hv & Hveq).
    rewrite Hv in Hvy. injection Hvy as <-.
    pose proof (fval_pos my ey).
    exists (if sy then Gt else Lt). split; [reflexivity |].
    destruct sy; cbn; lra.
  - injection Hvy as <-.
    destruct (SF2Q_finite sx mx ex) as (v & Hv & Hveq).
    rewrite Hv in Hvx. injection Hvx as <-.
    pose proof (fval_pos mx ex).
    exists (if sx then Lt else Gt). split; [reflexivity |].
    destruct sx; cbn; lra.
  - destruct (SF2Q_finite sx mx ex) as (v1 & Hv1 & Hveq1).
    rewrite Hv1 in Hvx. injection Hvx as <-.
    destruct (SF2Q_finite sy my ey) as (v2 & Hv2 & Hveq2).
    rewrite Hv2 in Hvy. injection Hvy as <-.
    pose proof (fval_pos mx ex). pose proof (fval_pos my ey).
    cbn [valid_binary] in HX, HY.
    pose proof (cmp_pos_finite mx ex my ey HX HY) as Hpos.
    eexists. split; [reflexivity |].
    destruct sx, sy.
    + eapply cmp_spec_ext; [symmetry; exact Hveq1 | symmetry; exact Hveq2 |].
      apply cmp_spec_opp in Hpos.
      destruct (ex ?= ey)%Z; cbn [CompOpp] in Hpos |- *; exact Hpos.
    + cbn. lra.
    + cbn. lra.
    + eapply cmp_spec_ext; [symmetry; exact Hveq1 | symmetry; exact Hveq2 |].
      exact Hpos.
Qed.


(** ** Multiplication *)

Lemma bounded_canon (m : positive) (e : Z) :
  bounded prec emax m e = true ->
  Z.max (Zpos (digits2_pos m) + e - 53) (-1074) = e.
Proof.
  unfold bounded, canonical_mantissa. rewrite andb_true_iff, Z.eqb_eq, fexp64.
  now intros [Hc _].
Qed.

Lemma digits2_mul (mx my : positive) :
  (Zpos (digits2_pos mx) + Zpos (digits2_pos my) - 1 <= Zpos (digits2_pos (mx * my)))%Z.
Proof.
  pose proof (digits2_bounds mx) as [Hx _].
  pose proof (digits2_bounds my) as [Hy _].
  pose proof (digits2_bounds (mx * my)) as [_ Hxy].
  set (dx := Zpos (digits2_pos mx)) in *. set (dy := Zpos (digits2_pos my)) in *.
  set (d := Zpos (digits2_pos (mx * my))) in *.
  assert (Hdx : (0 < dx)%Z) by (unfold dx; lia).
  assert (Hdy : (0 < dy)%Z) by (unfold dy; lia).
  assert (Hprod : (2 ^ (dx - 1 + (dy - 1)) <= Zpos (mx * my))%Z).
  { rewrite Z.pow_add_r by lia. rewrite Pos2Z.inj_mul.
    apply Z.mul_le_mono_nonneg; try assumption; apply Z.pow_nonneg; lia. }
  destruct (Z_lt_le_dec d (dx + dy - 1)) as [Hlt | Hle]; [| exact Hle].
  exfalso.
  assert (2 ^ d <= 2 ^ (dx - 1 + (dy - 1)))%Z by (apply Z.pow_le_mono_r; unfold d in *; lia).
  lia.
Qed.

Lemma below_mid_ext (v v' : Q) (mb : positive) (eb : Z) :
  v == v' -> below_mid v mb eb -> below_mid v' mb eb.
Proof. unfold below_mid. intros ->. auto. Qed.

Lemma below_mid_mono (v v' : Q) (mb : positive) (eb : Z) :
  v' <= v -> below_mid v mb eb -> below_mid v' mb eb.
Proof. unfold below_mid. intros Hle [H | [H Hev]]; [left | right; split; [| exact Hev]]; lra. Qed.

(** A non-negative finite float is a zero or a positive float. *)
Lemma nonneg_cases (X : spec_float) (vx : Q) :
  SF2Q X = Some vx -> 0 <= vx ->
  (exists s, X = S754_zero s /\ vx == 0)
  \/ (exists m e, X = S754_finite false m e /\ vx == fval m e).
Proof.
  intros Hv Hpos. destruct X as [s | s | | s m e]; try discriminate.
  - left. exists s. injection Hv as <-. split; reflexivity.
  - right. destruct (SF2Q_finite s m e) as (v & Hv' & Hveq).
    rewrite Hv' in Hv. injection Hv as <-.
    destruct s.
    + exfalso. pose proof (fval_pos m e). lra.
    + exists m, e. split; [reflexivity | exact Hveq].
Qed.

Lemma SFmul_upper (X Y : spec_float) (vx vy : Q) (mb : positive) (eb : Z) :
  valid_binary X = true -> valid_binary Y = true ->
  SF2Q X = Some vx -> SF2Q Y = Some vy -> 0 <= vx -> 0 <= vy ->
  bounded prec emax mb eb = true ->
  below_mid (vx * vy) mb eb ->
  exists q, SF2Q (SFmul prec emax X Y) = Some q /\ 0 <= q <= fval mb eb.
Proof.
  intros HX HY Hvx Hvy Hx0 Hy0 Hb Hmid.
  pose proof (fval_pos mb eb) as Hbpos.
  destruct (nonneg_cases X vx Hvx Hx0) as [(sx & -> & Hx) | (mx & ex & -> & Hx)];
    destruct (nonneg_cases Y vy Hvy Hy0) as [(sy & -> & Hy) | (my & ey & -> & Hy)].
  - exists 0. split; [reflexivity | lra].
  - exists 0. split; [reflexivity | lra].
  - exists 0. split; [reflexivity | lra].
  - cbn [SFmul xorb valid_binary] in *.
    pose proof (bounded_canon _ _ HX) as Hcx.
    pose proof (bounded_canon _ _ HY) as Hcy.
    pose proof (digits2_mul mx my) as Hd.
    apply round_aux_upper with (x := inject_Z (Zpos (mx * my))).
    + apply located_record_exact. lia.
    + rewrite fexp64. cbn [Zdigits2].
      assert (0 < Zpos (digits2_pos mx))%Z by lia.
      assert (0 < Zpos (digits2_pos my))%Z by lia.
      lia.
    + exact Hb.
    + eapply below_mid_ext; [| exact Hmid].
      rewrite Hx, Hy. unfold fval. rewrite Pos2Z.inj_mul, inject_Z_mult, pow2_add. ring.
Qed.


(** ** Addition *)

Lemma iter_xO_value (m d : positive) :
  Zpos (Pos.iter xO m d) = (Zpos m * 2 ^ Zpos d)%Z.
Proof.
  induction d as [| d IH] using Pos.peano_ind.
  - cbn. lia.
  - rewrite Pos.iter_succ, Pos2Z.inj_xO, IH, Pos2Z.inj_succ, Z.pow_succ_r by lia. ring.
Qed.

Lemma iter_xO_digits (m d : positive) :
  digits2_pos (Pos.iter xO m d) = (digits2_pos m + d)%positive.
Proof.
  induction d as [| d IH] using Pos.peano_ind.
  - cbn. lia.
  - rewrite Pos.iter_succ. cbn [digits2_pos]. rewrite IH. lia.
Qed.

(** [shl_align] lowers the exponent to [e'] when [e'] is below [e], and keeps
    the value and the magnitude. *)
Lemma shl_align_spec (m : positive) (e e' : Z) :
  fval (shl_align m e e').1 (shl_align m e e').2 == fval m e
  /\ (shl_align m e e').2 = Z.min e e'
  /\ (Zpos (digits2_pos (shl_align m e e').1) + (shl_align m e e').2
      = Zpos (digits2_pos m) + e)%Z.
Proof.
  unfold shl_align. destruct (e' - e)%Z as [| d | d] eqn:Hd; cbn [fst snd].
  - split; [reflexivity |]. split; lia.
  - split; [reflexivity |]. split; lia.
  - split; [| split; [lia |]].
    + unfold fval. rewrite iter_xO_value, inject_Z_mult.
      replace e with (Zpos d + e')%Z by lia.
      rewrite pow2_add, <- pow2_Z by lia. ring.
    + rewrite iter_xO_digits. lia.
Qed.

Lemma SFadd_upper (X Y : spec_float) (vx vy : Q) (mb : positive) (eb : Z) :
  SF2Q X = Some vx -> SF2Q Y = Some vy -> 0 <= vx -> 0 <= vy ->
  bounded prec emax mb eb = true ->
  vx + vy <= fval mb eb ->
  exists q, SF2Q (SFadd prec emax X Y) = Some q /\ 0 <= q <= fval mb eb.
Proof.
  intros Hvx Hvy Hx0 Hy0 Hb Hsum.
  destruct (nonneg_cases X vx Hvx Hx0) as [(sx & -> & Hx) | (mx & ex & -> & Hx)];
    destruct (nonneg_cases Y vy Hvy Hy0) as [(sy & -> & Hy) | (my & ey & -> & Hy)].
  - exists 0. split; [destruct sx, sy; reflexivity | lra].
  - exists vy. split; [exact Hvy | lra].
  - exists vx. split; [exact Hvx | lra].
  - cbn [SFadd cond_Zopp].
    set (ez := Z.min ex ey).
    destruct (shl_align_spec mx ex ez) as (Hvalx & Hex & _).
    destruct (shl_align_spec my ey ez) as (Hvaly & Hey & _).
    set (mx' := (shl_align mx ex ez).1) in *. set (my' := (shl_align my ey ez).1) in *.
    replace ((shl_align mx ex ez).2) with ez in Hvalx by (unfold ez in *; lia).
    replace ((shl_align my ey ez).2) with ez in Hvaly by (unfold ez in *; lia).
    change (Zpos mx' + Zpos my')%Z with (Zpos (mx' + my')).
    cbn [binary_normalize]. unfold binary_round.
    set (ms := (mx' + my')%positive).
    destruct (shl_align_spec ms ez (fexp prec emax (Zpos (digits2_pos ms) + ez)))
      as (Hvalz & Hez & Hdz).
    destruct (shl_align ms ez (fexp prec emax (Zpos (digits2_pos ms) + ez))) as [mz ez'].
    cbn [fst snd] in Hvalz, Hez, Hdz.
    apply round_aux_upper with (x := inject_Z (Zpos mz)).
    + apply located_record_exact. lia.
    + cbn [Zdigits2]. rewrite Hdz. lia.
    + exact Hb.
    + apply below_mid_le.
      change (inject_Z (Zpos mz) * pow2 ez') with (fval mz ez').
      assert (Hms : fval ms ez == fval mx' ez + fval my' ez).
      { unfold ms, fval. rewrite Pos2Z.inj_add, inject_Z_plus. ring. }
      lra.
Qed.


(** ** Division *)

Lemma new_location_located (q r d : Z) :
  (0 <= q)%Z -> (0 <= r < d)%Z ->
  located (inject_Z q + inject_Z r / inject_Z d) (shr_record_of_loc q (new_location d r)).
Proof.
  intros Hq [Hr0 Hrd].
  assert (HdQ : 0 < inject_Z d).
  { change 0 with (inject_Z 0). rewrite <- Zlt_Qlt. lia. }
  set (f := inject_Z r / inject_Z d).
  assert (Hlt : (2 * r < d)%Z -> f < 1 # 2).
  { intros H. apply Qlt_shift_div_r; [exact HdQ |].
    assert (inject_Z (2 * r) < inject_Z d) by (rewrite <- Zlt_Qlt; exact H).
    rewrite inject_Z_mult in *. change (inject_Z 2) with 2 in *. lra. }
  assert (Hgt : (d < 2 * r)%Z -> 1 # 2 < f).
  { intros H. apply Qlt_shift_div_l; [exact HdQ |].
    assert (inject_Z d < inject_Z (2 * r)) by (rewrite <- Zlt_Qlt; exact H).
    rewrite inject_Z_mult in *. change (inject_Z 2) with 2 in *. lra. }
  assert (Heq : (2 * r = d)%Z -> f == 1 # 2).
  { intros H. unfold f. rewrite <- H, inject_Z_mult. change (inject_Z 2) with 2.
    field. intros Hz. rewrite <- H, inject_Z_mult in HdQ. change (inject_Z 2) with 2 in HdQ.
    lra. }
  assert (Hf0 : (0 < r)%Z -> 0 < f).
  { intros H. apply Qlt_shift_div_l; [exact HdQ |].
    assert (inject_Z 0 < inject_Z r) by (rewrite <- Zlt_Qlt; exact H).
    change (inject_Z 0) with 0 in *. lra. }
  assert (Hf1 : f < 1).
  { apply Qlt_shift_div_r; [exact HdQ |].
    assert (inject_Z r < inject_Z d) by (rewrite <- Zlt_Qlt; exact Hrd). lra. }
  assert (Hfz : r = 0%Z -> f == 0).
  { intros ->. unfold f. change (inject_Z 0) with 0. field. lra. }
  unfold new_location, new_location_even, new_location_odd.
  destruct (Z.even d) eqn:Hev; destruct (Z.eqb_spec r 0) as [Hz | Hnz].
  - split; [rewrite shr_m_record; exact Hq |]. cbn. specialize (Hfz Hz). fold f. lra.
  - specialize (Hf0 ltac:(lia)).
    destruct (Z.compare_spec (2 * r) d) as [H | H | H];
      (split; [rewrite shr_m_record; exact Hq |]); cbn; fold f.
    + specialize (Heq H). lra.
    + specialize (Hlt H). lra.
    + specialize (Hgt H). lra.
  - split; [rewrite shr_m_record; exact Hq |]. cbn. specialize (Hfz Hz). fold f. lra.
  - specialize (Hf0 ltac:(lia)).
    assert (Hodd : (2 * r <> d)%Z).
    { intros <-. rewrite Z.even_mul in Hev. discriminate. }
    destruct (Z.compare_spec (2 * r + 1) d) as [H | H | H];
      (split; [rewrite shr_m_record; exact Hq |]); cbn; fold f.
    + specialize (Hlt ltac:(lia)). lra.
    + specialize (Hlt ltac:(lia)). lra.
    + specialize (Hgt ltac:(lia)). lra.
Qed.

Lemma Zdigits2_succ_le (q : Z) : (0 <= q)%Z -> (q + 1 <= 2 ^ Zdigits2 q)%Z.
Proof.
  intros Hq. destruct (Z.eq_dec q 0%Z) as [-> | Hnz]; [cbn; lia |].
  destruct (Zdigits2_bounds q) as [[_ Hub] _]; lia.
Qed.

(** The quotient and the location [SFdiv_core_binary] returns stand for the
    exact quotient, with enough digits for the rounding that follows. *)
Lemma div_core_spec (m1 : positive) (e1 : Z) (m2 : positive) (e2 : Z) :
  let r := SFdiv_core_binary prec emax (Zpos m1) e1 (Zpos m2) e2 in
  exists x, located x (shr_record_of_loc r.1.1 r.2)
            /\ x * pow2 r.1.2 == fval m1 e1 / fval m2 e2
            /\ (r.1.2 <= fexp prec emax (Zdigits2 r.1.1 + r.1.2))%Z.
Proof.
  cbn zeta. unfold SFdiv_core_binary.
  set (d1 := Zdigits2 (Zpos m1)). set (d2 := Zdigits2 (Zpos m2)).
  set (e' := Z.min (fexp prec emax (d1 + e1 - (d2 + e2))) (e1 - e2)).
  set (s := (e1 - e2 - e')%Z).
  assert (Hs : (0 <= s)%Z) by (unfold s, e'; lia).
  set (m' := match s with
             | 0%Z => Zpos m1
             | Zpos _ => Z.shiftl (Zpos m1) s
             | Zneg _ => 0%Z
             end).
  assert (Hm' : m' = (Zpos m1 * 2 ^ s)%Z).
  { unfold m'. destruct s as [| p | p]; [lia | | lia].
    now rewrite Z.shiftl_mul_pow2 by lia. }
  pose proof (Z_div_mod m' (Zpos m2) ltac:(lia)) as Hdiv.
  destruct (Z.div_eucl m' (Zpos m2)) as [q r]. destruct Hdiv as [Hqr Hr].
  cbn [fst snd].
  assert (H2s : (0 < 2 ^ s)%Z) by (apply Z.pow_pos_nonneg; lia).
  assert (Hq : (0 <= q)%Z) by nia.
  assert (Hm2Q : 0 < inject_Z (Zpos m2)).
  { change 0 with (inject_Z 0). rewrite <- Zlt_Qlt. lia. }
  exists (inject_Z q + inject_Z r / inject_Z (Zpos m2)).
  split; [now apply new_location_located |]. split.
  - assert (Hx : inject_Z q + inject_Z r / inject_Z (Zpos m2)
                 == inject_Z (Zpos m1) * pow2 s / inject_Z (Zpos m2)).
    { rewrite pow2_Z by exact Hs. rewrite <- inject_Z_mult, <- Hm', Hqr.
      rewrite inject_Z_plus, inject_Z_mult. field. lra. }
    assert (Hp : pow2 e1 == pow2 s * (pow2 e' * pow2 e2)).
    { rewrite <- !pow2_add. now replace (s + (e' + e2))%Z with e1 by (unfold s; lia). }
    rewrite Hx. unfold fval. rewrite Hp.
    pose proof (pow2_pos e2). pose proof (pow2_pos e'). pose proof (pow2_pos s).
    field. split; lra.
  - assert (Hdq : (d1 + s - d2 <= Zdigits2 q)%Z).
    { pose proof (Zdigits2_succ_le q Hq) as Hq1.
      destruct (Zdigits2_bounds (Zpos m1)) as [[Hm1 _] _]; [lia |].
      destruct (Zdigits2_bounds (Zpos m2)) as [[_ Hm2] _]; [lia |].
      fold d1 in Hm1. fold d2 in Hm2.
      pose proof (Zdigits2_nonneg q) as Hdq0.
      assert (Hd1 : (0 < d1)%Z) by (unfold d1; cbn; lia).
      assert (Hd2 : (0 < d2)%Z) by (unfold d2; cbn; lia).
      assert (Hlow : (2 ^ (d1 - 1 + s) <= m')%Z).
      { rewrite Hm', Z.pow_add_r by lia. apply Z.mul_le_mono_nonneg_r; lia. }
      assert (Hup : (m' < 2 ^ (d2 + Zdigits2 q))%Z).
      { rewrite Z.pow_add_r by lia.
        apply Z.lt_le_trans with (Zpos m2 * (q + 1))%Z; [lia |].
        apply Z.mul_le_mono_nonneg; lia. }
      destruct (Z_lt_le_dec (Zdigits2 q) (d1 + s - d2)) as [Hlt | Hle]; [| exact Hle].
      exfalso.
      assert (2 ^ (d2 + Zdigits2 q) <= 2 ^ (d1 - 1 + s))%Z by (apply Z.pow_le_mono_r; lia).
      lia. }
    rewrite fexp64. unfold e' at 1. rewrite fexp64.
    unfold s in Hdq. lia.
Qed.

Lemma SFdiv_upper (X Y : spec_float) (vx vy : Q) (mb : positive) (eb : Z) :
  SF2Q X = Some vx -> SF2Q Y = Some vy -> 0 <= vx -> 0 < vy ->
  bounded prec emax mb eb = true ->
  below_mid (vx / vy) mb eb ->
  exists q, SF2Q (SFdiv prec emax X Y) = Some q /\ 0 <= q <= fval mb eb.
Proof.
  intros Hvx Hvy Hx0 Hy0 Hb Hmid.
  pose proof (fval_pos mb eb) as Hbpos.
  destruct (nonneg_cases Y vy Hvy ltac:(lra)) as [(sy & -> & Hy) | (my & ey & -> & Hy)];
    [lra |].
  destruct (nonneg_cases X vx Hvx Hx0) as [(sx & -> & Hx) | (mx & ex & -> & Hx)].
  - exists 0. split; [reflexivity | lra].
  - cbn [SFdiv xorb].
    destruct (div_core_spec mx ex my ey) as (x & Hloc & Hval & Hpre).
    destruct (SFdiv_core_binary prec emax (Zpos mx) ex (Zpos my) ey) as [[mz ez] lz].
    cbn [fst snd] in Hloc, Hval, Hpre.
    apply round_aux_upper with (x := x); try assumption.
    eapply below_mid_ext; [| exact Hmid].
    rewrite Hval, Hx, Hy. reflexivity.
Qed.


(** ** The same bounds on primitive floats *)

Lemma inrange_le (x : float) (b b' : Q) : inrange x b -> b <= b' -> inrange x b'.
Proof. intros (v & Hv & Hr) Hb. exists v. split; [exact Hv | lra]. Qed.

Lemma compare_F2Q (x y : float) (vx vy : Q) :
  F2Q x = Some vx -> F2Q y = Some vy ->
  exists c, SFcompare (Prim2SF x) (Prim2SF y) = Some c /\ cmp_spec c vx vy.
Proof. intros Hx Hy. apply SFcompare_Q; auto using Prim2SF_valid. Qed.

Lemma leb_F2Q (x y : float) (vx vy : Q) :
  F2Q x = Some vx -> F2Q y = Some vy -> (PrimFloat.leb x y = true <-> vx <= vy).
Proof.
  intros Hx Hy. rewrite FloatAxioms.leb_spec. unfold SFleb.
  destruct (compare_F2Q x y vx vy Hx Hy) as (c & -> & Hc).
  destruct c; cbn in Hc; split; intros H; try reflexivity; try discriminate; lra.
Qed.

Lemma ltb_F2Q (x y : float) (vx vy : Q) :
  F2Q x = Some vx -> F2Q y = Some vy -> (PrimFloat.ltb x y = true <-> vx < vy).
Proof.
  intros Hx Hy. rewrite FloatAxioms.ltb_spec. unfold SFltb.
  destruct (compare_F2Q x y vx vy Hx Hy) as (c & -> & Hc).
  destruct c; cbn in Hc; split; intros H; try reflexivity; try discriminate; lra.
Qed.

Lemma eqb_F2Q (x y : float) (vx vy : Q) :
  F2Q x = Some vx -> F2Q y = Some vy -> (PrimFloat.eqb x y = true <-> vx == vy).
Proof.
  intros Hx Hy. rewrite FloatAxioms.eqb_spec. unfold SFeqb.
  destruct (compare_F2Q x y vx vy Hx Hy) as (c & -> & Hc).
  destruct c; cbn in Hc; split; intros H; try reflexivity; try discriminate; lra.
Qed.

(** A float between [0.0] and a finite float is finite. *)
Lemma inrange_of_leb (x c : float) (vc : Q) :
  F2Q c = Some vc ->
  PrimFloat.leb 0 x = true -> PrimFloat.leb x c = true -> inrange x vc.
Proof.
  intros Hc H0 Hxc.
  assert (Hfin : exists v, F2Q x = Some v).
  { rewrite FloatAxioms.leb_spec in H0, Hxc. unfold F2Q in *.
    change (Prim2SF 0) with (S754_zero false) in H0.
    destruct (Prim2SF x) as [s | s | | s m e]; cbn [SF2Q]; eauto.
    - destruct s; [discriminate H0 |].
      destruct (Prim2SF c) as [sc | sc | | sc mc ec]; discriminate.
    - discriminate H0. }
  destruct Hfin as (v & Hv). exists v. split; [exact Hv |].
  split.
  - apply (leb_F2Q 0 x 0 v); [reflexivity | exact Hv | exact H0].
  - apply (leb_F2Q x c v vc); assumption.
Qed.

Lemma leb_of_inrange (x c : float) (b vc : Q) :
  F2Q c = Some vc -> inrange x b -> b <= vc ->
  PrimFloat.leb 0 x = true /\ PrimFloat.leb x c = true.
Proof.
  intros Hc (v & Hv & Hr) Hb. split.
  - apply (leb_F2Q 0 x 0 v); [reflexivity | exact Hv | lra].
  - apply (leb_F2Q x c v vc); [exact Hv | exact Hc | lra].
Qed.

(** A float that is a positive finite number, as mantissa and exponent. *)
Lemma F2Q_finite_pos (B : float) (mb : positive) (eb : Z) :
  Prim2SF B = S754_finite false mb eb ->
  bounded prec emax mb eb = true /\ F2Q B = Some (fval mb eb).
Proof.
  intros HB. split.
  - pose proof (Prim2SF_valid B) as Hv. now rewrite HB in Hv.
  - unfold F2Q. rewrite HB. reflexivity.
Qed.

Lemma mul_range (x y B : float) (bx by_ : Q) (mb : positive) (eb : Z) :
  inrange x bx -> inrange y by_ ->
  Prim2SF B = S754_finite false mb eb ->
  below_mid (bx * by_) mb eb ->
  inrange (x * y) (fval mb eb).
Proof.
  intros (vx & Hvx & Hx) (vy & Hvy & Hy) HB Hmid.
  destruct (F2Q_finite_pos B mb eb HB) as [Hb _].
  unfold inrange, F2Q. rewrite FloatAxioms.mul_spec.
  apply SFmul_upper with vx vy; auto using Prim2SF_valid; try lra.
  eapply below_mid_mono; [| exact Hmid]. nra.
Qed.

Lemma add_range (x y B : float) (bx by_ : Q) (mb : positive) (eb : Z) :
  inrange x bx -> inrange y by_ ->
  Prim2SF B = S754_finite false mb eb ->
  bx + by_ <= fval mb eb ->
  inrange (x + y) (fval mb eb).
Proof.
  intros (vx & Hvx & Hx) (vy & Hvy & Hy) HB Hsum.
  destruct (F2Q_finite_pos B mb eb HB) as [Hb _].
  unfold inrange, F2Q. rewrite FloatAxioms.add_spec.
  apply SFadd_upper with vx vy; auto; lra.
Qed.

Lemma div_range (x y B : float) (bx vy : Q) (mb : positive) (eb : Z) :
  inrange x bx -> F2Q y = Some vy -> 0 < vy ->
  Prim2SF B = S754_finite false mb eb ->
  below_mid (bx / vy) mb eb ->
  inrange (x / y) (fval mb eb).
Proof.
  intros (vx & Hvx & Hx) Hvy Hy HB Hmid.
  destruct (F2Q_finite_pos B mb eb HB) as [Hb _].
  unfold inrange, F2Q. rewrite FloatAxioms.div_spec.
  apply SFdiv_upper with vx vy; auto; try lra.
  eapply below_mid_mono; [| exact Hmid].
  unfold Qdiv. apply Qmult_le_compat_r; [lra |].
  apply Qlt_le_weak, Qinv_lt_0_compat, Hy.
Qed.

(** A finite non-negative constant is in range of its own value. *)
Lemma inrange_const (c : float) (v : Q) : F2Q c = Some v -> 0 <= v -> inrange c v.
Proof. intros Hc Hv. exists v. split; [exact Hc | lra]. Qed.

Lemma below_mid_closed (v : Q) (mb : positive) (eb : Z) :
  (Qle_bool v ((inject_Z (Zpos mb) + (1 # 2)) * pow2 eb) && Z.even (Zpos mb)
   || negb (Qle_bool ((inject_Z (Zpos mb) + (1 # 2)) * pow2 eb) v))%bool = true ->
  below_mid v mb eb.
Proof.
  intros H. apply orb_true_iff in H. destruct H as [H | H].
  - apply andb_true_iff in H. destruct H as [Hle Hev].
    right. split; [now apply Qle_bool_imp_le | exact Hev].
  - left. apply negb_true_iff in H. apply Qnot_le_lt. intros Hle.
    apply Qle_bool_iff in Hle. congruence.
Qed.

End Rounding64.

Ltac closed_Q :=
  first
    [ apply below_mid_closed; vm_compute; reflexivity
    | apply Qle_bool_imp_le; vm_compute; reflexivity
    | vm_compute; reflexivity
    | vm_compute; discriminate ].

Ltac const_range := eapply inrange_const; [vm_compute; reflexivity | closed_Q].

(** ** The two expressions of the dashboard, bounded *)

Section Bounds64.
Local Open Scope Q_scope.

Lemma composite_range (tc sd li op : float) :
  PrimFloat.leb 0 tc = true -> PrimFloat.leb tc 10 = true ->
  PrimFloat.leb 0 sd = true -> PrimFloat.leb sd 10 = true ->
  PrimFloat.leb 0 li = true -> PrimFloat.leb li 10 = true ->
  PrimFloat.leb 0 op = true -> PrimFloat.leb op 100 = true ->
  PrimFloat.leb 0 (tc * 0.2 + sd * 0.25 + li * 0.3 + (op / 10) * 0.25)%float = true
  /\ PrimFloat.leb (tc * 0.2 + sd * 0.25 + li * 0.3 + (op / 10) * 0.25)%float 10 = true.
Proof.
  intros Htc0 Htc Hsd0 Hsd Hli0 Hli Hop0 Hop.
  eapply inrange_of_leb in Htc; [| vm_compute; reflexivity | exact Htc0].
  eapply inrange_of_leb in Hsd; [| vm_compute; reflexivity | exact Hsd0].
  eapply inrange_of_leb in Hli; [| vm_compute; reflexivity | exact Hli0].
  eapply inrange_of_leb in Hop; [| vm_compute; reflexivity | exact Hop0].
  assert (Ha : inrange (tc * 0.2) (fval 4503599627370496 (-51))).
  { eapply (mul_range tc 0.2 2); [exact Htc | const_range | reflexivity | closed_Q]. }
  assert (Hb : inrange (sd * 0.25) (fval 5629499534213120 (-51))).
  { eapply (mul_range sd 0.25 2.5); [exact Hsd | const_range | reflexivity | closed_Q]. }
  assert (Hab : inrange (tc * 0.2 + sd * 0.25) (fval 5066549580791808 (-50))).
  { eapply (add_range _ _ 4.5); [exact Ha | exact Hb | reflexivity | closed_Q]. }
  assert (Hc : inrange (li * 0.3) (fval 6755399441055744 (-51))).
  { eapply (mul_range li 0.3 3); [exact Hli | const_range | reflexivity | closed_Q]. }
  assert (Habc : inrange (tc * 0.2 + sd * 0.25 + li * 0.3) (fval 8444249301319680 (-50))).
  { eapply (add_range _ _ 7.5); [exact Hab | exact Hc | reflexivity | closed_Q]. }
  assert (Ht : inrange (op / 10) (fval 5629499534213120 (-49))).
  { eapply (div_range op 10 10); [exact Hop | vm_compute; reflexivity | closed_Q
                                 | reflexivity | closed_Q]. }
  assert (Hd : inrange (op / 10 * 0.25) (fval 5629499534213120 (-51))).
  { eapply (mul_range _ 0.25 2.5); [exact Ht | const_range | reflexivity | closed_Q]. }
  assert (Hr : inrange (tc * 0.2 + sd * 0.25 + li * 0.3 + op / 10 * 0.25)
                       (fval 5629499534213120 (-49))).
  { eapply (add_range _ _ 10); [exact Habc | exact Hd | reflexivity | closed_Q]. }
  eapply leb_of_inrange; [| exact Hr |]; [vm_compute; reflexivity | closed_Q].
Qed.


(** ** A float divided by itself, and by a larger float *)

Lemma SFdiv_self (m : positive) (e : Z) :
  SFdiv prec emax (S754_finite false m e) (S754_finite false m e)
  = S754_finite false 4503599627370496 (-52).
Proof.
  cbn [SFdiv xorb]. unfold SFdiv_core_binary.
  replace (Zdigits2 (Zpos m) + e - (Zdigits2 (Zpos m) + e))%Z with 0%Z by lia.
  replace (e - e)%Z with 0%Z by lia.
  change (Z.min (fexp prec emax 0) 0) with (-53)%Z.
  change (0 - -53)%Z with 53%Z. cbv iota.
  rewrite Z.shiftl_mul_pow2 by lia.
  pose proof (Z_div_mod (Zpos m * 2 ^ 53) (Zpos m) ltac:(lia)) as Hdiv.
  destruct (Z.div_eucl (Zpos m * 2 ^ 53) (Zpos m)) as [q r]. destruct Hdiv as [Hqr Hr].
  assert (Hq : q = (2 ^ 53)%Z) by nia.
  assert (Hr0 : r = 0%Z) by nia.
  subst q r.
  assert (Hloc : new_location (Zpos m) 0 = loc_Exact).
  { unfold new_location, new_location_even, new_location_odd.
    destruct (Z.even (Zpos m)); reflexivity. }
  rewrite Hloc. vm_compute. reflexivity.
Qed.

Lemma div_self (x : float) (v : Q) : F2Q x = Some v -> 0 < v -> (x / x)%float = 1%float.
Proof.
  intros Hv Hpos. apply Prim2SF_inj. rewrite FloatAxioms.div_spec.
  destruct (nonneg_cases _ v Hv ltac:(lra)) as [(s & _ & Hz) | (m & e & -> & _)]; [lra |].
  apply SFdiv_self.
Qed.

(** Two floats that differ are at least one part in [2^53] apart. *)
Lemma lt_gap (x y : float) (vx vy : Q) :
  F2Q x = Some vx -> F2Q y = Some vy -> 0 <= vx -> vx < vy ->
  vx * pow2 53 <= vy * (pow2 53 - 1).
Proof.
  intros Hx Hy Hx0 Hlt.
  assert (H53 : pow2 53 == 9007199254740992) by reflexivity.
  pose proof (Prim2SF_valid x) as HvX. pose proof (Prim2SF_valid y) as HvY.
  unfold F2Q in Hx, Hy.
  destruct (nonneg_cases _ vx Hx Hx0) as [(sx & _ & Hxz) | (mx & ex & HX & Hxv)]; [nra |].
  destruct (nonneg_cases _ vy Hy ltac:(lra)) as [(sy & _ & Hyz) | (my & ey & HY & Hyv)]; [lra |].
  rewrite HX in HvX. rewrite HY in HvY. cbn [valid_binary] in HvX, HvY.
  destruct (bounded_facts _ _ HvX) as (Hmx & Hex & _).
  destruct (bounded_facts _ _ HvY) as (Hmy & Hey & Hny).
  pose proof (pow2_pos ex) as Hpx. pose proof (pow2_pos ey) as Hpy.
  rewrite Hxv, Hyv, H53. unfold fval.
  destruct (Z.lt_trichotomy ex ey) as [Hee | [Hee | Hee]].
  - assert (Hpp : 2 * pow2 ex <= pow2 ey) by (rewrite <- pow2_succ; apply pow2_le; lia).
    assert (HmxQ : inject_Z (Zpos mx) <= 9007199254740991).
    { change 9007199254740991 with (inject_Z 9007199254740991). rewrite <- Zle_Qle. lia. }
    assert (HmyQ : 4503599627370496 <= inject_Z (Zpos my)).
    { change 4503599627370496 with (inject_Z 4503599627370496). rewrite <- Zle_Qle.
      destruct Hny; lia. }
    apply Qle_trans with (9007199254740991 * pow2 ex * 9007199254740992).
    + apply Qmult_le_compat_r; [| lra]. apply Qmult_le_compat_r; lra.
    + apply Qle_trans with (4503599627370496 * pow2 ey * (9007199254740992 - 1)).
      * nra.
      * apply Qmult_le_compat_r; [| lra]. apply Qmult_le_compat_r; lra.
  - subst ey.
    assert (Hm : (Zpos mx < Zpos my)%Z).
    { rewrite Hxv, Hyv in Hlt. unfold fval in Hlt.
      apply Qmult_lt_r in Hlt; [| exact Hpx]. now rewrite <- Zlt_Qlt in Hlt. }
    assert (HZ : (Zpos mx * 9007199254740992 <= Zpos my * 9007199254740991)%Z) by lia.
    rewrite Zle_Qle in HZ.
    rewrite !inject_Z_mult in HZ.
    change (inject_Z 9007199254740992) with 9007199254740992 in HZ.
    change (inject_Z 9007199254740991) with 9007199254740991 in HZ.
    nra.
  - exfalso. pose proof (fval_lt_exp my ey mx ex HvY HvX Hee) as Hcontra.
    rewrite Hxv, Hyv in Hlt. lra.
Qed.


(** ** Negative numerators *)

Lemma shr_1_nonneg (mrs : shr_record) : (0 <= shr_m mrs)%Z -> (0 <= shr_m (shr_1 mrs))%Z.
Proof. destruct mrs as [[| [p | p |] | p] r s]; cbn; lia. Qed.

Lemma iter_shr_nonneg (p : positive) (mrs : shr_record) :
  (0 <= shr_m mrs)%Z -> (0 <= shr_m (SpecFloat.iter_pos shr_1 p mrs))%Z.
Proof.
  revert mrs. induction p as [p IH | p IH |]; intros mrs Hm; cbn [SpecFloat.iter_pos].
  - apply IH, IH, shr_1_nonneg, Hm.
  - apply IH, IH, Hm.
  - apply shr_1_nonneg, Hm.
Qed.

Lemma shr_nonneg (mrs : shr_record) (e n : Z) :
  (0 <= shr_m mrs)%Z -> (0 <= shr_m (shr mrs e n).1)%Z.
Proof.
  intros Hm. destruct n as [| p | p]; cbn [shr fst]; try exact Hm.
  now apply iter_shr_nonneg.
Qed.

Lemma round_aux_neg_class (m e : Z) (l : location) :
  (0 <= m)%Z -> nonpos_class (binary_round_aux prec emax true m e l).
Proof.
  intros Hm. unfold binary_round_aux, shr_fexp.
  pose proof (shr_nonneg (shr_record_of_loc m l) e
                (fexp prec emax (Zdigits2 m + e) - e)) as H1.
  rewrite shr_m_record in H1. specialize (H1 Hm).
  destruct (shr (shr_record_of_loc m l) e _) as [mrs e1]. cbn [fst] in H1.
  pose proof (rne_bounds mrs) as Hk.
  set (k := round_nearest_even (shr_m mrs) (loc_of_shr_record mrs)) in *.
  pose proof (shr_nonneg (shr_record_of_loc k loc_Exact) e1
                (fexp prec emax (Zdigits2 k + e1) - e1)) as H2.
  rewrite shr_m_record in H2. specialize (H2 ltac:(lia)).
  destruct (shr (shr_record_of_loc k loc_Exact) e1 _) as [mrs2 e2]. cbn [fst] in H2.
  destruct (shr_m mrs2) as [| p | p]; [exact I | | lia].
  destruct (e2 <=? emax - prec)%Z; exact I.
Qed.

Lemma SFdiv_neg_class (m : positive) (e : Z) (m2 : positive) (e2 : Z) :
  nonpos_class (SFdiv prec emax (S754_finite true m e) (S754_finite false m2 e2)).
Proof.
  cbn [SFdiv xorb].
  destruct (div_core_spec m e m2 e2) as (x & [Hq _] & _).
  destruct (SFdiv_core_binary prec emax (Zpos m) e (Zpos m2) e2) as [[mz ez] lz].
  cbn [fst snd] in Hq. rewrite shr_m_record in Hq.
  now apply round_aux_neg_class.
Qed.

Lemma SFmul_neg_class (X : spec_float) (m : positive) (e : Z) :
  nonpos_class X -> nonpos_class (SFmul prec emax X (S754_finite false m e)).
Proof.
  destruct X as [[] | [] | | [] mx ex]; cbn [nonpos_class]; try contradiction; intros _.
  - exact I.
  - exact I.
  - cbn [SFmul xorb]. apply round_aux_neg_class. lia.
Qed.

Lemma nonpos_ltb (X : spec_float) (m : positive) (e : Z) :
  nonpos_class X -> SFltb X (S754_finite false m e) = true.
Proof.
  destruct X as [[] | [] | | [] mx ex]; cbn [nonpos_class]; try contradiction; reflexivity.
Qed.

(** ** The radar-chart value [x / y * 100] *)

Lemma eqb_eq_pos (x y : float) (vy : Q) :
  F2Q y = Some vy -> 0 < vy -> PrimFloat.eqb x y = true -> x = y.
Proof.
  intros Hy Hpos Heq. apply Prim2SF_inj.
  rewrite FloatAxioms.eqb_spec in Heq. unfold SFeqb, F2Q in *.
  destruct (nonneg_cases _ vy Hy ltac:(lra)) as [(s & _ & Hz) | (m & e & HY & _)]; [lra |].
  rewrite HY in Heq |- *.
  destruct (Prim2SF x) as [sx | sx | | sx mx ex]; cbn [SFcompare] in Heq;
    [discriminate Heq | destruct sx; discriminate Heq | discriminate Heq |].
  destruct sx; [discriminate Heq |].
  destruct (Z.compare_spec ex e) as [Hee | _ | _]; try discriminate Heq.
  change (Pos.compare_cont Eq mx m) with (mx ?= m)%positive in Heq.
  destruct (Pos.compare_spec mx m) as [Hmm | _ | _]; try discriminate Heq.
  now rewrite Hee, Hmm.
Qed.

Lemma scaled_max (x y : float) (vy : Q) :
  F2Q y = Some vy -> 0 < vy -> PrimFloat.eqb x y = true ->
  (x / y * 100)%float = 100%float.
Proof.
  intros Hy Hpos Heq.
  rewrite (eqb_eq_pos x y vy Hy Hpos Heq).
  rewrite (div_self y vy Hy Hpos). reflexivity.
Qed.

Lemma scaled_range (x y : float) (vx vy : Q) :
  F2Q x = Some vx -> F2Q y = Some vy -> 0 <= vx <= vy -> 0 < vy ->
  PrimFloat.leb 0 (x / y * 100) = true /\ PrimFloat.leb (x / y * 100) 100 = true.
Proof.
  intros Hx Hy Hr Hpos.
  assert (Hq : inrange (x / y) (fval 4503599627370496 (-52))).
  { unfold inrange, F2Q. rewrite FloatAxioms.div_spec.
    apply SFdiv_upper with vx vy; auto; try lra.
    apply below_mid_le.
    assert (H1 : fval 4503599627370496 (-52) == 1) by reflexivity.
    rewrite H1. apply Qle_shift_div_r; lra. }
  assert (Hs : inrange (x / y * 100) (fval 7036874417766400 (-46))).
  { eapply (mul_range _ 100 100); [exact Hq | const_range | reflexivity | closed_Q]. }
  eapply leb_of_inrange; [| exact Hs |]; [vm_compute; reflexivity | closed_Q].
Qed.

Lemma scaled_lt (x y : float) (vx vy : Q) :
  F2Q x = Some vx -> F2Q y = Some vy -> 0 < vy -> vx < vy ->
  PrimFloat.ltb (x / y * 100) 100 = true.
Proof.
  intros Hx Hy Hpos Hlt.
  destruct (Qlt_le_dec vx 0) as [Hneg | Hnn].
  - rewrite FloatAxioms.ltb_spec, FloatAxioms.mul_spec, FloatAxioms.div_spec.
    change (Prim2SF 100) with (S754_finite false 7036874417766400 (-46)).
    apply nonpos_ltb, SFmul_neg_class.
    unfold F2Q in Hx, Hy.
    destruct (nonneg_cases _ vy Hy ltac:(lra)) as [(s & _ & Hz) | (my & ey & -> & _)]; [lra |].
    destruct (Prim2SF x) as [sx | sx | | sx mx ex]; try discriminate Hx.
    + injection Hx as <-. lra.
    + destruct (SF2Q_finite sx mx ex) as (v & Hv & Hveq).
      rewrite Hv in Hx. injection Hx as <-.
      destruct sx; [apply SFdiv_neg_class |].
      pose proof (fval_pos mx ex). lra.
  - pose proof (lt_gap x y vx vy Hx Hy Hnn Hlt) as Hgap.
    assert (Hq : inrange (x / y) (fval 9007199254740991 (-53))).
    { unfold inrange, F2Q. rewrite FloatAxioms.div_spec.
      apply SFdiv_upper with vx vy; auto.
      apply below_mid_le.
      assert (H1 : fval 9007199254740991 (-53) == (pow2 53 - 1) / pow2 53) by reflexivity.
      rewrite H1. pose proof (pow2_pos 53).
      apply Qle_shift_div_r; [exact Hpos |].
      assert (H2 : (pow2 53 - 1) / pow2 53 * vy == vy * (pow2 53 - 1) / pow2 53)
        by (field; lra).
      rewrite H2. apply Qle_shift_div_l; lra. }
    assert (Hs : inrange (x / y * 100) (fval 7036874417766399 (-46))).
    { eapply (mul_range _ 100 (next_down 100)); [exact Hq | const_range | reflexivity | closed_Q]. }
    destruct Hs as (v & Hv & Hvr).
    apply (ltb_F2Q _ 100 v (fval 7036874417766400 (-46)) Hv); [reflexivity |].
    assert (fval 7036874417766399 (-46) < fval 7036874417766400 (-46)) by closed_Q.
    lra.
Qed.

End Bounds64.

(** ** The normalizer in binary64 *)

Lemma finite_float_inv (v : pyval float) :
  finite_float v = true -> exists x, v = PyFloat x /\ F2Q x = Some (value64 v).
Proof.
  destruct v as [n | x]; cbn [finite_float value64]; [discriminate |].
  destruct (F2Q x) as [q |] eqn:Hq; [| discriminate]. intros _. eauto.
Qed.

Lemma py_gt_binary64 (a b : pyval float) :
  finite_float a = true -> finite_float b = true ->
  (py_gt a b = true <-> (value64 b < value64 a)%Q).
Proof.
  intros Ha Hb.
  destruct (finite_float_inv a Ha) as (x & -> & Hx).
  destruct (finite_float_inv b Hb) as (y & -> & Hy).
  cbn [py_gt fl_gtb binary64]. now apply ltb_F2Q.
Qed.

(** On finite floats [max] returns a finite float that bounds the list. *)
Lemma py_max_binary64 (l : list (pyval float)) (mx : pyval float) :
  Forall (fun v => finite_float v = true) l ->
  py_max l = Ok mx ->
  finite_float mx = true /\ Forall (fun v => (value64 v <= value64 mx)%Q) l.
Proof.
  destruct l as [| a l]; cbn [py_max]; [discriminate |].
  intros Hfin [= <-]. inversion Hfin as [| ? ? Ha Hl]; subst.
  assert (Hgen : forall (l : list (pyval float)) (a : pyval float),
             finite_float a = true -> Forall (fun v => finite_float v = true) l ->
             let r := fold_left (fun m x => if py_gt x m then x else m) l a in
             finite_float r = true
             /\ (value64 a <= value64 r)%Q
             /\ Forall (fun v => (value64 v <= value64 r)%Q) l).
  { clear. induction l as [| x l IH]; intros a Ha Hl; cbn [fold_left].
    - split; [exact Ha |]. split; [apply Qle_refl | constructor].
    - inversion Hl as [| ? ? Hx Hl']; subst.
      destruct (py_gt x a) eqn:Hgt.
      + destruct (IH x Hx Hl') as (Hr & Hxr & Hall).
        apply py_gt_binary64 in Hgt; [| assumption | assumption].
        split; [exact Hr |]. split; [| constructor; assumption].
        eapply Qle_trans; [apply Qlt_le_weak, Hgt | exact Hxr].
      + destruct (IH a Ha Hl') as (Hr & Har & Hall).
        assert (Hle : (value64 x <= value64 a)%Q).
        { apply Qnot_lt_le. intros Hlt.
          apply (py_gt_binary64 x a Hx Ha) in Hlt. congruence. }
        split; [exact Hr |]. split; [exact Har |].
        constructor; [| exact Hall]. eapply Qle_trans; [exact Hle | exact Har]. }
  destruct (Hgen l a Ha Hl) as (Hr & Har & Hall).
  split; [exact Hr | constructor; assumption].
Qed.

Lemma is_zero_positive (m : float) : PrimFloat.ltb 0 m = true -> PrimFloat.is_zero m = false.
Proof.
  intros Hpos. unfold PrimFloat.is_zero.
  rewrite FloatAxioms.eqb_spec. rewrite FloatAxioms.ltb_spec in Hpos.
  change (Prim2SF 0) with (S754_zero false) in Hpos.
  change (Prim2SF PrimFloat.zero) with (S754_zero false).
  unfold SFeqb, SFltb in *.
  destruct (Prim2SF m) as [s | s | | s mm e]; cbn in *; try discriminate; try reflexivity.
  - destruct s; [discriminate | reflexivity].
  - destruct s; [discriminate | reflexivity].
Qed.

Lemma ltb_not_eqb (x y : float) : PrimFloat.ltb x y = true -> PrimFloat.eqb x y = false.
Proof.
  rewrite FloatAxioms.ltb_spec, FloatAxioms.eqb_spec. unfold SFltb, SFeqb.
  destruct (SFcompare (Prim2SF x) (Prim2SF y)) as [[] |]; now try discriminate.
Qed.

(** The output of the loop for a book whose value is the float [x]. *)
Lemma normalized_metric_binary64 (d : dataset float) (metric book : string)
    (v : pyval float) (column : list (pyval float)) (m : float) :
  field d book "structural_analysis" metric = Ok v ->
  finite_float v = true ->
  omap (fun b => field d b "structural_analysis" metric) books = Ok column ->
  py_max column = Ok (PyFloat m) ->
  PrimFloat.ltb 0 m = true ->
  normalized_metric d metric book = Ok (scaled64 m v).
Proof.
  intros Hv Hfin Hcol Hmax Hpos.
  destruct (finite_float_inv v Hfin) as (x & -> & _).
  unfold normalized_metric.
  rewrite Hv; cbn [mbind outcome_bind].
  rewrite Hcol; cbn [mbind outcome_bind].
  rewrite Hmax; cbn [mbind outcome_bind].
  unfold py_truediv. cbn [py_is_zero fl_is_zero binary64].
  rewrite (is_zero_positive m Hpos). cbn [mbind outcome_bind py_mul py_arith].
  rewrite (Binary64.to_float_small 100 100) by (cbn; auto 6).
  reflexivity.
Qed.

Lemma Forall2_with_Forall {A B} (P : A -> B -> Prop) (Q : B -> Prop)
    (l : list A) (k : list B) :
  Forall2 P l k -> Forall Q k -> Forall2 (fun a b => P a b /\ Q b) l k.
Proof.
  induction 1 as [| a b l k Hab _ IH]; intros HQ; [constructor |].
  inversion HQ; subst. constructor; auto.
Qed.

(** For a metric whose three values are finite floats with a positive
    maximum [m]: the outputs are the values scaled by [m]; an output is 100
    exactly when its book holds the maximum; the output of a non-negative
    value lies between 0 and 100. *)
Lemma normalizer_binary64 (d : dataset float) (metric : string)
    (column : list (pyval float)) (m : float) :
  omap (fun b => field d b "structural_analysis" metric) books = Ok column ->
  Forall (fun v => finite_float v = true) column ->
  py_max column = Ok (PyFloat m) ->
  PrimFloat.ltb 0 m = true ->
  cross_book_normalizer d metric = Ok (map (scaled64 m) column)
  /\ Forall (fun v => is_100 (scaled64 m v) = holds m v) column
  /\ Forall (fun v => nonneg_float v = true -> in_0_100 (scaled64 m v) = true) column.
Proof.
  intros Hcol Hfin Hmax Hpos.
  destruct (py_max_binary64 column (PyFloat m) Hfin Hmax) as [Hmfin Hub].
  destruct (finite_float_inv (PyFloat m) Hmfin) as (m' & [= <-] & Hm).
  set (vm := value64 (PyFloat m)) in *.
  assert (Hvm : (0 < vm)%Q) by (apply (ltb_F2Q 0 m 0 vm); [reflexivity | exact Hm | exact Hpos]).
  split; [| split].
  - unfold cross_book_normalizer. apply Ok_omap, Forall2_fmap_r.
    eapply Forall2_impl;
      [exact (Forall2_with_Forall _ _ _ _ (omap_Ok _ _ _ Hcol) Hfin) |].
    intros b v [Hbv Hv]. cbn beta in Hbv.
    now apply normalized_metric_binary64 with column.
  - eapply Forall_impl; [exact (proj2 (Forall_and _ _) (conj Hfin Hub)) |].
    intros v [Hv Hle]. cbn beta in Hv, Hle.
    destruct (finite_float_inv v Hv) as (x & -> & Hx).
    cbn [scaled64 is_100 holds].
    destruct (PrimFloat.eqb x m) eqn:Heq.
    + now rewrite (scaled_max x m vm Hm Hvm Heq).
    + apply ltb_not_eqb, (scaled_lt x m _ vm Hx Hm Hvm).
      apply Qle_lt_or_eq in Hle. destruct Hle as [Hlt | Heqv]; [exact Hlt |].
      apply (eqb_F2Q x m _ vm Hx Hm) in Heqv. congruence.
  - eapply Forall_impl; [exact (proj2 (Forall_and _ _) (conj Hfin Hub)) |].
    intros v [Hv Hle] Hnn. cbn beta in Hv, Hle.
    destruct (finite_float_inv v Hv) as (x & -> & Hx).
    cbn [scaled64 in_0_100 nonneg_float] in *.
    assert (Hx0 : (0 <= value64 (PyFloat x))%Q)
      by (apply (leb_F2Q 0 x 0 _); [reflexivity | exact Hx | exact Hnn]).
    destruct (scaled_range x m _ vm Hx Hm (conj Hx0 Hle) Hvm) as [H0 H100].
    now rewrite H0, H100.
Qed.

Lemma no_cross_contamination_witness :
  composite_of coran_zeroed "Torah" = composite_of load_advanced_data "Torah"
  /\ complexity_of coran_zeroed "Torah" = complexity_of load_advanced_data "Torah".
Proof.
  apply (no_cross_contamination load_advanced_data coran_zeroed
           "Coran" "Torah" "structural_analysis" "thematic_cohesion" (PyFloat 0%float)).
  - discriminate.
  - reflexivity.
Defined.

(** C4. For every book record whose four fields lie in their documented
    ranges (thematic_cohesion, semantic_density and legal_influence between
    0 and 10, oral_preservation between 0 and 100), the composite score the
    dashboard computes is a float between 0 and 10. *)
Theorem composite_score_range (d : dataset float) (book : string) (tc sd li op : float) :
  field d book "structural_analysis" "thematic_cohesion" = Ok (PyFloat tc) ->
  field d book "linguistic_features" "semantic_density" = Ok (PyFloat sd) ->
  field d book "historical_impact" "legal_influence" = Ok (PyFloat li) ->
  field d book "linguistic_features" "oral_preservation" = Ok (PyFloat op) ->
  PrimFloat.leb 0 tc = true -> PrimFloat.leb tc 10 = true ->
  PrimFloat.leb 0 sd = true -> PrimFloat.leb sd 10 = true ->
  PrimFloat.leb 0 li = true -> PrimFloat.leb li 10 = true ->
  PrimFloat.leb 0 op = true -> PrimFloat.leb op 100 = true ->
  exists r, composite_of d book = Ok (PyFloat r)
            /\ PrimFloat.leb 0 r = true /\ PrimFloat.leb r 10 = true.
Proof.
  intros Htc Hsd Hli Hop Rtc0 Rtc Rsd0 Rsd Rli0 Rli Rop0 Rop.
  eexists. split; [apply (Binary64.composite_of_binary64 d book tc sd li op); assumption |].
  apply composite_range; assumption.
Qed.

Lemma composite_score_range_witness :
  exists r, composite_of (load_advanced_data : dataset float) "Bible" = Ok (PyFloat r)
            /\ PrimFloat.leb 0 r = true /\ PrimFloat.leb r 10 = true.
Proof.
  apply (composite_score_range load_advanced_data "Bible" 8.5 8.8 9.2 97.8);
    vm_compute; reflexivity.
Defined.

(** C5. What the loop of [create_structural_analysis] hands to the radar
    chart for a book is, metric by metric, the book's value divided by the
    maximum of the three books' values for that metric, times 100.  When the
    three values are finite floats and their maximum is positive, the outputs
    are these quotients, and the output of every non-negative value lies
    between 0 and 100.  For the three book records of the dataset and each of
    the five metric names (one of them integer-valued) the maximum is at least
    each of the three values and every output lies between 0 and 100. *)
Theorem normalizer_contract :
  (forall (d : dataset float) (book : string) (l : list (pyval float)),
      normalized d book = Ok l ->
      Forall2 (fun metric x => normalized_metric d metric book = Ok x) metrics l)
  /\ (forall (d : dataset float) (metric : string) (column : list (pyval float)) (m : float),
        omap (fun b => field d b "structural_analysis" metric) books = Ok column ->
        Forall (fun v => finite_float v = true) column ->
        py_max column = Ok (PyFloat m) ->
        PrimFloat.ltb 0 m = true ->
        cross_book_normalizer d metric = Ok (map (scaled64 m) column)
        /\ Forall (fun v => nonneg_float v = true -> in_0_100 (scaled64 m v) = true) column)
  /\ Forall (fun metric =>
       exists column mx out,
         omap (fun b => field (load_advanced_data : dataset float) b
                          "structural_analysis" metric) books = Ok column
         /\ py_max column = Ok mx
         /\ Forall (fun v => py_gt v mx = false) column
         /\ omap (fun v => q ← py_truediv v mx; py_mul q (PyInt 100)) column = Ok out
         /\ cross_book_normalizer load_advanced_data metric = Ok out
         /\ Forall (fun x => in_0_100 x = true) out) metrics
  /\ Forall (fun book =>
       exists l, normalized (load_advanced_data : dataset float) book = Ok l
                 /\ Forall (fun x => in_0_100 x = true) l) books.
Proof.
  split; [| split; [| split]].
  - intros d book l. apply normalized_metricwise.
  - intros d metric column m Hcol Hfin Hmax Hpos.
    destruct (normalizer_binary64 d metric column m Hcol Hfin Hmax Hpos) as (H1 & _ & H3).
    now split.
  - unfold metrics.
    repeat (constructor;
      [ do 3 eexists;
        split; [vm_compute; reflexivity |];
        split; [vm_compute; reflexivity |];
        split; [repeat constructor |];
        split; [vm_compute; reflexivity |];
        split; [vm_compute; reflexivity |];
        repeat constructor |]).
    constructor.
  - unfold books.
    repeat (constructor;
      [ eexists; split; [vm_compute; reflexivity | repeat constructor] |]).
    constructor.
Qed.

(** Two books that share the maximum both get 100. *)
Lemma exactly_one_hundred_fails :
  some_positive tied "thematic_cohesion"
  /\ (exists x, cross_book_normalizer tied "thematic_cohesion"
                = Ok [PyFloat 100%float; PyFloat 100%float; PyFloat x]
                /\ PrimFloat.ltb x 100 = true)
  /\ ~ exactly_one_hundred_spec tied "thematic_cohesion".
Proof.
  assert (Hpos : some_positive tied "thematic_cohesion").
  { exists "Coran", (PyFloat 9.2%float).
    split; [now left |]. split; vm_compute; reflexivity. }
  split; [exact Hpos |]. split.
  - eexists. split; vm_compute; reflexivity.
  - intros Hclaim. destruct (Hclaim Hpos) as (out & Hout & Hcount).
    vm_compute in Hout. injection Hout as <-.
    vm_compute in Hcount. discriminate.
Qed.

Lemma hundreds_scaled (m : float) (column : list (pyval float)) :
  Forall (fun v => is_100 (scaled64 m v) = holds m v) column ->
  hundreds (map (scaled64 m) column) = length (List.filter (holds m) column).
Proof.
  unfold hundreds. induction 1 as [| v l Hv _ IH]; cbn [map List.filter]; [reflexivity |].
  rewrite Hv. destruct (holds m v); cbn [length]; now rewrite IH.
Qed.

Lemma filter_length_pos {A} (f : A -> bool) (l : list A) (a : A) :
  In a l -> f a = true -> (1 <= length (List.filter f l))%nat.
Proof.
  intros Hin Hfa.
  assert (Hf : In a (List.filter f l)) by (apply filter_In; auto).
  destruct (List.filter f l); [destruct Hf | cbn; lia].
Qed.

(** C6, as the code has it.  For a metric whose three values are finite
    floats with a positive maximum, an output equals 100 exactly when its book
    holds the maximum: the number of outputs equal to 100 is the number of
    books whose value is the maximum, which is at least one, and it is one
    when a single book holds the maximum.  That is the case of each of the
    five structural metrics of the static dataset. *)
Theorem hundred_iff_maximum (d : dataset float) (metric : string)
    (column : list (pyval float)) (m : float) :
  omap (fun b => field d b "structural_analysis" metric) books = Ok column ->
  Forall (fun v => finite_float v = true) column ->
  py_max column = Ok (PyFloat m) ->
  PrimFloat.ltb 0 m = true ->
  (exists out,
      cross_book_normalizer d metric = Ok out
      /\ Forall2 (fun v o => is_100 o = holds m v) column out
      /\ hundreds out = length (List.filter (holds m) column)
      /\ (1 <= hundreds out)%nat
      /\ (length (List.filter (holds m) column) = 1%nat -> hundreds out = 1%nat))
  /\ Forall (fun metric =>
               exists out, cross_book_normalizer (load_advanced_data : dataset float) metric
                           = Ok out
                           /\ hundreds out = 1%nat) metrics.
Proof.
  intros Hcol Hfin Hmax Hpos. split.
  - destruct (normalizer_binary64 d metric column m Hcol Hfin Hmax Hpos) as (H1 & H2 & _).
    exists (map (scaled64 m) column).
    split; [exact H1 |]. split; [| split; [| split]].
    + apply Forall2_fmap_r, Forall_Forall2_diag. exact H2.
    + now apply hundreds_scaled.
    + rewrite (hundreds_scaled m column H2).
      apply filter_length_pos with (PyFloat m); [now apply py_max_In |].
      cbn [holds]. apply ltb_not_eqb in Hpos.
      rewrite FloatAxioms.eqb_spec in *. unfold SFeqb in *.
      change (Prim2SF 0) with (S754_zero false) in Hpos.
      destruct (py_max_binary64 column (PyFloat m) Hfin Hmax) as [Hmfin _].
      destruct (finite_float_inv _ Hmfin) as (m' & [= <-] & Hm).
      destruct (compare_F2Q m m _ _ Hm Hm) as (c & -> & Hc).
      destruct c; cbn in Hc; [reflexivity | lra | lra].
    + intros Hone. now rewrite (hundreds_scaled m column H2).
  - unfold metrics.
    repeat (constructor; [eexists; split; vm_compute; reflexivity |]).
    constructor.
Qed.

Lemma hundred_iff_maximum_witness :
  (exists out,
      cross_book_normalizer (load_advanced_data : dataset float) "thematic_cohesion" = Ok out
      /\ Forall2 (fun v o => is_100 o = holds 9.2 v)
                 [PyFloat 9.2%float; PyFloat 8.8%float; PyFloat 8.5%float] out
      /\ hundreds out
         = length (List.filter (holds 9.2)
                     [PyFloat 9.2%float; PyFloat 8.8%float; PyFloat 8.5%float])
      /\ (1 <= hundreds out)%nat
      /\ (length (List.filter (holds 9.2)
                     [PyFloat 9.2%float; PyFloat 8.8%float; PyFloat 8.5%float]) = 1%nat ->
          hundreds out = 1%nat))
  /\ Forall (fun metric =>
               exists out, cross_book_normalizer (load_advanced_data : dataset float) metric
                           = Ok out
                           /\ hundreds out = 1%nat) metrics.
Proof.
  apply (hundred_iff_maximum load_advanced_data "thematic_cohesion"
           [PyFloat 9.2%float; PyFloat 8.8%float; PyFloat 8.5%float] 9.2%float).
  - vm_compute. reflexivity.
  - repeat constructor.
  - vm_compute. reflexivity.
  - reflexivity.
Defined.

(** * Further properties of the dashboard *)

(** ** The metrics page: unknown books, incomplete records *)

Section Failures.
Context {F : Type} `{FloatOps F}.

(** X1. A selected book that [books_data] does not hold: the page stops at the
    first subscript, after its title. *)
Theorem metrics_unknown_book (selected_book : string) (s : session F) :
  selected_book <> "" ->
  books_data (self s) !! selected_book = None ->
  create_advanced_metrics_dashboard selected_book s
  = (Raise (KeyError selected_book),
     {| self := self s;
        screen := screen s ++ [Text "Tableau de Bord des Métriques Avancées"] |}).
Proof.
  intros Hne Hnone. destruct s as [a scr]. cbn [self screen] in *.
  unfold create_advanced_metrics_dashboard.
  unfold mbind at 1 2, M_bind at 1 2, get_self, emit at 1. cbn [self screen].
  destruct (decide (selected_book = "")) as [Heq | _]; [contradiction |].
  unfold mbind at 1, M_bind at 1, lift at 1, getitem at 1.
  now rewrite Hnone.
Qed.



Lemma for_each_emit_Ok {A} (g : A -> event F) (l : list A) (s : session F) :
  (for_each l (fun x => emit (g x)) s).1 = Ok tt.
Proof.
  revert s. induction l as [| x l IH]; intros s; cbn [for_each]; [reflexivity |].
  unfold mbind, M_bind, emit at 1. apply IH.
Qed.





End Failures.

Lemma metrics_unknown_book_witness :
  create_advanced_metrics_dashboard "Psaumes" fresh
  = (Raise (KeyError "Psaumes"),
     {| self := self fresh;
        screen := screen fresh ++ [Text "Tableau de Bord des Métriques Avancées"] |}).
Proof.
  apply (metrics_unknown_book "Psaumes" fresh); [discriminate | reflexivity].
Defined.


(** ** The structure page: what a run needs, and a zero maximum *)

Section StructurePage.
Context {F : Type} `{FloatOps F}.

Lemma py_truediv_Ok (a b x : pyval F) : py_truediv a b = Ok x -> py_is_zero b = false.
Proof. unfold py_truediv. destruct (py_is_zero b); [discriminate | reflexivity]. Qed.

Lemma normalized_metric_Ok (d : dataset F) (metric book : string) (x : pyval F) :
  normalized_metric d metric book = Ok x ->
  exists v column mx,
    field d book "structural_analysis" metric = Ok v
    /\ omap (fun b => field d b "structural_analysis" metric) books = Ok column
    /\ py_max column = Ok mx
    /\ py_is_zero mx = false.
Proof.
  unfold normalized_metric.
  destruct (field d book "structural_analysis" metric) as [v | e] eqn:Hv;
    cbn [mbind outcome_bind]; [| discriminate].
  destruct (omap _ books) as [column | e] eqn:Hc; cbn [mbind outcome_bind]; [| discriminate].
  destruct (py_max column) as [mx | e] eqn:Hm; cbn [mbind outcome_bind]; [| discriminate].
  destruct (py_truediv v mx) as [q | e] eqn:Hq; cbn [mbind outcome_bind]; [| discriminate].
  intros _. exists v, column, mx.
  split; [reflexivity |]. split; [reflexivity |]. split; [exact Hm |].
  exact (py_truediv_Ok _ _ _ Hq).
Qed.

(** X3. What a run of [create_structural_analysis] that raises nothing was
    given: each book supplies the five structural metrics, and the largest of
    the three values of each metric is not zero. *)
Theorem structure_requires (s : session F) :
  (create_structural_analysis s).1 = Ok tt ->
  Forall (fun book =>
            Forall (fun metric =>
                      supplies (books_data (self s)) book "structural_analysis" metric = true)
                   metrics) books
  /\ Forall (fun metric =>
               exists column mx,
                 omap (fun b => field (books_data (self s)) b "structural_analysis" metric)
                      books = Ok column
                 /\ py_max column = Ok mx
                 /\ py_is_zero mx = false) metrics.
Proof.
  intros Hok.
  destruct (structure_shows_scores s Hok) as (rs & scores & Hrs & _ & _).
  assert (Hall : Forall (fun book => Forall (fun metric =>
              exists x, normalized_metric (books_data (self s)) metric book = Ok x) metrics)
            books).
  { clear -Hrs. induction Hrs as [| book r bs rs Hr _ IH]; constructor; [| exact IH].
    apply normalized_metricwise in Hr.
    clear -Hr. induction Hr as [| metric x ms xs Hx _ IH]; constructor; eauto. }
  split.
  - eapply Forall_impl; [exact Hall |]. intros book Hbook. cbn beta in Hbook.
    eapply Forall_impl; [exact Hbook |]. intros metric [x Hx]. cbn beta.
    apply normalized_metric_Ok in Hx. destruct Hx as (v & _ & _ & Hv & _).
    unfold supplies. now rewrite Hv.
  - unfold books in Hall at 1. inversion Hall as [| ? ? Hcoran _]; subst.
    eapply Forall_impl; [exact Hcoran |]. intros metric [x Hx]. cbn beta.
    apply normalized_metric_Ok in Hx. destruct Hx as (v & column & mx & _ & Hc & Hm & Hz).
    eauto.
Qed.

(** X4. A metric whose largest value is zero: the page raises in the first
    pass of its first loop, with nothing drawn under the title. *)
Theorem structure_zero_maximum (s : session F) (metric : string)
    (column : list (pyval F)) (mx : pyval F) :
  In metric metrics ->
  omap (fun b => field (books_data (self s)) b "structural_analysis" metric) books
    = Ok column ->
  py_max column = Ok mx ->
  py_is_zero mx = true ->
  exists e, create_structural_analysis s
            = (Raise e, {| self := self s;
                           screen := screen s ++ [Text "Analyse Structurelle Avancée"] |}).
Proof.
  intros Hin Hcol Hmax Hzero. destruct s as [a scr]. cbn [self screen] in *.
  assert (Hraise : exists e, normalized (books_data a) "Coran" = Raise e).
  { destruct (normalized (books_data a) "Coran") as [r | e] eqn:Hr; [| eauto].
    exfalso. apply normalized_metricwise in Hr.
    assert (Hx : exists x, normalized_metric (books_data a) metric "Coran" = Ok x).
    { clear -Hr Hin. induction Hr as [| m x ms xs Hx _ IH]; [destruct Hin |].
      destruct Hin as [<- | Hin]; eauto. }
    destruct Hx as [x Hx]. apply normalized_metric_Ok in Hx.
    destruct Hx as (v & column' & mx' & _ & Hc & Hm & Hz).
    rewrite Hcol in Hc. injection Hc as <-. rewrite Hmax in Hm. injection Hm as <-.
    congruence. }
  destruct Hraise as [e He]. exists e.
  unfold create_structural_analysis, books.
  unfold mbind at 1 2, M_bind at 1 2, get_self, emit at 1. cbn [self screen for_each].
  unfold mbind at 1 2 3, M_bind at 1 2 3, lift at 1. now rewrite He.
Qed.

End StructurePage.

Lemma structure_requires_witness :
  Forall (fun book =>
            Forall (fun metric =>
                      supplies (books_data (self fresh)) book "structural_analysis" metric
                      = true)
                   metrics) books
  /\ Forall (fun metric =>
               exists column mx,
                 omap (fun b => field (books_data (self fresh)) b "structural_analysis" metric)
                      books = Ok column
                 /\ py_max column = Ok mx
                 /\ py_is_zero mx = false) metrics.
Proof.
  apply (structure_requires fresh). vm_compute. reflexivity.
Defined.

Lemma structure_zero_maximum_witness :
  exists e, create_structural_analysis fresh_zeroed
            = (Raise e, {| self := self fresh_zeroed;
                           screen := screen fresh_zeroed
                                     ++ [Text "Analyse Structurelle Avancée"] |}).
Proof.
  apply (structure_zero_maximum fresh_zeroed "rhythmic_patterns"
           [PyInt 0; PyInt 0; PyInt 0] (PyInt 0)).
  - unfold metrics. cbn [In]. auto 6.
  - vm_compute. reflexivity.
  - reflexivity.
  - reflexivity.
Defined.

(** ** The history page and the data frame *)

Section HistoryPage.
Context {F : Type} `{FloatOps F}.



End HistoryPage.

(** ** Pages that ignore the object; the whole run *)

Lemma reads_only_fixed {A} (m : M A) (r : outcome A) (out : list (event float)) :
  reads_only m ->
  (forall a, m {| self := a; screen := [] |} = (r, {| self := a; screen := out |})) ->
  forall s, m s = (r, {| self := self s; screen := screen s ++ out |}).
Proof.
  intros Hm Hfix [a scr]. cbn [self screen].
  destruct (Hm a) as (r' & out' & Hrun).
  pose proof (Hrun []) as H0. rewrite Hfix in H0. cbn [app] in H0.
  injection H0 as <- <-. apply Hrun.
Qed.

(** X6. The thematic page and the insights page use nothing of the object:
    whatever the four datasets hold, each raises nothing and appends the
    same events to the page. *)
Theorem fixed_pages (s : session float) :
  create_thematic_network_analysis s
  = (Ok tt,
     {| self := self s;
        screen := screen s
                  ++ screen (create_thematic_network_analysis
                               fresh).2 |})
  /\ create_comparative_insights s
     = (Ok tt,
        {| self := self s;
           screen := screen s
                     ++ screen (create_comparative_insights
                                  fresh).2 |}).
Proof.
  split.
  - apply reads_only_fixed; [apply reads_only_thematic |].
    intros a. vm_compute. reflexivity.
  - apply reads_only_fixed; [apply reads_only_insights |].
    intros a. vm_compute. reflexivity.
Qed.



(** ** The fields an expression reads *)

Section Frame.
Context {F : Type} `{FloatOps F}.

Lemma set_field_Ok (d d' : dataset F) (A section name : string) (v : pyval F) :
  set_field d A section name v = Ok d' ->
  exists b s, d !! A = Some b /\ b !! section = Some s
              /\ d' = <[A := <[section := <[name := v]> s]> b]> d.
Proof.
  unfold set_field, getitem; cbn.
  destruct (d !! A) as [b |] eqn:Hb; cbn; [| discriminate].
  destruct (b !! section) as [s |] eqn:Hs; cbn; [| discriminate].
  intros [= <-]. eauto.
Qed.

(** X8. An assignment to a field that the composite expression does not
    subscript leaves every composite score as it was. *)
Theorem composite_reads_four_fields (d d' : dataset F) (A section name : string)
    (v : pyval F) :
  set_field d A section name v = Ok d' ->
  ~ In (section, name) composite_inputs ->
  forall B, composite_of d' B = composite_of d B.
Proof.
  intros Hset Hnot B.
  destruct (set_field_Ok _ _ _ _ _ _ Hset) as (b & s & Hb & Hs & ->).
  destruct (decide (A = B)) as [<- | Hne]; [| now apply composite_of_insert_ne].
  unfold composite_of, getitem. rewrite lookup_insert_eq, Hb. cbn [mbind outcome_bind].
  rewrite !lookup_insert.
  unfold composite_inputs in Hnot. cbn [In] in Hnot.
  repeat case_decide; subst; try discriminate;
    rewrite ?Hs; cbn [mbind outcome_bind];
    repeat (destruct (b !! _); cbn [mbind outcome_bind]; [| reflexivity]);
    unfold composite_score, getitem;
    rewrite ?lookup_insert_ne by (intros ->; apply Hnot; auto 10);
    reflexivity.
Qed.

(** X9. An assignment to a field that the complexity expression does not
    subscript leaves every complexity index as it was. *)
Theorem complexity_reads_four_fields (d d' : dataset F) (A section name : string)
    (v : pyval F) :
  set_field d A section name v = Ok d' ->
  ~ In (section, name) complexity_inputs ->
  forall B, complexity_of d' B = complexity_of d B.
Proof.
  intros Hset Hnot B.
  destruct (set_field_Ok _ _ _ _ _ _ Hset) as (b & s & Hb & Hs & ->).
  destruct (decide (A = B)) as [<- | Hne]; [| now apply complexity_of_insert_ne].
  unfold complexity_of, getitem. rewrite lookup_insert_eq, Hb. cbn [mbind outcome_bind].
  rewrite !lookup_insert.
  unfold complexity_inputs in Hnot. cbn [In] in Hnot.
  repeat case_decide; subst; try discriminate;
    rewrite ?Hs; cbn [mbind outcome_bind];
    repeat (destruct (b !! _); cbn [mbind outcome_bind]; [| reflexivity]);
    unfold complexity_score, getitem;
    rewrite ?lookup_insert_ne by (intros ->; apply Hnot; auto 10);
    reflexivity.
Qed.

Lemma field_set_field_ne (d d' : dataset F) (A section name : string) (v : pyval F)
    (B sec n : string) :
  set_field d A section name v = Ok d' ->
  (sec, n) <> (section, name) ->
  field d' B sec n = field d B sec n.
Proof.
  intros Hset Hne.
  destruct (set_field_Ok _ _ _ _ _ _ Hset) as (b & s & Hb & Hs & ->).
  unfold field, getitem. rewrite lookup_insert.
  destruct (decide (A = B)) as [<- | HAB]; [| reflexivity].
  rewrite Hb. cbn [mbind outcome_bind]. rewrite lookup_insert.
  destruct (decide (section = sec)) as [<- | Hsec]; [| reflexivity].
  rewrite Hs. cbn [mbind outcome_bind].
  rewrite lookup_insert_ne by congruence. reflexivity.
Qed.

Lemma omap_ext {A B} (f g : A -> outcome B) (l : list A) :
  (forall x, f x = g x) -> omap f l = omap g l.
Proof. intros Hfg. induction l as [| x l IH]; cbn [omap]; [reflexivity |]. now rewrite Hfg, IH. Qed.

(** X10. An assignment to anything but the column of a metric leaves the three
    radar values of that metric as they were. *)
Theorem normalizer_reads_one_column (d d' : dataset F) (A section name : string)
    (v : pyval F) (metric : string) :
  set_field d A section name v = Ok d' ->
  (section, name) <> ("structural_analysis", metric) ->
  cross_book_normalizer d' metric = cross_book_normalizer d metric.
Proof.
  intros Hset Hne.
  assert (Hfield : forall B, field d' B "structural_analysis" metric
                             = field d B "structural_analysis" metric).
  { intros B. apply (field_set_field_ne d d' A section name v); [exact Hset | congruence]. }
  unfold cross_book_normalizer. apply omap_ext. intros book.
  unfold normalized_metric. rewrite Hfield.
  now rewrite (omap_ext _ _ books Hfield).
Qed.

End Frame.

Lemma composite_reads_four_fields_witness :
  composite_of torah_raised "Torah" = composite_of (load_advanced_data : dataset float) "Torah".
Proof.
  apply (composite_reads_four_fields load_advanced_data torah_raised
           "Torah" "structural_analysis" "avg_verse_length" (lit 51.2)).
  - reflexivity.
  - unfold composite_inputs. cbn [In]. intros Hin.
    repeat (destruct Hin as [Hin | Hin]; [discriminate Hin |]). destruct Hin.
Defined.

Lemma complexity_reads_four_fields_witness :
  complexity_of torah_raised "Torah" = complexity_of (load_advanced_data : dataset float) "Torah".
Proof.
  apply (complexity_reads_four_fields load_advanced_data torah_raised
           "Torah" "structural_analysis" "avg_verse_length" (lit 51.2)).
  - reflexivity.
  - unfold complexity_inputs. cbn [In]. intros Hin.
    repeat (destruct Hin as [Hin | Hin]; [discriminate Hin |]). destruct Hin.
Defined.

Lemma normalizer_reads_one_column_witness :
  cross_book_normalizer torah_raised "thematic_cohesion"
  = cross_book_normalizer (load_advanced_data : dataset float) "thematic_cohesion".
Proof.
  apply (normalizer_reads_one_column load_advanced_data torah_raised
           "Torah" "structural_analysis" "avg_verse_length" (lit 51.2)).
  - reflexivity.
  - discriminate.
Defined.

(** ** The radar values of one book depend on the other books *)

Section Coupling.

Lemma field_set_field (d d' : dataset float) (A section name : string) (v : pyval float)
    (B : string) :
  set_field d A section name v = Ok d' ->
  field d' B section name = if decide (A = B) then Ok v else field d B section name.
Proof.
  unfold set_field, getitem; cbn.
  destruct (d !! A) as [b |] eqn:Hb; cbn; [| discriminate].
  destruct (b !! section) as [s |] eqn:Hs; cbn; [| discriminate].
  intros [= <-].
  unfold field, getitem. rewrite lookup_insert.
  destruct (decide (A = B)) as [<- | HAB]; [| reflexivity].
  cbn [mbind outcome_bind]. rewrite lookup_insert_eq. cbn [mbind outcome_bind].
  now rewrite lookup_insert_eq.
Qed.

Lemma column_after (f f' : string -> outcome (pyval float)) (A : string) (w : pyval float)
    (l : list string) (column : list (pyval float)) :
  (forall b, f' b = if decide (A = b) then Ok w else f b) ->
  finite_float w = true ->
  Forall2 (fun b x => f b = Ok x) l column ->
  Forall (fun x => finite_float x = true) column ->
  exists column',
    Forall2 (fun b x => f' b = Ok x) l column'
    /\ Forall (fun x => finite_float x = true) column'
    /\ (In A l -> In w column').
Proof.
  intros Hf' Hw Hcol. induction Hcol as [| b x l column Hb _ IH]; intros Hfin.
  - exists []. split; [constructor |]. split; [constructor | intros []].
  - inversion Hfin as [| ? ? Hx Hfin']; subst.
    destruct (IH Hfin') as (column' & Hcol' & Hfin'' & Hin).
    destruct (decide (A = b)) as [<- | Hne].
    + exists (w :: column'). split; [| split].
      * constructor; [| exact Hcol']. rewrite Hf'. now rewrite decide_True.
      * constructor; assumption.
      * intros _. now left.
    + exists (x :: column'). split; [| split].
      * constructor; [| exact Hcol']. rewrite Hf'. now rewrite decide_False.
      * constructor; assumption.
      * intros [-> | HA]; [contradiction | right; auto].
Qed.

(** X11. The radar values couple the books: a book that held the largest value
    of a metric, and so showed 100, no longer shows 100 once the value of
    another book is raised above it. *)
Theorem normalizer_couples_books (d d' : dataset float) (A B metric : string)
    (column : list (pyval float)) (x v : float) :
  In A books -> A <> B ->
  omap (fun b => field d b "structural_analysis" metric) books = Ok column ->
  Forall (fun w => finite_float w = true) column ->
  py_max column = Ok (PyFloat x) ->
  PrimFloat.ltb 0 x = true ->
  field d B "structural_analysis" metric = Ok (PyFloat x) ->
  finite_float (PyFloat v) = true ->
  PrimFloat.ltb x v = true ->
  set_field d A "structural_analysis" metric (PyFloat v) = Ok d' ->
  (exists o, normalized_metric d metric B = Ok o /\ is_100 o = true)
  /\ (exists o', normalized_metric d' metric B = Ok o' /\ is_100 o' = false).
Proof.
  intros HA HAB Hcol Hfin Hmax Hpos HB Hv Hxv Hset.
  destruct (py_max_binary64 column (PyFloat x) Hfin Hmax) as [Hxfin _].
  destruct (finite_float_inv _ Hxfin) as (x' & [= <-] & Hx).
  destruct (finite_float_inv _ Hv) as (v' & [= <-] & Hvq).
  set (vx := value64 (PyFloat x)) in *. set (vv := value64 (PyFloat v)) in *.
  assert (Hx0 : (0 < vx)%Q) by (apply (ltb_F2Q 0 x 0 vx); [reflexivity | exact Hx | exact Hpos]).
  assert (Hlt : (vx < vv)%Q) by (apply (ltb_F2Q x v vx vv); assumption).
  split.
  - exists (scaled64 x (PyFloat x)). split.
    + now apply normalized_metric_binary64 with column.
    + cbn [scaled64 is_100].
      rewrite (scaled_max x x vx Hx Hx0); [reflexivity |].
      apply (eqb_F2Q x x vx vx Hx Hx). reflexivity.
  - pose proof (field_set_field d d' A "structural_analysis" metric (PyFloat v)) as Hafter.
    destruct (column_after _ _ A (PyFloat v) books column
                (fun b => Hafter b Hset) Hv (omap_Ok _ _ _ Hcol) Hfin)
      as (column' & Hcol' & Hfin' & Hin).
    apply Ok_omap in Hcol'. specialize (Hin HA).
    assert (Hmax' : exists mx, py_max column' = Ok mx).
    { destruct column' as [| a l]; [destruct Hin | cbn [py_max]; eauto]. }
    destruct Hmax' as [mx Hmax'].
    destruct (py_max_binary64 column' mx Hfin' Hmax') as [Hmfin Hub].
    destruct (finite_float_inv _ Hmfin) as (m & -> & Hm).
    set (vm := value64 (PyFloat m)) in *.
    assert (Hvm : (vv <= vm)%Q).
    { rewrite List.Forall_forall in Hub. exact (Hub _ Hin). }
    assert (Hm0 : PrimFloat.ltb 0 m = true).
    { apply (ltb_F2Q 0 m 0 vm); [reflexivity | exact Hm | lra]. }
    exists (scaled64 m (PyFloat x)). split.
    + apply normalized_metric_binary64 with column'; try assumption.
      rewrite (Hafter B Hset). now rewrite decide_False.
    + cbn [scaled64 is_100]. apply ltb_not_eqb.
      apply (scaled_lt x m vx vm Hx Hm); lra.
Qed.

Lemma normalizer_couples_books_witness :
  (exists o, normalized_metric load_advanced_data "avg_verse_length" "Coran" = Ok o
             /\ is_100 o = true)
  /\ (exists o', normalized_metric torah_raised "avg_verse_length" "Coran" = Ok o'
                 /\ is_100 o' = false).
Proof.
  apply (normalizer_couples_books load_advanced_data torah_raised "Torah" "Coran"
           "avg_verse_length"
           [PyFloat 25.6%float; PyFloat 18.3%float; PyFloat 22.1%float]
           25.6%float 51.2%float).
  - unfold books. cbn [In]. auto.
  - discriminate.
  - vm_compute. reflexivity.
  - repeat constructor.
  - vm_compute. reflexivity.
  - reflexivity.
  - vm_compute. reflexivity.
  - reflexivity.
  - reflexivity.
  - reflexivity.
Defined.

End Coupling.

(** ** The normalizer on floats of any kind *)

Section FloatColumn.
Local Open Scope float_scope.

(** X12. The normalizer on a metric whose three values are floats of any kind:
    it raises [ZeroDivisionError] when the largest is a zero, and otherwise
    returns the three quotients times 100 and raises nothing. *)
Theorem normalizer_float_column (d : dataset float) (metric : string)
    (column : list (pyval float)) (m : float) :
  omap (fun b => field d b "structural_analysis" metric) books = Ok column ->
  Forall (fun v => is_float v = true) column ->
  py_max column = Ok (PyFloat m) ->
  cross_book_normalizer d metric
  = if PrimFloat.is_zero m then Raise ZeroDivisionError
    else Ok (map (scaled64 m) column).
Proof.
  intros Hcol Hfloat Hmax.
  assert (Heach : forall book v, field d book "structural_analysis" metric = Ok v ->
             is_float v = true ->
             normalized_metric d metric book
             = if PrimFloat.is_zero m then Raise ZeroDivisionError else Ok (scaled64 m v)).
  { intros book v Hv Hf. destruct v as [n | x]; [discriminate |].
    unfold normalized_metric. rewrite Hv; cbn [mbind outcome_bind].
    rewrite Hcol; cbn [mbind outcome_bind]. rewrite Hmax; cbn [mbind outcome_bind].
    unfold py_truediv. cbn [py_is_zero fl_is_zero binary64].
    destruct (PrimFloat.is_zero m); [reflexivity |].
    cbn [mbind outcome_bind py_mul py_arith fl_div fl_mul binary64].
    rewrite (Binary64.to_float_small 100 100) by (cbn; auto 6).
    reflexivity. }
  pose proof (Forall2_with_Forall _ _ _ _ (omap_Ok _ _ _ Hcol) Hfloat) as Hpairs.
  cbn beta in Hpairs.
  unfold cross_book_normalizer.
  destruct (PrimFloat.is_zero m) eqn:Hz.
  - unfold books in *. inversion Hpairs as [| ? v ? ? [Hv Hf] _]; subst.
    cbn [omap]. rewrite (Heach _ _ Hv Hf). reflexivity.
  - apply Ok_omap, Forall2_fmap_r.
    eapply Forall2_impl; [exact Hpairs |].
    intros book v [Hv Hf]. cbn beta. now apply Heach.
Qed.

Lemma normalizer_float_column_witness :
  cross_book_normalizer (load_advanced_data : dataset float) "thematic_cohesion"
  = if PrimFloat.is_zero 9.2 then Raise ZeroDivisionError
    else Ok (map (scaled64 9.2)
               [PyFloat 9.2%float; PyFloat 8.8%float; PyFloat 8.5%float]).
Proof.
  apply (normalizer_float_column load_advanced_data "thematic_cohesion"
           [PyFloat 9.2%float; PyFloat 8.8%float; PyFloat 8.5%float] 9.2%float).
  - vm_compute. reflexivity.
  - repeat constructor.
  - vm_compute. reflexivity.
Defined.

End FloatColumn.

(** ** The means of the header *)

Section Means64.
Local Open Scope float_scope.







End Means64.

(** ** The global complexity score of the linguistic page *)

Section LinguisticPage.
Context {F : Type} `{FloatOps F}.


(** Every pass of a loop that raised nothing ran to its end, and what it
    put on the page is still there after the loop. *)
Lemma for_each_Ok_In {A} (l : list A) (body : A -> M unit) (s : session F) :
  (forall x, reads_only (body x)) ->
  (for_each l body s).1 = Ok tt ->
  forall x, In x l ->
    exists out,
      (forall scr, body x {| self := self s; screen := scr |}
                   = (Ok tt, {| self := self s; screen := scr ++ out |}))
      /\ forall e, In e out -> In e (screen (for_each l body s).2).
Proof.
  intros Hbody. destruct s as [a scr]. cbn [self]. revert scr.
  induction l as [| y l IH]; intros scr Hok x Hin; [destruct Hin |].
  cbn [for_each] in *. unfold mbind, M_bind in *.
  destruct (Hbody y a) as (r & out & Hy). rewrite Hy in *.
  destruct r as [[] | e]; [| discriminate Hok].
  destruct (reads_only_for_each l body Hbody a) as (r' & out' & Hl).
  destruct Hin as [<- | Hin].
  - exists out. split; [exact Hy |].
    intros e He. rewrite Hl. cbn [snd screen]. rewrite !in_app_iff. auto.
  - exact (IH _ Hok x Hin).
Qed.

Ltac run_reads_only :=
  repeat first
    [ apply reads_only_bind; [| intros ?]
    | apply reads_only_emit
    | apply reads_only_lift
    | apply reads_only_get_self
    | apply reads_only_ret ].

(** A run of [create_linguistic_analysis] that raises nothing shows, for
    each book, half the sum of its semantic density and its grammatical
    complexity. *)
Lemma linguistic_shows_scores (s : session F) :
  (create_linguistic_analysis s).1 = Ok tt ->
  Forall (fun book =>
            exists sd gc total score,
              field (books_data (self s)) book "linguistic_features" "semantic_density" = Ok sd
              /\ field (books_data (self s)) book "linguistic_features"
                       "grammatical_complexity" = Ok gc
              /\ py_add sd gc = Ok total
              /\ py_truediv total (PyInt 2) = Ok score
              /\ In (Metric "Score complexité global" (Num score))
                    (screen (create_linguistic_analysis s).2)) books.
Proof.
  destruct s as [a scr].
  destruct (create_linguistic_analysis _) as [r s'] eqn:Hrun.
  cbn [fst snd self screen]. intros ->.
  unfold create_linguistic_analysis in Hrun.
  unfold mbind at 1 2 3 4, M_bind at 1 2 3 4, get_self, emit at 1 2 3 in Hrun.
  cbn [self screen] in Hrun.
  unfold mbind at 1, M_bind at 1, lift at 1 in Hrun.
  destruct (omap _ books) as [rows | e]; [| discriminate Hrun].
  unfold mbind at 1, M_bind at 1 in Hrun.
  match type of Hrun with context [for_each (zip books rows) ?body ?s0] =>
    destruct (reads_only_for_each (zip books rows) body
                ltac:(intros ?; apply reads_only_emit) a) as (r1 & out1 & Hbars);
    pose proof (for_each_emit_Ok (fun bar : string * list (pyval F) => Trace bar.1 bar.2)
                  (zip books rows) s0) as Hr1;
    rewrite Hbars in Hrun, Hr1
  end.
  cbn [fst] in Hr1. subst r1.
  unfold mbind at 1 2, M_bind at 1 2, emit at 1 2 in Hrun. cbn [self screen] in Hrun.
  match type of Hrun with for_each books ?body ?s1 = _ =>
    assert (Hbody : forall x, reads_only (body x)) by (intros x; run_reads_only);
    pose proof (for_each_Ok_In books body s1 Hbody) as Hloop
  end.
  rewrite Hrun in Hloop. cbn [fst snd self] in Hloop. specialize (Hloop eq_refl).
  apply List.Forall_forall. intros book Hin.
  destruct (Hloop book Hin) as (out & Hpass & Hout).
  specialize (Hpass []). clear Hloop Hrun Hbody Hbars.
  unfold mbind, M_bind, emit, lift in Hpass. cbn [self screen app] in Hpass.
  unfold field.
  repeat match type of Hpass with
  | context [match ?x with Ok _ => _ | Raise _ => _ end] =>
      lazymatch x with
      | context [match _ with Ok _ => _ | Raise _ => _ end] => fail
      | _ => destruct x eqn:?; try discriminate Hpass; cbn [self screen] in Hpass
      end
  end.
  injection Hpass as <-.
  do 4 eexists.
  repeat split;
    [ cbn [mbind outcome_bind];
      repeat (match goal with
              | Hx : ?x = Ok _ |- context [?x] => rewrite Hx
              end; cbn [mbind outcome_bind]);
      reflexivity ..
    | eassumption | eassumption
    | apply Hout; cbn [In]; auto 20 ].
Qed.

End LinguisticPage.

Section LinguisticScore64.
Local Open Scope float_scope.

Lemma half_sum_range (sd gc : float) :
  PrimFloat.leb 0 sd = true -> PrimFloat.leb sd 10 = true ->
  PrimFloat.leb 0 gc = true -> PrimFloat.leb gc 10 = true ->
  PrimFloat.leb 0 ((sd + gc) / 2) = true /\ PrimFloat.leb ((sd + gc) / 2) 10 = true.
Proof.
  intros Hsd0 Hsd Hgc0 Hgc.
  eapply inrange_of_leb in Hsd; [| vm_compute; reflexivity | exact Hsd0].
  eapply inrange_of_leb in Hgc; [| vm_compute; reflexivity | exact Hgc0].
  eassert (H1 : inrange (sd + gc) (fval _ _)).
  { eapply (add_range sd gc 20); [exact Hsd | exact Hgc | reflexivity | closed_Q]. }
  eassert (H2 : inrange ((sd + gc) / 2) (fval _ _)).
  { eapply (div_range _ 2 10); [exact H1 | vm_compute; reflexivity | closed_Q
                               | reflexivity | closed_Q]. }
  eapply leb_of_inrange; [| exact H2 |]; [vm_compute; reflexivity | closed_Q].
Qed.

(** X14. The global complexity score of the linguistic page.  For a book whose
    semantic density and grammatical complexity are floats between 0 and 10,
    a run that raises nothing shows [(semantic_density +
    grammatical_complexity) / 2], and this score lies between 0 and 10. *)
Theorem linguistic_global_score (s : session float) (book : string) (sd gc : float) :
  (create_linguistic_analysis s).1 = Ok tt ->
  In book books ->
  field (books_data (self s)) book "linguistic_features" "semantic_density"
    = Ok (PyFloat sd) ->
  field (books_data (self s)) book "linguistic_features" "grammatical_complexity"
    = Ok (PyFloat gc) ->
  PrimFloat.leb 0 sd = true -> PrimFloat.leb sd 10 = true ->
  PrimFloat.leb 0 gc = true -> PrimFloat.leb gc 10 = true ->
  In (Metric "Score complexité global" (Num (PyFloat ((sd + gc) / 2))))
     (screen (create_linguistic_analysis s).2)
  /\ PrimFloat.leb 0 ((sd + gc) / 2) = true
  /\ PrimFloat.leb ((sd + gc) / 2) 10 = true.
Proof.
  intros Hok Hin Hsd Hgc Rsd0 Rsd Rgc0 Rgc.
  split; [| now apply half_sum_range].
  pose proof (linguistic_shows_scores s Hok) as Hall.
  rewrite List.Forall_forall in Hall.
  destruct (Hall book Hin) as (sd' & gc' & total & score & Hsd' & Hgc' & Hadd & Hdiv & Hshown).
  rewrite Hsd in Hsd'. injection Hsd' as <-.
  rewrite Hgc in Hgc'. injection Hgc' as <-.
  cbn [py_add py_arith] in Hadd. injection Hadd as <-.
  unfold py_truediv in Hdiv. cbn [py_is_zero Z.eqb mbind outcome_bind] in Hdiv.
  replace (to_float 2) with (Ok 2%float : outcome float) in Hdiv by (vm_compute; reflexivity).
  cbn [mbind outcome_bind] in Hdiv. injection Hdiv as <-.
  exact Hshown.
Qed.

Lemma linguistic_global_score_witness :
  In (Metric "Score complexité global" (Num (PyFloat ((8.4 + 7.9) / 2))))
     (screen (create_linguistic_analysis fresh).2)
  /\ PrimFloat.leb 0 ((8.4 + 7.9) / 2) = true
  /\ PrimFloat.leb ((8.4 + 7.9) / 2) 10 = true.
Proof.
  apply (linguistic_global_score fresh "Torah" 8.4 7.9);
    try (vm_compute; reflexivity).
  unfold books. cbn [In]. auto.
Defined.

End LinguisticScore64.

(** ** Subtraction, conversion of integers, and the scale of the complexity index *)

Section Subtraction64.
Local Open Scope Q_scope.

(** Rounding a positive integer mantissa that stands for at most a float. *)
Lemma normalize_upper (m : positive) (e : Z) (mb : positive) (eb : Z) :
  bounded prec emax mb eb = true ->
  fval m e <= fval mb eb ->
  exists q, SF2Q (binary_normalize prec emax (Zpos m) e false) = Some q
            /\ 0 <= q <= fval mb eb.
Proof.
  intros Hb Hle. cbn [binary_normalize]. unfold binary_round.
  destruct (shl_align_spec m e (fexp prec emax (Zpos (digits2_pos m) + e)))
    as (Hvalz & Hez & Hdz).
  destruct (shl_align m e (fexp prec emax (Zpos (digits2_pos m) + e))) as [mz ez'].
  cbn [fst snd] in Hvalz, Hez, Hdz.
  apply round_aux_upper with (x := inject_Z (Zpos mz)).
  - apply located_record_exact. lia.
  - cbn [Zdigits2]. rewrite Hdz. lia.
  - exact Hb.
  - apply below_mid_le.
    change (inject_Z (Zpos mz) * pow2 ez') with (fval mz ez'). lra.
Qed.

(** [x - y] for [0 <= y <= x]. *)
Lemma SFsub_upper (X Y : spec_float) (vx vy : Q) (mb : positive) (eb : Z) :
  SF2Q X = Some vx -> SF2Q Y = Some vy -> 0 <= vy -> vy <= vx ->
  bounded prec emax mb eb = true ->
  vx <= fval mb eb ->
  exists q, SF2Q (SFsub prec emax X Y) = Some q /\ 0 <= q <= fval mb eb.
Proof.
  intros Hvx Hvy Hy0 Hyx Hb Hle.
  pose proof (fval_pos mb eb) as Hbpos.
  destruct (nonneg_cases X vx Hvx ltac:(lra)) as [(sx & -> & Hx) | (mx & ex & -> & Hx)];
    destruct (nonneg_cases Y vy Hvy Hy0) as [(sy & -> & Hy) | (my & ey & -> & Hy)].
  - exists 0. split; [destruct sx, sy; reflexivity | lra].
  - exfalso. pose proof (fval_pos my ey). lra.
  - exists vx. split; [exact Hvx | lra].
  - cbn [SFsub cond_Zopp].
    set (ez := Z.min ex ey).
    destruct (shl_align_spec mx ex ez) as (Hvalx & Hex & _).
    destruct (shl_align_spec my ey ez) as (Hvaly & Hey & _).
    set (mx' := (shl_align mx ex ez).1) in *. set (my' := (shl_align my ey ez).1) in *.
    replace ((shl_align mx ex ez).2) with ez in Hvalx by (unfold ez in *; lia).
    replace ((shl_align my ey ez).2) with ez in Hvaly by (unfold ez in *; lia).
    assert (Hdiff : inject_Z (Zpos mx' - Zpos my') * pow2 ez == vx - vy).
    { unfold Zminus. rewrite inject_Z_plus, inject_Z_opp. unfold fval in *. lra. }
    pose proof (pow2_pos ez) as Hpow.
    destruct (Zpos mx' - Zpos my')%Z as [| p | p] eqn:Hp.
    + exists 0. split; [reflexivity | lra].
    + apply normalize_upper; [exact Hb |].
      unfold fval at 1. lra.
    + exfalso.
      assert (Hneg : inject_Z (Zneg p) < 0) by (change 0 with (inject_Z 0); now rewrite <- Zlt_Qlt).
      nra.
Qed.

Lemma sub_range (x y B : float) (vx by_ : Q) (mb : positive) (eb : Z) :
  F2Q x = Some vx -> inrange y by_ -> by_ <= vx ->
  Prim2SF B = S754_finite false mb eb ->
  vx <= fval mb eb ->
  inrange (x - y) (fval mb eb).
Proof.
  intros Hvx (vy & Hvy & Hy) Hle HB Hb.
  destruct (F2Q_finite_pos B mb eb HB) as [Hbd _].
  unfold inrange, F2Q. rewrite FloatAxioms.sub_spec.
  apply SFsub_upper with vx vy; auto; lra.
Qed.

(** [float(n)] for a machine-size natural number: the primitive conversion. *)
Lemma f64_of_int_spec (n : Z) :
  (0 <= n < 2 ^ 63)%Z ->
  Prim2SF (f64_of_int n) = binary_normalize prec emax n 0 false.
Proof.
  intros Hn. unfold f64_of_int.
  assert (Hphi : Uint63.to_Z (Uint63.of_Z n) = n).
  { rewrite Uint63.of_Z_spec. apply Z.mod_small. exact Hn. }
  rewrite <- Hphi at 1. rewrite <- FloatAxioms.of_uint63_spec.
  rewrite SF2Prim_Prim2SF. rewrite FloatAxioms.of_uint63_spec. now rewrite Hphi.
Qed.

Lemma of_int_range (n : Z) (B : float) (mb : positive) (eb : Z) :
  (0 <= n < 2 ^ 63)%Z ->
  Prim2SF B = S754_finite false mb eb ->
  inject_Z n <= fval mb eb ->
  inrange (f64_of_int n) (fval mb eb).
Proof.
  intros Hn HB Hle.
  destruct (F2Q_finite_pos B mb eb HB) as [Hbd _].
  pose proof (fval_pos mb eb) as Hbpos.
  unfold inrange, F2Q. rewrite f64_of_int_spec by exact Hn.
  destruct n as [| p | p]; [| | lia].
  - exists 0. split; [reflexivity | lra].
  - apply normalize_upper; [exact Hbd |].
    unfold fval at 1. rewrite pow2_0. lra.
Qed.

(** A finite float is not an infinity. *)
Lemma finite_not_infinity (x : float) (v : Q) : F2Q x = Some v -> PrimFloat.is_infinity x = false.
Proof.
  unfold F2Q, PrimFloat.is_infinity. rewrite FloatAxioms.eqb_spec, FloatAxioms.abs_spec.
  change (Prim2SF infinity) with (S754_infinity false).
  destruct (Prim2SF x) as [s | s | | s m e]; cbn; try discriminate; reflexivity.
Qed.

Lemma to_float_range (n : Z) (B : float) (mb : positive) (eb : Z) :
  (0 <= n < 2 ^ 63)%Z ->
  Prim2SF B = S754_finite false mb eb ->
  inject_Z n <= fval mb eb ->
  to_float n = Ok (f64_of_int n) /\ inrange (f64_of_int n) (fval mb eb).
Proof.
  intros Hn HB Hle.
  pose proof (of_int_range n B mb eb Hn HB Hle) as Hr.
  split; [| exact Hr].
  destruct Hr as (v & Hv & _).
  unfold to_float. cbn [fl_of_int fl_is_inf binary64].
  now rewrite (finite_not_infinity _ _ Hv).
Qed.

End Subtraction64.

Section ComplexityRange.
Local Open Scope float_scope.

Lemma complexity_range (vr tc rr : float) (rp : Z) :
  PrimFloat.leb 0 vr = true -> PrimFloat.leb vr 1 = true ->
  PrimFloat.leb 0 tc = true -> PrimFloat.leb tc 10 = true ->
  PrimFloat.leb 0 rr = true -> PrimFloat.leb rr 100 = true ->
  (0 <= rp <= 100)%Z ->
  to_float rp = Ok (f64_of_int rp)
  /\ PrimFloat.leb 0 ((vr * 30 + tc * 25 + (100 - rr) * 20 + f64_of_int rp * 0.25) / 100) = true
  /\ PrimFloat.leb ((vr * 30 + tc * 25 + (100 - rr) * 20 + f64_of_int rp * 0.25) / 100) 23.05
     = true.
Proof.
  intros Hvr0 Hvr Htc0 Htc Hrr0 Hrr Hrp.
  eapply inrange_of_leb in Hvr; [| vm_compute; reflexivity | exact Hvr0].
  eapply inrange_of_leb in Htc; [| vm_compute; reflexivity | exact Htc0].
  eapply inrange_of_leb in Hrr; [| vm_compute; reflexivity | exact Hrr0].
  edestruct (to_float_range rp 100) as [Hconv Hrp'];
    [lia | reflexivity | | split; [exact Hconv |]].
  { apply Qle_trans with (inject_Z 100); [rewrite <- Zle_Qle; lia | closed_Q]. }
  eassert (Ha : inrange (vr * 30) (fval _ _)).
  { eapply (mul_range vr 30 30); [exact Hvr | const_range | reflexivity | closed_Q]. }
  eassert (Hb : inrange (tc * 25) (fval _ _)).
  { eapply (mul_range tc 25 250); [exact Htc | const_range | reflexivity | closed_Q]. }
  eassert (Hab : inrange (vr * 30 + tc * 25) (fval _ _)).
  { eapply (add_range _ _ 280); [exact Ha | exact Hb | reflexivity | closed_Q]. }
  eassert (Hk : inrange (100 - rr) (fval _ _)).
  { eapply (sub_range 100 rr 100); [vm_compute; reflexivity | exact Hrr | closed_Q
                                   | reflexivity | closed_Q]. }
  eassert (Hc : inrange ((100 - rr) * 20) (fval _ _)).
  { eapply (mul_range _ 20 2000); [exact Hk | const_range | reflexivity | closed_Q]. }
  eassert (Habc : inrange (vr * 30 + tc * 25 + (100 - rr) * 20) (fval _ _)).
  { eapply (add_range _ _ 2280); [exact Hab | exact Hc | reflexivity | closed_Q]. }
  eassert (Hd : inrange (f64_of_int rp * 0.25) (fval _ _)).
  { eapply (mul_range _ 0.25 25); [exact Hrp' | const_range | reflexivity | closed_Q]. }
  eassert (Ht : inrange (vr * 30 + tc * 25 + (100 - rr) * 20 + f64_of_int rp * 0.25)
                        (fval _ _)).
  { eapply (add_range _ _ 2305); [exact Habc | exact Hd | reflexivity | closed_Q]. }
  eassert (Hq : inrange ((vr * 30 + tc * 25 + (100 - rr) * 20 + f64_of_int rp * 0.25) / 100)
                        (fval _ _)).
  { eapply (div_range _ 100 23.05); [exact Ht | vm_compute; reflexivity | closed_Q
                                    | reflexivity | closed_Q]. }
  eapply leb_of_inrange; [| exact Hq |]; [vm_compute; reflexivity | closed_Q].
Qed.

(** X15. The scale of the structural complexity index.  For a book whose
    vocabulary richness lies between 0 and 1, thematic cohesion between 0 and
    10, repetition rate between 0 and 100 (three floats) and whose count of
    rhythmic patterns lies between 0 and 100, the index is returned and lies
    between 0 and 23.05. *)
Theorem complexity_score_range (d : dataset float) (book : string)
    (vr tc rr : float) (rp : Z) :
  field d book "structural_analysis" "vocabulary_richness" = Ok (PyFloat vr) ->
  field d book "structural_analysis" "thematic_cohesion" = Ok (PyFloat tc) ->
  field d book "structural_analysis" "repetition_rate" = Ok (PyFloat rr) ->
  field d book "structural_analysis" "rhythmic_patterns" = Ok (PyInt rp) ->
  PrimFloat.leb 0 vr = true -> PrimFloat.leb vr 1 = true ->
  PrimFloat.leb 0 tc = true -> PrimFloat.leb tc 10 = true ->
  PrimFloat.leb 0 rr = true -> PrimFloat.leb rr 100 = true ->
  (0 <= rp <= 100)%Z ->
  exists r, complexity_of d book = Ok (PyFloat r)
            /\ PrimFloat.leb 0 r = true /\ PrimFloat.leb r 23.05 = true.
Proof.
  intros Hvr Htc Hrr Hrp Rvr0 Rvr Rtc0 Rtc Rrr0 Rrr Rrp.
  destruct (complexity_range vr tc rr rp Rvr0 Rvr Rtc0 Rtc Rrr0 Rrr Rrp)
    as (Hconv & H0 & H1).
  eexists. split; [| split; [exact H0 | exact H1]].
  apply (Binary64.complexity_of_binary64 d book vr tc rr rp (f64_of_int rp)); assumption.
Qed.

Lemma complexity_score_range_witness :
  exists r, complexity_of (load_advanced_data : dataset float) "Coran" = Ok (PyFloat r)
            /\ PrimFloat.leb 0 r = true /\ PrimFloat.leb r 23.05 = true.
Proof.
  apply (complexity_score_range load_advanced_data "Coran" 0.85 9.2 12.3 94);
    try (vm_compute; reflexivity).
  lia.
Defined.

End ComplexityRange.

(** ** What each method reads of the object *)

Section Reads.
Context {F : Type} `{FloatOps F}.

Section At.
Variables a a' : AdvancedSacredBooksAnalysis F.

Lemma same_at_ret {A} (x : A) : same_at a a' (mret x) (mret x).
Proof.
  exists (Ok x), []. intros scr. unfold mret, M_ret. now rewrite app_nil_r.
Qed.

Lemma same_at_lift {A} (o : outcome A) : same_at a a' (lift o) (lift o).
Proof. exists o, []. intros scr. unfold lift. now rewrite app_nil_r. Qed.

Lemma same_at_emit (e : event F) : same_at a a' (emit e) (emit e).
Proof. exists (Ok tt), [e]. intros scr. split; reflexivity. Qed.

Lemma same_at_bind {A B} (c c' : M A) (k k' : A -> M B) :
  same_at a a' c c' -> (forall x, same_at a a' (k x) (k' x)) ->
  same_at a a' (c ≫= k) (c' ≫= k').
Proof.
  intros (r & out & Hc) Hk. destruct r as [x | e].
  - destruct (Hk x) as (r2 & out2 & Hkx). exists r2, (out ++ out2). intros scr.
    unfold mbind, M_bind. destruct (Hc scr) as [-> ->].
    destruct (Hkx (scr ++ out)) as [-> ->]. now rewrite app_assoc.
  - exists (Raise e), out. intros scr.
    unfold mbind, M_bind. now destruct (Hc scr) as [-> ->].
Qed.

Lemma same_at_get_self {B} (k k' : AdvancedSacredBooksAnalysis F -> M B) :
  same_at a a' (k a) (k' a') -> same_at a a' (get_self ≫= k) (get_self ≫= k').
Proof.
  intros (r & out & Hk). exists r, out. intros scr.
  unfold mbind, M_bind, get_self. cbn [self]. apply Hk.
Qed.

Lemma same_at_for_each {A} (l : list A) (body : A -> M unit) :
  (forall x, same_at a a' (body x) (body x)) ->
  same_at a a' (for_each l body) (for_each l body).
Proof.
  intros Hbody. induction l as [| x l IH]; cbn [for_each].
  - apply same_at_ret.
  - apply same_at_bind; [apply Hbody | intros _; exact IH].
Qed.

Lemma same_at_collect {A B} (f : A -> M B) (l : list A) :
  (forall x, same_at a a' (f x) (f x)) -> same_at a a' (collect f l) (collect f l).
Proof.
  intros Hf. induction l as [| x l IH]; cbn [collect].
  - apply same_at_ret.
  - apply same_at_bind; [apply Hf | intros b].
    apply same_at_bind; [exact IH | intros bs; apply same_at_ret].
Qed.

End At.

Ltac same_at_step :=
  first
    [ apply same_at_bind; [| intros ?]
    | apply same_at_for_each; intros ?
    | apply same_at_collect; intros ?
    | apply same_at_emit
    | apply same_at_lift
    | apply same_at_ret
    | case_decide
    | match goal with
      | |- same_at _ _ (let '(_, _) := ?p in _) _ => destruct p
      end ].

Ltac same_page :=
  apply same_at_get_self; cbn beta;
  repeat match goal with
         | Heq : _ = ?x |- context [?x] => rewrite <- Heq
         end;
  repeat same_at_step.

Lemma same_at_header (a a' : AdvancedSacredBooksAnalysis F) :
  books_data a = books_data a' -> linguistic_data a = linguistic_data a' ->
  same_at a a' create_advanced_header create_advanced_header.
Proof. intros Hb Hl. unfold create_advanced_header. same_page. Qed.

Lemma same_at_structural (a a' : AdvancedSacredBooksAnalysis F) :
  books_data a = books_data a' ->
  same_at a a' create_structural_analysis create_structural_analysis.
Proof. intros Hb. unfold create_structural_analysis. same_page. Qed.

Lemma same_at_linguistic (a a' : AdvancedSacredBooksAnalysis F) :
  books_data a = books_data a' -> linguistic_data a = linguistic_data a' ->
  same_at a a' create_linguistic_analysis create_linguistic_analysis.
Proof. intros Hb Hl. unfold create_linguistic_analysis. same_page. Qed.

Lemma same_at_thematic (a a' : AdvancedSacredBooksAnalysis F) :
  same_at a a' create_thematic_network_analysis create_thematic_network_analysis.
Proof. unfold create_thematic_network_analysis. repeat same_at_step. Qed.

Lemma same_at_historical (a a' : AdvancedSacredBooksAnalysis F) :
  historical_data a = historical_data a' ->
  same_at a a' create_historical_evolution create_historical_evolution.
Proof. intros Hh. unfold create_historical_evolution. same_page. Qed.

Lemma same_at_insights (a a' : AdvancedSacredBooksAnalysis F) :
  same_at a a' create_comparative_insights create_comparative_insights.
Proof. unfold create_comparative_insights. repeat same_at_step. Qed.

Lemma same_at_show_metrics (a a' : AdvancedSacredBooksAnalysis F) data rows :
  same_at a a' (show_metrics data rows) (show_metrics data rows).
Proof. unfold show_metrics. repeat same_at_step. Qed.

Lemma same_at_metrics (a a' : AdvancedSacredBooksAnalysis F) selected_book :
  books_data a = books_data a' ->
  same_at a a' (create_advanced_metrics_dashboard selected_book)
               (create_advanced_metrics_dashboard selected_book).
Proof.
  intros Hb. unfold create_advanced_metrics_dashboard. same_page;
    apply same_at_show_metrics.
Qed.

Lemma same_at_run (a a' : AdvancedSacredBooksAnalysis F) analysis_type selected_book :
  books_data a = books_data a' -> linguistic_data a = linguistic_data a' ->
  historical_data a = historical_data a' ->
  same_at a a' (run_advanced_dashboard analysis_type selected_book)
               (run_advanced_dashboard analysis_type selected_book).
Proof.
  intros Hb Hl Hh. unfold run_advanced_dashboard.
  apply same_at_bind; [apply same_at_emit | intros _].
  apply same_at_bind; [now apply same_at_header | intros _].
  apply same_at_bind; [| intros _; apply same_at_emit].
  repeat case_decide;
    auto using same_at_metrics, same_at_structural, same_at_linguistic, same_at_thematic,
      same_at_historical, same_at_insights, same_at_ret.
Qed.

Lemma same_at_perform (o : operation) (a a' : AdvancedSacredBooksAnalysis F) :
  agree_on (reads o) a a' -> same_at a a' (perform o) (perform o).
Proof.
  intros (Hb & _ & Hl & Hh).
  destruct o; cbn [perform reads In] in *;
    auto 10 using same_at_header, same_at_structural, same_at_linguistic, same_at_thematic,
      same_at_historical, same_at_insights, same_at_metrics, same_at_run.
Qed.

(** X17. Each method depends on the object only through the attributes it
    subscripts: run on two objects that agree on these, whatever else they
    hold, it returns the same result and renders the same page. *)
Theorem pages_read_their_data (o : operation) (a a' : AdvancedSacredBooksAnalysis F)
    (scr : list (event F)) :
  agree_on (reads o) a a' ->
  (perform o {| self := a; screen := scr |}).1 = (perform o {| self := a'; screen := scr |}).1
  /\ screen (perform o {| self := a; screen := scr |}).2
     = screen (perform o {| self := a'; screen := scr |}).2.
Proof.
  intros Hagree. destruct (same_at_perform o a a' Hagree) as (r & out & Hrun).
  destruct (Hrun scr) as [-> ->]. split; reflexivity.
Qed.

(** X18. The table [load_thematic_analysis] returns is stored and never read:
    whatever [thematic_data] is replaced with, every method returns the same
    result and renders the same page. *)
Theorem thematic_data_never_read (o : operation) (s : session F)
    (t : gmap string (gmap string (list (cell F)))) :
  (perform o (set_thematic_data t s)).1 = (perform o s).1
  /\ screen (perform o (set_thematic_data t s)).2 = screen (perform o s).2.
Proof.
  destruct s as [a scr]. unfold set_thematic_data. cbn [self screen].
  match goal with |- context [perform o {| self := ?a1; screen := _ |}] =>
    destruct (same_at_perform o a1 a) as (r & out & Hrun)
  end.
  - unfold agree_on. cbn [books_data thematic_data linguistic_data historical_data].
    repeat split; try (intros _; reflexivity).
    intros Hin. exfalso. destruct o; cbn [reads In] in Hin;
      repeat (destruct Hin as [Hin | Hin]; [discriminate Hin |]); exact Hin.
  - destruct (Hrun scr) as [-> ->]. split; reflexivity.
Qed.

End Reads.

Lemma pages_read_their_data_witness :
  (perform op_structural fresh).1
  = (perform op_structural ({| self := books_only; screen := [] |} : session float)).1
  /\ screen (perform op_structural fresh).2
     = screen (perform op_structural ({| self := books_only; screen := [] |} : session float)).2.
Proof.
  apply (pages_read_their_data op_structural init books_only []).
  unfold agree_on. cbn [reads In].
  split; [intros _; reflexivity |].
  repeat split; intros Hin;
    repeat (destruct Hin as [Hin | Hin]; [discriminate Hin |]); destruct Hin.
Defined.

(** ** The colours of the books *)

(** X16. The two colour tables agree: a book has in [get_book_color] the colour
    [get_color_map] gives it; any other name gets the grey ['#666666'], which
    is the colour of no book; and two books never share a colour. *)
Theorem book_colors :
  (forall book, get_book_color book = default "#666666" (get_color_map !! book))
  /\ (forall book, ~ In book books -> get_book_color book = "#666666")
  /\ (forall book, In book books -> get_book_color book <> "#666666")
  /\ (forall a b, In a books -> In b books ->
                  get_book_color a = get_book_color b -> a = b).
Proof.
  split; [reflexivity |]. split; [| split].
  - intros book Hnot. unfold get_book_color, dict_of, books in *. cbn [fold_left fst snd In] in *.
    rewrite !lookup_insert_ne by (intros <-; apply Hnot; auto).
    now rewrite lookup_empty.
  - unfold books. cbn [In]. intros book [<- | [<- | [<- | []]]]; vm_compute; discriminate.
  - unfold books. cbn [In].
    intros a b [<- | [<- | [<- | []]]] [<- | [<- | [<- | []]]] Heq;
      first [reflexivity | vm_compute in Heq; discriminate Heq].
Qed.
